(** * webpath: tree snapshots, remote walk and recursive synchronisation

    A shallow embedding of [src/webpath/webpath.py] and
    [src/webpath/server.py].  Python objects become records, exceptions
    become the [Raise] branch of [result], and code that talks to the local
    or the remote file system threads a [World] which also records the
    primitive calls in the order they were issued. *)

From Stdlib Require Import ZArith QArith String List Ascii Lia.
From stdpp Require Import base gmap sets list strings.

Set Warnings "-register-all".

Open Scope string_scope.
Open Scope Z_scope.

(** ** Exceptions and results *)

Inductive exn :=
| NameError (name : string)
| AttributeError (attr : string)
| TypeError (msg : string)
| ValueError
| AssertionError
| FileNotFoundError
| PermissionError
| OSError
| SFTPError (msg : string)
| UnicodeEncodeError
| UnicodeDecodeError
| LookupError
| RecursionError.

(** [IOError] is an alias of [OSError]; [FileNotFoundError] and
    [PermissionError] are its subclasses. *)
Definition is_IOError (e : exn) : bool :=
  match e with
  | FileNotFoundError | PermissionError | OSError => true
  | _ => false
  end.

Definition is_FileNotFoundError (e : exn) : bool :=
  match e with
  | FileNotFoundError => true
  | _ => false
  end.

Inductive result (A : Type) :=
| Ok (a : A)
| Raise (e : exn).
Arguments Ok {A} a.
Arguments Raise {A} e.

Definition rbind {A B} (r : result A) (k : A -> result B) : result B :=
  match r with
  | Ok a => k a
  | Raise e => Raise e
  end.

(** Name resolution: a module's global names are those bound by its import
    statements and its top-level definitions. *)
Definition lookup_name (globals : list string) (name : string) : result unit :=
  if existsb (String.eqb name) globals then Ok tt else Raise (NameError name).

(** Attribute lookup on an instance. *)
Definition getattr (attrs : list string) (name : string) : result unit :=
  if existsb (String.eqb name) attrs then Ok tt else Raise (AttributeError name).

(** ** pathlib's pure paths, posix flavour *)

Module PurePath.

Record t := mk { root : string; parts : list string }.

Fixpoint split_aux (s : string) (cur : string) : list string :=
  match s with
  | EmptyString => [cur]
  | String c s' =>
      if Ascii.eqb c "/"%char then cur :: split_aux s' EmptyString
      else split_aux s' (cur ++ String c EmptyString)
  end.

(** [s.split("/")] *)
Definition split (s : string) : list string := split_aux s EmptyString.

Definition keep_part (p : string) : bool :=
  negb (String.eqb p "" || String.eqb p ".").

(** Leading slashes: none is a relative path, exactly two are kept, any
    other number collapses to one. *)
Definition root_of (s : string) : string :=
  match s with
  | String "/" (String "/" (String "/" _)) => "/"
  | String "/" (String "/" _) => "//"
  | String "/" _ => "/"
  | _ => ""
  end.

Definition parse (s : string) : t :=
  mk (root_of s) (List.filter keep_part (split s)).

Definition is_absolute (p : t) : bool := negb (String.eqb (root p) "").

(** [self / other] for a string [other]: an absolute right operand
    replaces the left one. *)
Definition joinpath (self : t) (other : string) : t :=
  let o := parse other in
  if is_absolute o then o else mk (root self) (parts self ++ parts o).

Fixpoint join_parts (l : list string) : string :=
  match l with
  | [] => ""
  | [p] => p
  | p :: l' => p ++ "/" ++ join_parts l'
  end.

Definition as_posix (p : t) : string :=
  match root p, parts p with
  | EmptyString, [] => "."
  | r, l => r ++ join_parts l
  end.

Fixpoint strip_prefix (pre l : list string) : option (list string) :=
  match pre, l with
  | [], _ => Some l
  | x :: pre', y :: l' => if String.eqb x y then strip_prefix pre' l' else None
  | _ :: _, [] => None
  end.

(** [self.relative_to(other)]: [ValueError] unless [other] is a prefix. *)
Definition relative_to (self : t) (other : string) : result t :=
  let o := parse other in
  if String.eqb (root self) (root o) then
    match strip_prefix (parts o) (parts self) with
    | Some rest => Ok (mk "" rest)
    | None => Raise ValueError
    end
  else Raise ValueError.

(** [str(p)] and [p.__fspath__()]: with the posix flavour, the posix form. *)
Definition __str__ (p : t) : string := as_posix p.
Definition __fspath__ (p : t) : string := __str__ p.

Definition name (p : t) : string := List.last (parts p) "".

Definition parent (p : t) : t := mk (root p) (removelast (parts p)).

#[global] Instance eq_dec : EqDecision t.
Proof. solve_decision. Defined.

Definition eqb (a b : t) : bool := bool_decide (a = b).

End PurePath.

(** ** Stat results *)

(** One record serves [os.stat_result] and paramiko's [SFTPAttributes]:
    local time stamps are floats (here rationals, every finite float is
    one), remote ones are whole seconds.  [filename] is only set by a
    directory listing. *)
Record SFTPAttributes := mkAttr {
  filename : string;
  st_mode : Z;
  st_size : Z;
  st_atime : Q;
  st_mtime : Q
}.

Definition S_IFMT (mode : Z) : Z := Z.land mode 61440.   (* 0o170000 *)
Definition S_IFDIR : Z := 16384.                          (* 0o040000 *)
Definition S_IFREG : Z := 32768.                          (* 0o100000 *)
Definition S_ISDIR (mode : Z) : bool := S_IFMT mode =? S_IFDIR.
Definition S_ISREG (mode : Z) : bool := S_IFMT mode =? S_IFREG.

(** [int(x)] on a float: truncation towards zero. *)
Definition py_int (x : Q) : Z := Z.quot (Qnum x) (Z.pos (Qden x)).

#[global] Instance Q_eq_dec : EqDecision Q.
Proof. solve_decision. Defined.

#[global] Instance SFTPAttributes_eq_dec : EqDecision SFTPAttributes.
Proof. solve_decision. Defined.

(** ** The world: two file systems and the calls made on them *)

(** Primitive calls of the collaborators: paramiko's [SFTPClient] (the
    remote side) and [os] / [pathlib] (the local side). *)
Inductive event :=
| EvListdirAttr (path : string)
| EvStat (path : string)
| EvOpen (path mode : string)
| EvMkdir (path : string)
| EvRmdir (path : string)
| EvRemove (path : string)
| EvUtime (path : string) (atime mtime : Q)
| EvPut (localpath remotepath : string)
| EvRequestOpen (path : string) (flags : Z)
| EvRequestClose (handle : string)
| EvRead (path : string)
| EvWrite (path : string)
| EvClose (path : string)
| EvOsStat (path : string)
| EvOsUtime (path : string) (atime mtime : Q)
| EvRglob (path : string).

#[global] Instance event_eq_dec : EqDecision event.
Proof. solve_decision. Defined.

(** Nodes are keyed by their normalised posix path and kept in listing
    order.  [faults] makes a primitive call raise (permission denied, I/O
    failure, ...) whatever the file system holds.  [now] is the time a
    server stamps on what it creates. *)
Record World := mkWorld {
  remote : list (string * SFTPAttributes);
  local : list (string * SFTPAttributes);
  remote_data : list (string * list Byte.byte);
  faults : list (event * exn);
  now : Z;
  log : list event
}.

Definition M (S A : Type) : Type := S -> result A * S.

Definition ret {S A} (a : A) : M S A := fun w => (Ok a, w).
Definition raise {S A} (e : exn) : M S A := fun w => (Raise e, w).
Definition bind {S A B} (m : M S A) (k : A -> M S B) : M S B :=
  fun w => match m w with
           | (Ok a, w') => k a w'
           | (Raise e, w') => (Raise e, w')
           end.
Definition lift {S A} (r : result A) : M S A := fun w => (r, w).

(** [try: m except <handled>: h]; what [m] did before raising stays done. *)
Definition try_except {S A} (m : M S A) (handled : exn -> bool) (h : M S A) : M S A :=
  fun w => match m w with
           | (Ok a, w') => (Ok a, w')
           | (Raise e, w') => if handled e then h w' else (Raise e, w')
           end.

Declare Scope py_scope.
Delimit Scope py_scope with py.
Notation "x <- m ;; k" := (bind m (fun x => k))
  (at level 100, m at next level, right associativity) : py_scope.
Notation "m ;;; k" := (bind m (fun _ => k))
  (at level 100, right associativity) : py_scope.
Open Scope py_scope.

Definition norm (path : string) : string := PurePath.as_posix (PurePath.parse path).

Definition parent_of (path : string) : string :=
  PurePath.as_posix (PurePath.parent (PurePath.parse path)).

Fixpoint assoc {A} (k : string) (l : list (string * A)) : option A :=
  match l with
  | [] => None
  | (k', v) :: l' => if String.eqb k k' then Some v else assoc k l'
  end.

Fixpoint assoc_set {A} (k : string) (v : A) (l : list (string * A)) : list (string * A) :=
  match l with
  | [] => [(k, v)]
  | (k', v') :: l' => if String.eqb k k' then (k, v) :: l' else (k', v') :: assoc_set k v l'
  end.

Definition assoc_del {A} (k : string) (l : list (string * A)) : list (string * A) :=
  List.filter (fun kv => negb (String.eqb k (fst kv))) l.

Definition children {A} (dir : string) (l : list (string * A)) : list (string * A) :=
  List.filter (fun kv => negb (String.eqb (fst kv) ".") && String.eqb (parent_of (fst kv)) dir) l.

Fixpoint fault_of (ev : event) (l : list (event * exn)) : option exn :=
  match l with
  | [] => None
  | (ev', e) :: l' => if bool_decide (ev = ev') then Some e else fault_of ev l'
  end.

Definition add_log (ev : event) (w : World) : World :=
  mkWorld (remote w) (local w) (remote_data w) (faults w) (now w) (log w ++ [ev]).

Definition set_remote (r : list (string * SFTPAttributes)) (w : World) : World :=
  mkWorld r (local w) (remote_data w) (faults w) (now w) (log w).

Definition set_local (l : list (string * SFTPAttributes)) (w : World) : World :=
  mkWorld (remote w) l (remote_data w) (faults w) (now w) (log w).

Definition set_remote_data (d : list (string * list Byte.byte)) (w : World) : World :=
  mkWorld (remote w) (local w) d (faults w) (now w) (log w).

(** A primitive call is logged, then either an injected fault is raised or
    the call acts on the file system. *)
Definition prim {A} (ev : event) (body : M World A) : M World A :=
  fun w => let w' := add_log ev w in
           match fault_of ev (faults w) with
           | Some e => (Raise e, w')
           | None => body w'
           end.

Definition is_dir_node (l : list (string * SFTPAttributes)) (path : string) : bool :=
  String.eqb path "." ||
  match assoc path l with
  | Some a => S_ISDIR (st_mode a)
  | None => false
  end.

(** *** The remote side: paramiko's [SFTPClient] *)
Module Sftp.

Definition stat (path : string) : M World SFTPAttributes :=
  prim (EvStat path) (fun w =>
    match assoc (norm path) (remote w) with
    | Some a => (Ok a, w)
    | None => (Raise FileNotFoundError, w)
    end).

Definition listdir_attr (path : string) : M World (list SFTPAttributes) :=
  prim (EvListdirAttr path) (fun w =>
    if is_dir_node (remote w) (norm path)
    then (Ok (List.map snd (children (norm path) (remote w))), w)
    else (Raise FileNotFoundError, w)).

Definition mkdir (path : string) : M World unit :=
  prim (EvMkdir path) (fun w =>
    let p := norm path in
    match assoc p (remote w) with
    | Some _ => (Raise OSError, w)
    | None =>
        if is_dir_node (remote w) (parent_of p)
        then (Ok tt, set_remote (remote w ++
                [(p, mkAttr (PurePath.name (PurePath.parse p)) (S_IFDIR + 511) 0
                            (inject_Z (now w)) (inject_Z (now w)))]) w)
        else (Raise FileNotFoundError, w)
    end).

Definition rmdir (path : string) : M World unit :=
  prim (EvRmdir path) (fun w =>
    let p := norm path in
    match assoc p (remote w) with
    | None => (Raise FileNotFoundError, w)
    | Some a =>
        if S_ISDIR (st_mode a) && bool_decide (children p (remote w) = [])
        then (Ok tt, set_remote (assoc_del p (remote w)) w)
        else (Raise OSError, w)
    end).

Definition remove (path : string) : M World unit :=
  prim (EvRemove path) (fun w =>
    let p := norm path in
    match assoc p (remote w) with
    | None => (Raise FileNotFoundError, w)
    | Some a =>
        if S_ISDIR (st_mode a) then (Raise OSError, w)
        else (Ok tt, set_remote (assoc_del p (remote w)) w)
    end).

(** The wire format carries whole seconds. *)
Definition utime (path : string) (atime mtime : Q) : M World unit :=
  prim (EvUtime path atime mtime) (fun w =>
    let p := norm path in
    match assoc p (remote w) with
    | None => (Raise FileNotFoundError, w)
    | Some a =>
        (Ok tt, set_remote (assoc_set p
           (mkAttr (filename a) (st_mode a) (st_size a)
                   (inject_Z (py_int atime)) (inject_Z (py_int mtime))) (remote w)) w)
    end).

(** Byte transfer of a local file; the attributes returned are those of
    the remote node right after the transfer. *)
Definition put (localpath remotepath : string) : M World SFTPAttributes :=
  prim (EvPut localpath remotepath) (fun w =>
    match assoc (norm localpath) (local w) with
    | None => (Raise FileNotFoundError, w)
    | Some la =>
        let p := norm remotepath in
        if is_dir_node (remote w) (parent_of p) && negb (is_dir_node (remote w) p)
        then let a := mkAttr (PurePath.name (PurePath.parse p)) (S_IFREG + 420)
                             (st_size la) (inject_Z (now w)) (inject_Z (now w)) in
             (Ok a, set_remote (assoc_set p a (remote w)) w)
        else (Raise OSError, w)
    end).

End Sftp.

(** *** The local side: [os] and [pathlib] *)
Module Os.

Definition stat (path : string) : M World SFTPAttributes :=
  prim (EvOsStat path) (fun w =>
    match assoc (norm path) (local w) with
    | Some a => (Ok a, w)
    | None => (Raise FileNotFoundError, w)
    end).

Definition utime (path : string) (atime mtime : Q) : M World unit :=
  prim (EvOsUtime path atime mtime) (fun w =>
    let p := norm path in
    match assoc p (local w) with
    | None => (Raise FileNotFoundError, w)
    | Some a =>
        (Ok tt, set_local (assoc_set p
           (mkAttr (filename a) (st_mode a) (st_size a) atime mtime) (local w)) w)
    end).

Definition is_below (dir : PurePath.t) (path : string) : bool :=
  let p := PurePath.parse path in
  String.eqb (PurePath.root p) (PurePath.root dir) &&
  match PurePath.strip_prefix (PurePath.parts dir) (PurePath.parts p) with
  | Some (_ :: _) => true
  | _ => false
  end.

(** [Path(path).rglob("*")]: every entry below [path]. *)
Definition rglob (path : string) : M World (list PurePath.t) :=
  prim (EvRglob path) (fun w =>
    (Ok (List.map (fun kv => PurePath.parse (fst kv))
           (List.filter (fun kv => is_below (PurePath.parse path) (fst kv)) (local w))), w)).

(** [Path.is_dir()] and [Path.is_file()] answer [False] when the node
    is missing. *)
Definition is_dir (p : PurePath.t) : M World bool :=
  try_except (a <- stat (PurePath.as_posix p) ;; ret (S_ISDIR (st_mode a)))
             is_FileNotFoundError (ret false).

Definition is_file (p : PurePath.t) : M World bool :=
  try_except (a <- stat (PurePath.as_posix p) ;; ret (S_ISREG (st_mode a)))
             is_FileNotFoundError (ret false).

End Os.

Definition liftW {H A} (m : M World A) : M (H * World) A :=
  fun s => match m (snd s) with (r, w') => (r, (fst s, w')) end.

Definition get_self {H} : M (H * World) H := fun s => (Ok (fst s), s).

Definition set_self {H} (h : H) : M (H * World) unit := fun s => (Ok tt, (h, snd s)).

(** Run a method on an object whose later state is not looked at. *)
Definition on_object {H A} (h : H) (m : M (H * World) A) : M World A :=
  fun w => match m (h, w) with (r, s) => (r, snd s) end.

(** ** Text and bytes *)

(** A [str] is a sequence of code points, a [bytes] a sequence of bytes. *)
Inductive pydata :=
| PyBytes (b : list Byte.byte)
| PyStr (s : list N).

Definition byte_of (n : N) : Byte.byte :=
  match Byte.of_N n with
  | Some b => b
  | None => Byte.x00
  end.

Module Utf8.

Open Scope N_scope.

Definition cont (n : N) : Byte.byte := byte_of (128 + N.land n 63).

Definition encode_char (c : N) : result (list Byte.byte) :=
  if c <? 128 then Ok [byte_of c]
  else if c <? 2048 then Ok [byte_of (192 + N.shiftr c 6); cont c]
  else if (55296 <=? c) && (c <=? 57343) then Raise UnicodeEncodeError
  else if c <? 65536 then
    Ok [byte_of (224 + N.shiftr c 12); cont (N.shiftr c 6); cont c]
  else if c <? 1114112 then
    Ok [byte_of (240 + N.shiftr c 18); cont (N.shiftr c 12); cont (N.shiftr c 6); cont c]
  else Raise UnicodeEncodeError.

(** [s.encode("utf-8")], errors="strict" *)
Fixpoint encode (s : list N) : result (list Byte.byte) :=
  match s with
  | [] => Ok []
  | c :: s' =>
      rbind (encode_char c) (fun bs =>
      rbind (encode s') (fun rest => Ok (bs ++ rest)%list))
  end.

Definition in_range (lo hi : N) (b : Byte.byte) : bool :=
  (lo <=? Byte.to_N b) && (Byte.to_N b <=? hi).

Definition low6 (b : Byte.byte) : N := N.land (Byte.to_N b) 63.

(** [b.decode("utf-8")], errors="strict": shortest forms only, no
    surrogates, nothing above U+10FFFF. *)
Fixpoint decode (bs : list Byte.byte) : result (list N) :=
  match bs with
  | [] => Ok []
  | b0 :: r0 =>
      let n0 := Byte.to_N b0 in
      if n0 <? 128 then rbind (decode r0) (fun s => Ok (n0 :: s))
      else
        match r0 with
        | [] => Raise UnicodeDecodeError
        | b1 :: r1 =>
            if in_range 194 223 b0 then
              if in_range 128 191 b1
              then rbind (decode r1) (fun s => Ok ((n0 - 192) * 64 + low6 b1 :: s))
              else Raise UnicodeDecodeError
            else
              match r1 with
              | [] => Raise UnicodeDecodeError
              | b2 :: r2 =>
                  if in_range 224 239 b0 then
                    if (if n0 =? 224 then in_range 160 191 b1
                        else if n0 =? 237 then in_range 128 159 b1
                        else in_range 128 191 b1) && in_range 128 191 b2
                    then rbind (decode r2) (fun s =>
                           Ok ((n0 - 224) * 4096 + low6 b1 * 64 + low6 b2 :: s))
                    else Raise UnicodeDecodeError
                  else
                    match r2 with
                    | [] => Raise UnicodeDecodeError
                    | b3 :: r3 =>
                        if in_range 240 244 b0 then
                          if (if n0 =? 240 then in_range 144 191 b1
                              else if n0 =? 244 then in_range 128 143 b1
                              else in_range 128 191 b1)
                             && in_range 128 191 b2 && in_range 128 191 b3
                          then rbind (decode r3) (fun s =>
                                 Ok ((n0 - 240) * 262144 + low6 b1 * 4096
                                     + low6 b2 * 64 + low6 b3 :: s))
                          else Raise UnicodeDecodeError
                        else Raise UnicodeDecodeError
                    end
              end
        end
  end.

End Utf8.

Record codec := mkCodec {
  codec_encode : list N -> result (list Byte.byte);
  codec_decode : list Byte.byte -> result (list N)
}.

Definition utf_8 : codec := mkCodec Utf8.encode Utf8.decode.

(** The codec a name stands for; [registry] holds the codecs other than
    UTF-8.  An encoding of [None] is not a name at all. *)
Definition lookup_codec (registry : string -> option codec)
    (encoding : option string) : result codec :=
  match encoding with
  | None => Raise (TypeError "argument 'encoding' must be str, not None")
  | Some name =>
      if String.eqb name "utf-8" then Ok utf_8
      else match registry name with
           | Some c => Ok c
           | None => Raise LookupError
           end
  end.

(** [text.encode(encoding)]; only a [str] has the method. *)
Definition py_encode (registry : string -> option codec)
    (text : pydata) (encoding : option string) : result pydata :=
  match text with
  | PyStr s =>
      rbind (lookup_codec registry encoding) (fun c =>
      rbind (codec_encode c s) (fun b => Ok (PyBytes b)))
  | PyBytes _ => Raise (AttributeError "encode")
  end.

(** [text.decode(encoding)]; only a [bytes] has the method. *)
Definition py_decode (registry : string -> option codec)
    (text : pydata) (encoding : option string) : result pydata :=
  match text with
  | PyBytes b =>
      rbind (lookup_codec registry encoding) (fun c =>
      rbind (codec_decode c b) (fun s => Ok (PyStr s)))
  | PyStr _ => Raise (AttributeError "decode")
  end.

(** ** Open remote files *)

(** paramiko's [SFTPFile]: a raw byte stream on a remote file. *)
Module SFTPFile.

Definition FLAG_READ : Z := 1.
Definition FLAG_WRITE : Z := 2.
Definition FLAG_APPEND : Z := 4.
Definition FLAG_BINARY : Z := 16.

Record t := mk { path : string; _flags : Z; pos : nat; closed : bool }.

(** [c in mode] *)
Definition mode_has (c : ascii) (mode : string) : bool :=
  existsb (Ascii.eqb c) (list_ascii_of_string mode).

Definition flags_of_mode (mode : string) : Z :=
  Z.lor (if mode_has "r" mode || mode_has "+" mode then FLAG_READ else 0)
 (Z.lor (if mode_has "w" mode || mode_has "+" mode then FLAG_WRITE else 0)
 (Z.lor (if mode_has "a" mode then Z.lor FLAG_WRITE FLAG_APPEND else 0)
        (if mode_has "b" mode then FLAG_BINARY else 0))).

Definition has_flag (f : t) (flag : Z) : bool := negb (Z.land (_flags f) flag =? 0).

Definition data_of (f : t) (w : World) : list Byte.byte :=
  match assoc (path f) (remote_data w) with
  | Some d => d
  | None => []
  end.

Definition set_pos (n : nat) (f : t) : t := mk (path f) (_flags f) n (closed f).

(** [read(size)]: up to [size] bytes from the position, everything that
    is left when [size] is [None]. *)
Definition read (size : option nat) : M (t * World) (list Byte.byte) :=
  f <- get_self ;;
  if closed f then raise OSError
  else if negb (has_flag f FLAG_READ) then raise OSError
  else
    got <- liftW (prim (EvRead (path f)) (fun w =>
             let rest := skipn (pos f) (data_of f w) in
             (Ok (match size with Some n => firstn n rest | None => rest end), w))) ;;
    set_self (set_pos (pos f + List.length got)%nat f) ;;;
    ret got.

Definition store (f : t) (bytes : list Byte.byte) (w : World) : World :=
  let old := data_of f w in
  let at_ := if has_flag f FLAG_APPEND then List.length old else pos f in
  let new := (firstn at_ old ++ bytes ++ skipn (at_ + List.length bytes) old)%list in
  set_remote_data (assoc_set (path f) new (remote_data w))
    (match assoc (path f) (remote w) with
     | Some a => set_remote (assoc_set (path f)
                   (mkAttr (filename a) (st_mode a) (Z.of_nat (List.length new))
                           (st_atime a) (inject_Z (now w))) (remote w)) w
     | None => w
     end).

(** [write(data)]: a [str] is sent as its UTF-8 encoding. *)
Definition write (data : pydata) : M (t * World) unit :=
  bytes <- lift (match data with
                 | PyBytes b => Ok b
                 | PyStr s => Utf8.encode s
                 end) ;;
  f <- get_self ;;
  if closed f then raise OSError
  else if negb (has_flag f FLAG_WRITE) then raise OSError
  else
    liftW (prim (EvWrite (path f)) (fun w => (Ok tt, store f bytes w))) ;;;
    size <- liftW (fun w => (Ok (List.length (data_of f w)), w)) ;;
    set_self (set_pos (if has_flag f FLAG_APPEND then size
                       else (pos f + List.length bytes)%nat) f).

Definition close : M (t * World) unit :=
  f <- get_self ;;
  if closed f then ret tt
  else
    liftW (prim (EvClose (path f)) (fun w => (Ok tt, w))) ;;;
    set_self (mk (path f) (_flags f) (pos f) true).

End SFTPFile.

(** paramiko's [SFTPClient.open], the method [SFTPHandler.open] refines. *)
Definition SFTPClient_open (fname mode : string) : M World SFTPFile.t :=
  prim (EvOpen fname mode) (fun w =>
    let p := norm fname in
    let creating := SFTPFile.mode_has "w" mode || SFTPFile.mode_has "a" mode
                    || SFTPFile.mode_has "x" mode in
    let old := match assoc p (remote_data w) with Some d => d | None => [] end in
    let opened (d : list Byte.byte) (w' : World) :=
      (Ok (SFTPFile.mk p (SFTPFile.flags_of_mode mode)
             (if SFTPFile.mode_has "a" mode then List.length d else 0%nat) false),
       set_remote_data (assoc_set p d (remote_data w')) w') in
    match assoc p (remote w) with
    | Some a =>
        if S_ISDIR (st_mode a) then (Raise OSError, w)
        else if SFTPFile.mode_has "x" mode then (Raise OSError, w)
        else if SFTPFile.mode_has "w" mode
        then opened [] (set_remote (assoc_set p
               (mkAttr (filename a) (st_mode a) 0 (st_atime a) (inject_Z (now w)))
               (remote w)) w)
        else opened old w
    | None =>
        if creating && is_dir_node (remote w) (parent_of p) && negb (String.eqb p ".")
        then opened [] (set_remote (remote w ++
               [(p, mkAttr (PurePath.name (PurePath.parse p)) (S_IFREG + 420) 0
                           (inject_Z (now w)) (inject_Z (now w)))])%list w)
        else (Raise FileNotFoundError, w)
    end).

(** ** The stream adapter *)

Module FileHandler.

Record t := mk {
  file_handler : SFTPFile.t;
  encoding : option string;
  errors : option string;
  newline : option string
}.

Definition zoom {A} (m : M (SFTPFile.t * World) A) : M (t * World) A :=
  fun s =>
    match m (file_handler (fst s), snd s) with
    | (r, (f', w')) =>
        (r, (mk f' (encoding (fst s)) (errors (fst s)) (newline (fst s)), w'))
    end.

(** [self.file_handler._flags & self.file_handler.FLAG_BINARY]: an int,
    true when it is not zero. *)
Definition _is_binary (self : t) : Z :=
  Z.land (SFTPFile._flags (file_handler self)) SFTPFile.FLAG_BINARY.

Definition truthy (z : Z) : bool := negb (z =? 0).

Section WithCodecs.

Variable registry : string -> option codec.

Definition read (size : option nat) : M (t * World) pydata :=
  text <- zoom (SFTPFile.read size) ;;
  self <- get_self ;;
  if negb (truthy (_is_binary self))
  then lift (py_decode registry (PyBytes text) (encoding self))
  else ret (PyBytes text).

Definition write (text : pydata) : M (t * World) unit :=
  self <- get_self ;;
  text' <- (if negb (truthy (_is_binary self))
            then lift (py_encode registry text (encoding self))
            else ret text) ;;
  zoom (SFTPFile.write text').

End WithCodecs.

Definition close : M (t * World) unit := zoom SFTPFile.close.

End FileHandler.

(** [with fh as f: body]: [Handler.__exit__] closes the stream on the way
    out, also when [body] raised, and lets the exception through. *)
Definition with_handler {A} (fh : FileHandler.t) (body : M (FileHandler.t * World) A)
  : M World A :=
  fun w =>
    match body (fh, w) with
    | (r, s) =>
        match FileHandler.close s with
        | (Ok _, s') => (r, snd s')
        | (Raise e, s') => (Raise e, snd s')
        end
    end.

(** [SFTPHandler.open]: defaults [mode="rb"], [encoding=None],
    [errors=None], [newline=None]. *)
Definition SFTPHandler_open (fname : string) (mode : option string)
    (encoding errors newline : option string) : M World FileHandler.t :=
  f <- SFTPClient_open fname (default "rb" mode) ;;
  ret (FileHandler.mk f encoding errors newline).

(** paramiko's [_request] for the two packets [touch] sends.  A status
    reply that reports a failure is raised; otherwise the reply's type
    comes back with its payload. *)
Definition CMD_HANDLE : Z := 102.
Definition SFTP_FLAG_WRITE : Z := 2.
Definition SFTP_FLAG_CREATE : Z := 8.
Definition SFTP_FLAG_EXCL : Z := 32.

Definition request_open (path : string) (flags : Z) : M World (Z * string) :=
  prim (EvRequestOpen path flags) (fun w =>
    let p := norm path in
    match assoc p (remote w) with
    | Some a =>
        if S_ISDIR (st_mode a) || negb (Z.land flags SFTP_FLAG_EXCL =? 0)
        then (Raise OSError, w)
        else (Ok (CMD_HANDLE, p), w)
    | None =>
        if negb (Z.land flags SFTP_FLAG_CREATE =? 0)
           && is_dir_node (remote w) (parent_of p) && negb (String.eqb p ".")
        then (Ok (CMD_HANDLE, p),
              set_remote (remote w ++
                [(p, mkAttr (PurePath.name (PurePath.parse p)) (S_IFREG + 420) 0
                            (inject_Z (now w)) (inject_Z (now w)))])%list w)
        else (Raise FileNotFoundError, w)
    end).

Definition request_close (handle : string) : M World unit :=
  prim (EvRequestClose handle) (fun w => (Ok tt, w)).

(** Names that resolve in every module. *)
Definition builtins : list string :=
  ["Exception"; "IOError"; "OSError"; "FileNotFoundError"; "NotImplementedError";
   "str"; "int"; "list"; "set"; "map"; "filter"; "any"; "reversed"].

(** ** Path handles: [webpath.py] *)

Module WebPath.

(** The names [webpath.py] binds at module level: its imports, [logger]
    and the class. *)
Definition module_globals : list string :=
  ["logging"; "io"; "sftp"; "sftp_attr"; "sftp_file"; "S_ISDIR"; "S_ISREG";
   "logger"; "WebPath"].

(** What an instance answers to: the three fields [__init__] sets and
    what the class body defines. *)
Definition instance_attrs : list string :=
  ["_path"; "_accessor"; "_stat"; "from_attr"; "stat"; "_reset_stat"; "parent";
   "name"; "as_posix"; "relative_to"; "__repr__"; "__str__"; "__fspath__";
   "__lt__"; "__truediv__"; "_mode"; "is_dir"; "is_file"; "open"; "read_text";
   "write_text"; "read_bytes"; "write_bytes"; "mkdir"; "rmdir"; "touch"; "unlink"].

(** The sftp handler a handle goes through. *)
Inductive accessor := SftpHandler (session : nat).

Record t := mk {
  _path : PurePath.t;
  _accessor : option accessor;
  _stat : option SFTPAttributes
}.

Definition as_posix (self : t) : string := PurePath.as_posix (_path self).
Definition __str__ (self : t) : string := as_posix self.
Definition __fspath__ (self : t) : string := __str__ self.

(** [self._accessor.<method>(...)]: no accessor, no method. *)
Definition via_accessor {A} (method : string) (call : M World A) : M (t * World) A :=
  self <- get_self ;;
  match _accessor self with
  | Some _ => liftW call
  | None => raise (AttributeError method)
  end.

Definition stat : M (t * World) SFTPAttributes :=
  self <- get_self ;;
  match _stat self with
  | None =>
      a <- via_accessor "stat" (Sftp.stat (PurePath.__fspath__ (_path self))) ;;
      set_self (mk (_path self) (_accessor self) (Some a)) ;;;
      ret a
  | Some a => ret a
  end.

Definition _reset_stat : M (t * World) unit :=
  self <- get_self ;;
  set_self (mk (_path self) (_accessor self) None).

(** [relative_to] reads [self._system], which no instance has. *)
Definition relative_to (self : t) (ancestor : string) : result t :=
  rbind (PurePath.relative_to (_path self) ancestor) (fun p =>
  rbind (getattr instance_attrs "_system") (fun _ =>
  Ok (mk p None None))).

Definition __truediv__ (self : t) (other : string) : t :=
  mk (PurePath.joinpath (_path self) other) (_accessor self) None.

Definition _mode : M (t * World) Z :=
  a <- stat ;; ret (st_mode a).

Definition is_dir : M (t * World) bool :=
  try_except (m <- _mode ;; ret (S_ISDIR m)) is_FileNotFoundError (ret false).

Definition is_file : M (t * World) bool :=
  try_except (m <- _mode ;; ret (S_ISREG m)) is_FileNotFoundError (ret false).

Definition open (mode : option string) (encoding errors newline : option string)
  : M (t * World) FileHandler.t :=
  _reset_stat ;;;
  self <- get_self ;;
  via_accessor "open"
    (SFTPHandler_open (__fspath__ self) (Some (default "rb" mode)) encoding errors newline).

Definition mkdir (parents : bool) : M (t * World) unit :=
  (if parents then raise AssertionError else ret tt) ;;;
  _reset_stat ;;;
  self <- get_self ;;
  via_accessor "mkdir" (Sftp.mkdir (__fspath__ self)).

Definition rmdir : M (t * World) unit :=
  _reset_stat ;;;
  self <- get_self ;;
  via_accessor "rmdir" (Sftp.rmdir (__fspath__ self)).

Definition unlink : M (t * World) unit :=
  _reset_stat ;;;
  self <- get_self ;;
  via_accessor "remove" (Sftp.remove (__fspath__ self)).

Section WithGlobals.

(** The module's global names, looked up when a function runs. *)
Variable globals : list string.

Definition resolve (name : string) : result unit :=
  lookup_name (globals ++ builtins) name.

(** [cls(Path(parent) / stat.filename, accessor, stat)] *)
Definition from_attr (parent : string) (acc : option accessor)
    (stat : SFTPAttributes) : result t :=
  rbind (resolve "Path") (fun _ =>
  Ok (mk (PurePath.joinpath (PurePath.parse parent) (filename stat)) acc (Some stat))).

(** [exist_ok] defaults to [True]. *)
Definition touch (exist_ok : option bool) : M (t * World) unit :=
  _reset_stat ;;;
  let flags := Z.lor SFTP_FLAG_CREATE SFTP_FLAG_WRITE in
  let flags := if negb (default true exist_ok) then Z.lor flags SFTP_FLAG_EXCL else flags in
  self <- get_self ;;
  reply <- via_accessor "_request" (request_open (__fspath__ self) flags) ;;
  if negb (fst reply =? CMD_HANDLE) then raise (SFTPError "Expected handle")
  else
    fun s =>
      match via_accessor "_request" (request_close (snd reply)) s with
      | (Ok _, s') => (Ok tt, s')
      | (Raise e, s') =>
          (* except Excpetion as e: pass *)
          match resolve "Excpetion" with
          | Ok _ => (Ok tt, s')
          | Raise ne => (Raise ne, s')
          end
      end.

End WithGlobals.

(** [self._path.parent] and [self._path.name]: plain paths and strings,
    not handles. *)
Definition parent (self : t) : PurePath.t := PurePath.parent (_path self).
Definition name (self : t) : string := PurePath.name (_path self).

Section WithStreams.

Variable registry : string -> option codec.

(** [io.text_encoding]: what it makes of a missing encoding depends on the
    interpreter. *)
Variable text_encoding : option string -> string.

Definition read_text (encoding errors : option string) : M (t * World) pydata :=
  let encoding := text_encoding encoding in
  f <- open (Some "rt") (Some encoding) errors None ;;
  liftW (with_handler f (FileHandler.read registry None)).

(** [f.write] returns nothing, and so does [write_text]. *)
Definition write_text (data : pydata) (encoding errors newline : option string)
  : M (t * World) unit :=
  let encoding := text_encoding encoding in
  f <- open (Some "w") (Some encoding) errors newline ;;
  liftW (with_handler f (FileHandler.write registry data)).

Definition read_bytes : M (t * World) pydata :=
  f <- open (Some "rb") None None None ;;
  liftW (with_handler f (FileHandler.read registry None)).

Definition write_bytes (data : pydata) : M (t * World) unit :=
  f <- open (Some "wb") None None None ;;
  liftW (with_handler f (FileHandler.write registry data)).

End WithStreams.

End WebPath.

(** ** Tree snapshots: [TreeList] *)

(** What a snapshot's list can hold: local paths ([pathlib.Path]), remote
    handles, and booleans. *)
Inductive pyobj :=
| PPath (p : PurePath.t)
| PWeb (h : WebPath.t)
| PBool (b : bool).

Definition obj_is_dir (o : pyobj) : M World bool :=
  match o with
  | PPath p => Os.is_dir p
  | PWeb h => on_object h WebPath.is_dir
  | PBool _ => raise (AttributeError "is_dir")
  end.

Definition obj_is_file (o : pyobj) : M World bool :=
  match o with
  | PPath p => Os.is_file p
  | PWeb h => on_object h WebPath.is_file
  | PBool _ => raise (AttributeError "is_file")
  end.

Definition obj_stat (o : pyobj) : M World SFTPAttributes :=
  match o with
  | PPath p => Os.stat (PurePath.as_posix p)
  | PWeb h => on_object h WebPath.stat
  | PBool _ => raise (AttributeError "stat")
  end.

Definition obj_relative_to (o : pyobj) (ancestor : string) : result pyobj :=
  match o with
  | PPath p => rbind (PurePath.relative_to p ancestor) (fun r => Ok (PPath r))
  | PWeb h => rbind (WebPath.relative_to h ancestor) (fun r => Ok (PWeb r))
  | PBool _ => Raise (AttributeError "relative_to")
  end.

Definition obj_as_posix (o : pyobj) : result string :=
  match o with
  | PPath p => Ok (PurePath.as_posix p)
  | PWeb h => Ok (WebPath.as_posix h)
  | PBool _ => Raise (AttributeError "as_posix")
  end.

(** The string a primitive receives for a path-like argument. *)
Definition obj_fspath (o : pyobj) : result string :=
  match o with
  | PPath p => Ok (PurePath.as_posix p)
  | PWeb h => Ok (WebPath.__fspath__ h)
  | PBool _ => Raise (TypeError "expected str, bytes or os.PathLike object, not bool")
  end.

(** The bytes a paramiko call makes of a path argument: [b(path)] lets a
    [str] or [bytes] through and refuses anything else with [TypeError]
    ("Expected unicode or bytes, got ..."), before any request is made.  No
    entry of a snapshot is a string. *)
Definition obj_sftp_path (o : pyobj) : result string :=
  match o with
  | PPath _ | PWeb _ | PBool _ => Raise (TypeError "Expected unicode or bytes")
  end.

(** Values an expression can have inside the views' lambdas. *)
Inductive pyval :=
| VBool (b : bool)
| VMethod (name : string) (self : pyobj).

Definition truth (v : pyval) : bool :=
  match v with
  | VBool b => b
  | VMethod _ _ => true
  end.

(** [o.name] without calling it: the bound method. *)
Definition get_method (name : string) (o : pyobj) : result pyval :=
  match o with
  | PBool _ => Raise (AttributeError name)
  | _ => Ok (VMethod name o)
  end.

(** [a or b]: [b] is only evaluated when [a] is false. *)
Definition py_or {S} (a : pyval) (b : M S pyval) : M S pyval :=
  if truth a then ret a else b.

(** Iterables: a list, or the lazy object [filter(pred, l)]. *)
Inductive pyiter :=
| IterList (l : list pyobj)
| IterFilter (pred : pyobj -> M World bool) (l : list pyobj).

Fixpoint for_filter (pred : pyobj -> M World bool) (l : list pyobj)
    (body : pyobj -> M World unit) : M World unit :=
  match l with
  | [] => ret tt
  | o :: l' =>
      keep <- pred o ;;
      (if keep then body o else ret tt) ;;;
      for_filter pred l' body
  end.

(** [for o in it: body] *)
Definition for_each (it : pyiter) (body : pyobj -> M World unit) : M World unit :=
  match it with
  | IterList l => for_filter (fun _ => ret true) l body
  | IterFilter pred l => for_filter pred l body
  end.

Fixpoint list_filter (pred : pyobj -> M World bool) (l : list pyobj) : M World (list pyobj) :=
  match l with
  | [] => ret []
  | o :: l' =>
      keep <- pred o ;;
      rest <- list_filter pred l' ;;
      ret (if keep then o :: rest else rest)
  end.

(** [list(it)] *)
Definition py_list (it : pyiter) : M World (list pyobj) :=
  match it with
  | IterList l => ret l
  | IterFilter pred l => list_filter pred l
  end.

(** [reversed(it)] needs a sequence; a filter object is not one. *)
Definition py_reversed (it : pyiter) : result pyiter :=
  match it with
  | IterList l => Ok (IterList (rev l))
  | IterFilter _ _ => Raise (TypeError "'filter' object is not reversible")
  end.

(** [map(f, l)] run to its end. *)
Fixpoint map_M {S A B} (f : A -> M S B) (l : list A) : M S (list B) :=
  match l with
  | [] => ret []
  | a :: l' => b <- f a ;; rest <- map_M f l' ;; ret (b :: rest)
  end.

Fixpoint map_r {A B} (f : A -> result B) (l : list A) : result (list B) :=
  match l with
  | [] => Ok []
  | a :: l' => rbind (f a) (fun b => rbind (map_r f l') (fun rest => Ok (b :: rest)))
  end.

Module TreeList.

Record t := mk { root : string; paths : list pyobj }.

Definition from_walk (walk : M World (list pyobj)) (root : string) : M World t :=
  l <- walk ;; ret (mk root l).

Definition directories (self : t) : pyiter := IterFilter obj_is_dir (paths self).

Definition files (self : t) : pyiter := IterFilter obj_is_file (paths self).

(** [lambda p: not (p.is_dir or p.is_file())] *)
Definition unknown (p : pyobj) : M World bool :=
  m <- lift (get_method "is_dir" p) ;;
  v <- py_or m (b <- obj_is_file p ;; ret (VBool b)) ;;
  ret (negb (truth v)).

Definition unknowns (self : t) : pyiter := IterFilter unknown (paths self).

Definition _key (self : t) (path : pyobj) : M World (string * Z) :=
  stat <- obj_stat path ;;
  rel <- lift (rbind (obj_relative_to path (root self)) obj_as_posix) ;;
  ret (rel, py_int (st_mtime stat)).

Definition _rel (self : t) (path : pyobj) : result string :=
  rbind (obj_relative_to path (root self)) obj_as_posix.

Definition diff (self other : t) : result t :=
  rbind (map_r (_rel other) (paths other)) (fun keys =>
  let paths : gset string := list_to_set keys in
  rbind (map_r (fun p => rbind (_rel self p) (fun k =>
                  Ok (PBool (negb (bool_decide (k ∈ paths))))))
               (TreeList.paths self)) (fun l =>
  Ok (mk (root self) l))).

(** [mod] in the source; the name is taken by a notation here. *)
Definition mod_ (self other : t) : M World t :=
  keys <- map_M (_key other) (paths other) ;;
  let paths : gset (string * Z) := list_to_set keys in
  l <- map_M (fun p => k <- _key self p ;;
                       ret (PBool (negb (bool_decide (k ∈ paths)))))
             (TreeList.paths self) ;;
  ret (mk (root self) l).

(** [path == p] for a local path [path]: the same parts; a handle of
    another kind or a boolean is never equal to it. *)
Definition path_eq (path : PurePath.t) (o : pyobj) : bool :=
  match o with
  | PPath p => bool_decide (path = p)
  | _ => false
  end.

(** [any(path == p for p in self.files)], for a local path [path]: the
    filter is pulled entry by entry and [any] stops at the first match. *)
Fixpoint any_equal (path : PurePath.t) (l : list pyobj) : M World bool :=
  match l with
  | [] => ret false
  | o :: l' =>
      keep <- obj_is_file o ;;
      if keep && path_eq path o then ret true else any_equal path l'
  end.

Definition __contains__ (self : t) (path : PurePath.t) : M World bool :=
  any_equal path (paths self).

End TreeList.

(** ** The synchronisation engine: [SFTPHandler] *)

Fixpoint flat_map_M {S A B} (f : A -> M S (list B)) (l : list A) : M S (list B) :=
  match l with
  | [] => ret []
  | a :: l' => bs <- f a ;; rest <- flat_map_M f l' ;; ret (bs ++ rest)%list
  end.

Module SFTPHandler.

Section WithGlobals.

(** The global names of [webpath.py], where [from_attr] runs. *)
Variable webpath_globals : list string.

(** The handler itself, as handles refer to it. *)
Variable self : WebPath.accessor.

(** [_walk] is a generator; what it yields is collected in order.  A
    call costs a frame, [depth] is how many are left. *)
Fixpoint _walk (depth : nat) (path : string) (recurse : bool) : M World (list pyobj) :=
  match depth with
  | O => raise RecursionError
  | S depth' =>
      attrs <- Sftp.listdir_attr path ;;
      flat_map_M (fun attr =>
        node <- lift (WebPath.from_attr webpath_globals path (Some self) attr) ;;
        descend <- (if recurse then on_object node WebPath.is_dir else ret false) ;;
        below <- (if descend then _walk depth' (WebPath.as_posix node) recurse
                  else ret []) ;;
        ret (PWeb node :: below)) attrs
  end.

Definition _remote_tree (depth : nat) (path : string) : M World TreeList.t :=
  TreeList.from_walk (_walk depth path true) path.

Definition _local_tree (path : string) : M World TreeList.t :=
  TreeList.from_walk (l <- Os.rglob path ;; ret (List.map PPath l)) path.

Definition _copy_remote_time (localpath remotepath : string) : M World unit :=
  stat <- Sftp.stat remotepath ;;
  Os.utime localpath (st_atime stat) (st_mtime stat).

Definition _copy_local_time (localpath remotepath : string) : M World unit :=
  stat <- Os.stat localpath ;;
  Sftp.utime remotepath (st_atime stat) (st_mtime stat).

Definition Path (remotepath : string) : WebPath.t :=
  WebPath.mk (PurePath.parse remotepath) (Some self) None.

Definition isdir (remotepath : string) : M World bool :=
  try_except (on_object (Path remotepath) WebPath.is_dir) is_IOError (ret false).

(** [preserve_mtime] defaults to [False]. *)
Definition put (localpath remotepath : string) (preserve_mtime : option bool)
  : M World SFTPAttributes :=
  sftpattrs <- Sftp.put localpath remotepath ;;
  if default false preserve_mtime then
    _copy_local_time localpath remotepath ;;;
    Sftp.stat remotepath
  else ret sftpattrs.

(** [(remotepath / p.relative_to(tree.root)).as_posix()] *)
Definition remote_name (tree : TreeList.t) (remotepath : string) (p : pyobj)
  : result string :=
  rbind (obj_relative_to p (TreeList.root tree)) (fun rel =>
  rbind (obj_as_posix rel) (fun r =>
  Ok (PurePath.as_posix (PurePath.joinpath (PurePath.parse remotepath) r)))).

Definition _put_tree (tree : TreeList.t) (remotepath : string)
    (preserve_mtime : option bool) : M World unit :=
  for_each (TreeList.directories tree) (fun ld =>
    rd <- lift (remote_name tree remotepath ld) ;;
    if String.eqb rd "." then ret tt
    else
      present <- isdir rd ;;
      (if negb present then Sftp.mkdir rd else ret tt) ;;;
      if default false preserve_mtime then
        l <- lift (obj_fspath ld) ;;
        _copy_remote_time l rd
      else ret tt) ;;;
  for_each (TreeList.files tree) (fun lf =>
    rf <- lift (remote_name tree remotepath lf) ;;
    l <- lift (obj_fspath lf) ;;
    put l rf preserve_mtime ;;;
    ret tt).

(** [preserve_mtime] defaults to [False]. *)
Definition put_r (localpath remotepath : string) (preserve_mtime : option bool)
  : M World unit :=
  let remotepath := norm remotepath in
  let localpath := norm localpath in
  tree <- _local_tree localpath ;;
  _put_tree tree remotepath (Some (default false preserve_mtime)).

(** [preserve_mtime] defaults to [True]. *)
Definition put_diff (depth : nat) (localpath remotepath : string)
    (preserve_mtime : option bool) : M World unit :=
  rem_tree <- _remote_tree depth remotepath ;;
  loc_tree <- _local_tree localpath ;;
  tree <- TreeList.mod_ loc_tree rem_tree ;;
  _put_tree tree remotepath (Some (default true preserve_mtime)).

(** [remove] and [rmdir] are handed the entry itself, not its path. *)
Definition _rm_tree (tree : TreeList.t) : M World unit :=
  for_each (TreeList.files tree) (fun rf =>
    p <- lift (obj_sftp_path rf) ;; Sftp.remove p) ;;;
  dirs <- lift (py_reversed (TreeList.directories tree)) ;;
  for_each dirs (fun rd =>
    p <- lift (obj_sftp_path rd) ;; Sftp.rmdir p).

(** [remove_root] defaults to [False]. *)
Definition rm_r (depth : nat) (remotepath : string) (remove_root : option bool)
  : M World unit :=
  tree <- _remote_tree depth remotepath ;;
  _rm_tree tree ;;;
  if default false remove_root then Sftp.rmdir remotepath else ret tt.

Definition rm_diff (depth : nat) (localpath remotepath : string) : M World unit :=
  rem_tree <- _remote_tree depth remotepath ;;
  loc_tree <- _local_tree localpath ;;
  rm_tree <- lift (TreeList.diff rem_tree loc_tree) ;;
  _rm_tree rm_tree.

End WithGlobals.

Section Download.

Variable webpath_globals : list string.
Variable self : WebPath.accessor.

(** The two collaborators of the download, whatever they do: paramiko's
    [SFTPClient.get] and pathlib's [Path.mkdir(exist_ok=True)]. *)
Variable SFTPClient_get : string -> string -> M World unit.
Variable Path_mkdir : string -> M World unit.

(** [preserve_mtime] defaults to [False]. *)
Definition get (remotepath localpath : string) (preserve_mtime : option bool)
  : M World unit :=
  SFTPClient_get remotepath localpath ;;;
  if default false preserve_mtime then _copy_remote_time localpath remotepath
  else ret tt.

(** [localpath / p.relative_to(remotepath)] *)
Definition local_name (localpath remotepath : string) (p : pyobj) : result string :=
  rbind (obj_relative_to p remotepath) (fun rel =>
  rbind (obj_as_posix rel) (fun r =>
  Ok (PurePath.as_posix (PurePath.joinpath (PurePath.parse localpath) r)))).

(** [preserve_mtime] defaults to [False]. *)
Definition get_r (depth : nat) (remotepath localpath : string)
    (preserve_mtime : option bool) : M World unit :=
  let remotepath := norm remotepath in
  let localpath := norm localpath in
  tree <- _remote_tree webpath_globals self depth remotepath ;;
  for_each (TreeList.directories tree) (fun rd =>
    ld <- lift (local_name localpath remotepath rd) ;;
    Path_mkdir ld ;;;
    if default false preserve_mtime then
      r <- lift (obj_fspath rd) ;;
      _copy_remote_time ld r
    else ret tt) ;;;
  for_each (TreeList.files tree) (fun rf =>
    lf <- lift (local_name localpath remotepath rf) ;;
    r <- lift (obj_fspath rf) ;;
    get r lf (Some (default false preserve_mtime))).

(** [path] defaults to ["."]. *)
Definition listdir_r (depth : nat) (path : option string) : M World (list string) :=
  nodes <- _walk webpath_globals self depth (default "." path) true ;;
  lift (map_r obj_as_posix nodes).

End Download.

End SFTPHandler.

(** ** Vocabulary of the statements *)

(** A path handle, local or remote, as opposed to a boolean. *)
Definition is_handle (o : pyobj) : bool :=
  match o with
  | PBool _ => false
  | _ => true
  end.

Definition is_flag (o : pyobj) : bool := negb (is_handle o).

Definition dir_attr (name : string) (mtime : Z) : SFTPAttributes :=
  mkAttr name (S_IFDIR + 493) 4096 (inject_Z mtime) (inject_Z mtime).

Definition file_attr (name : string) (mtime : Z) : SFTPAttributes :=
  mkAttr name (S_IFREG + 420) 10 (inject_Z mtime) (inject_Z mtime).

Definition handler : WebPath.accessor := WebPath.SftpHandler 0.

(** [webpath.py] as it would be with [from pathlib import Path] added. *)
Definition globals_with_Path : list string := "Path" :: WebPath.module_globals.

Definition empty_world : World := mkWorld [] [] [] [] 100 [].

(** The remote tree [{d/, d/e/, d/e/f.txt}]. *)
Definition remote_d_e_f : World :=
  mkWorld [("d", dir_attr "d" 5); ("d/e", dir_attr "e" 5); ("d/e/f.txt", file_attr "f.txt" 7)]
          [] [] [] 100 [].

(** The remote tree [{d/, d/e/}]: directories only. *)
Definition remote_d_e : World :=
  mkWorld [("d", dir_attr "d" 5); ("d/e", dir_attr "e" 5)] [] [] [] 100 [].

(** A remote handle on a symbolic link: neither directory nor file. *)
Definition symlink_handle : pyobj :=
  PWeb (WebPath.mk (PurePath.parse "lnk") (Some handler)
                   (Some (mkAttr "lnk" 41471 0 0%Q 0%Q))).

Definition local_handle (path : string) : pyobj := PPath (PurePath.parse path).

Definition remote_handle (path : string) (a : SFTPAttributes) : pyobj :=
  PWeb (WebPath.mk (PurePath.parse path) (Some handler) (Some a)).

(** Local tree [{a/, a/x.txt (mtime 1000), b.txt (mtime 2000)}] under
    [loc]; remote tree [{a/, a/x.txt (mtime 1000), c.txt (mtime 3000)}]. *)
Definition two_trees : World :=
  mkWorld [("a", dir_attr "a" 1000); ("a/x.txt", file_attr "x.txt" 1000);
           ("c.txt", file_attr "c.txt" 3000)]
          [("loc/a", dir_attr "a" 1000); ("loc/a/x.txt", file_attr "x.txt" 1000);
           ("loc/b.txt", file_attr "b.txt" 2000)]
          [] [] 100 [].

Definition local_snapshot : TreeList.t :=
  TreeList.mk "loc" [local_handle "loc/a"; local_handle "loc/a/x.txt";
                     local_handle "loc/b.txt"].

Definition remote_snapshot : TreeList.t :=
  TreeList.mk "." [remote_handle "a" (dir_attr "a" 1000);
                   remote_handle "a/x.txt" (file_attr "x.txt" 1000);
                   remote_handle "c.txt" (file_attr "c.txt" 3000)].

(** A local directory [src/sub] stamped 1000 holding [a.txt] stamped
    1000.5; the remote side already has [sub], stamped 5. *)
Definition upload_world : World :=
  mkWorld [("sub", dir_attr "sub" 5)]
          [("src/sub", dir_attr "sub" 1000);
           ("src/sub/a.txt", mkAttr "a.txt" (S_IFREG + 420) 3 (2001 # 2) (2001 # 2))]
          [] [] 100 [].

(** The same local directory, to be sent to a remote directory that is
    still empty. *)
Definition fresh_upload : World :=
  mkWorld []
          [("src/sub", dir_attr "sub" 1000);
           ("src/sub/a.txt", mkAttr "a.txt" (S_IFREG + 420) 3 (2001 # 2) (2001 # 2))]
          [] [] 100 [].

(** The same upload against a server that refuses the transfer of
    [sub/a.txt]. *)
Definition transfer_refused : World :=
  mkWorld []
          [("src/sub", dir_attr "sub" 1000);
           ("src/sub/a.txt", mkAttr "a.txt" (S_IFREG + 420) 3 (2001 # 2) (2001 # 2))]
          [] [(EvPut "src/sub/a.txt" "sub/a.txt", PermissionError)] 100 [].

Definition mtimes (l : list (string * SFTPAttributes)) : list (string * Q) :=
  List.map (fun kv => (fst kv, st_mtime (snd kv))) l.

(** The server refuses to stat [secret]; locally there is a directory
    [src/secret]. *)
Definition denied_world : World :=
  mkWorld [] [("src/secret", dir_attr "secret" 1000)] []
          [(EvStat "secret", PermissionError)] 100 [].

(** Write a string through a text stream, then read the file back
    through a binary stream. *)
Definition write_text_read_bytes (registry : string -> option codec)
    (fname encoding : string) (s : list N) : M World pydata :=
  out <- SFTPHandler_open fname (Some "w") (Some encoding) None None ;;
  with_handler out (FileHandler.write registry (PyStr s)) ;;;
  inp <- SFTPHandler_open fname (Some "rb") None None None ;;
  with_handler inp (FileHandler.read registry None).

Definition no_codecs : string -> option codec := fun _ => None.

(** A file that exists and is not a directory. *)
Definition regular_at (p : string) (w : World) : Prop :=
  exists a, assoc p (remote w) = Some a /\ S_ISDIR (st_mode a) = false.



(** [m] adds to the log only events that pass [P], whatever the state it
    starts from and whether it returns or raises. *)
Definition logs_only {S A} (wof : S -> World) (P : event -> bool) (m : M S A) : Prop :=
  forall s, exists evs,
    log (wof (snd (m s))) = (log (wof s) ++ evs)%list /\ forallb P evs = true.

Definition always_raises {S A} (m : M S A) : Prop :=
  forall s, exists e, fst (m s) = Raise e.

Definition the_world (w : World) : World := w.

(** The calls that set time stamps, remote or local. *)
Definition sets_times (ev : event) : bool :=
  match ev with
  | EvUtime _ _ _ | EvOsUtime _ _ _ => true
  | _ => false
  end.

(** The calls that only look: listings and stats. *)
Definition only_looks (ev : event) : bool :=
  match ev with
  | EvListdirAttr _ | EvStat _ | EvOsStat _ | EvRglob _ => true
  | _ => false
  end.

(** *** Remote trees, to state what a walk should yield *)

(** A node with its attributes and, for a directory, what it holds. *)
Inductive rnode := RNode (a : SFTPAttributes) (kids : list rnode).

Definition attr_of (n : rnode) : SFTPAttributes :=
  match n with RNode a _ => a end.

Fixpoint height (n : rnode) : nat :=
  match n with
  | RNode _ kids => S (fold_right (fun k acc => Nat.max (height k) acc) 0%nat kids)
  end.

Definition forest_height (kids : list rnode) : nat :=
  fold_right (fun k acc => Nat.max (height k) acc) 0%nat kids.

(** The handle [from_attr] makes for an entry listed under [path]. *)
Definition handle_under (self : WebPath.accessor) (path : string) (a : SFTPAttributes)
  : WebPath.t :=
  WebPath.mk (PurePath.joinpath (PurePath.parse path) (filename a)) (Some self) (Some a).

(** Pre-order: a node, then (for a directory) the walks of its entries,
    each before the next sibling. *)
Fixpoint preorder (self : WebPath.accessor) (path : string) (n : rnode) : list pyobj :=
  match n with
  | RNode a kids =>
      let node := handle_under self path a in
      PWeb node ::
      (if S_ISDIR (st_mode a)
       then flat_map (preorder self (WebPath.as_posix node)) kids
       else [])
  end.

(** The listings of a pre-order walk: one per directory. *)
Fixpoint listings (self : WebPath.accessor) (path : string) (n : rnode) : list event :=
  match n with
  | RNode a kids =>
      let here := WebPath.as_posix (handle_under self path a) in
      if S_ISDIR (st_mode a)
      then EvListdirAttr here :: flat_map (listings self here) kids
      else []
  end.

(** What [listdir_attr] answers on a file system [r] with faults [f]. *)
Definition listing_of (r : list (string * SFTPAttributes)) (f : list (event * exn))
    (path : string) : result (list SFTPAttributes) :=
  fst (Sftp.listdir_attr path (mkWorld r [] [] f 0 [])).

(** The file system lists the directories of the tree as the tree has
    them. *)
Fixpoint listed (self : WebPath.accessor) (r : list (string * SFTPAttributes))
    (f : list (event * exn)) (path : string) (n : rnode) : Prop :=
  match n with
  | RNode a kids =>
      let here := WebPath.as_posix (handle_under self path a) in
      if S_ISDIR (st_mode a)
      then listing_of r f here = Ok (List.map attr_of kids) /\
           fold_right (fun k acc => listed self r f here k /\ acc) True kids
      else True
  end.

Definition forest_listed (self : WebPath.accessor) (w : World) (path : string)
    (kids : list rnode) : Prop :=
  listing_of (remote w) (faults w) path = Ok (List.map attr_of kids) /\
  fold_right (fun k acc => listed self (remote w) (faults w) path k /\ acc) True kids.

Definition extend_log (evs : list event) (w : World) : World :=
  mkWorld (remote w) (local w) (remote_data w) (faults w) (now w) (log w ++ evs).

(** [{d/{e/{f.txt}, g.txt}, h.txt}] *)
Definition sample_forest : list rnode :=
  [RNode (dir_attr "d" 5)
     [RNode (dir_attr "e" 5) [RNode (file_attr "f.txt" 7) []];
      RNode (file_attr "g.txt" 8) []];
   RNode (file_attr "h.txt" 9) []].

Definition sample_world : World :=
  mkWorld [("d", dir_attr "d" 5); ("d/e", dir_attr "e" 5);
           ("d/e/f.txt", file_attr "f.txt" 7); ("d/g.txt", file_attr "g.txt" 8);
           ("h.txt", file_attr "h.txt" 9)]
          [] [] [] 100 [].



(** A name with nothing to interpret in it: not empty, not ["."], no
    separator. *)
Definition plain_name (n : string) : bool :=
  negb (String.eqb n "") && negb (String.eqb n ".") && negb (SFTPFile.mode_has "/" n).

Definition is_web (o : pyobj) : bool :=
  match o with
  | PWeb _ => true
  | _ => false
  end.

(** A handle whose cache says "file" for a node that is not there. *)
Definition stale_handle : WebPath.t :=
  WebPath.mk (PurePath.parse "new") (Some handler) (Some (file_attr "new" 1)).

(** The flags [touch] opens with. *)
Definition touch_flags (exist_ok : option bool) : Z :=
  if negb (default true exist_ok)
  then Z.lor (Z.lor SFTP_FLAG_CREATE SFTP_FLAG_WRITE) SFTP_FLAG_EXCL
  else Z.lor SFTP_FLAG_CREATE SFTP_FLAG_WRITE.

(** The server answers the open of [note.txt] but fails its close. *)
Definition close_fails : World :=
  mkWorld [] [] [] [(EvRequestClose "note.txt", OSError)] 100 [].

(** [note.txt] is there, 10 bytes long. *)
Definition note_world : World :=
  mkWorld [("note.txt", file_attr "note.txt" 7)] [] [] [] 100 [].

(** [bad.txt] holds one byte that is not UTF-8. *)
Definition bad_text_world : World :=
  mkWorld [("bad.txt", file_attr "bad.txt" 7)] [] [("bad.txt", [Byte.xff])] [] 100 [].

(** [io.text_encoding] where the default encoding is UTF-8. *)
Definition utf8_by_default (encoding : option string) : string :=
  default "utf-8" encoding.

(** [m] stops at a failing call.  Whatever the state it starts from, it
    only adds calls to the log and leaves the failures the server has in
    store as they are; and when one of the calls it made is a call the
    server fails with [e], that call is the last one [m] made and [e] is
    what [m] raises.  The pairs in [exempt] are left out of the promise. *)
Definition aborts_on_failure {S A} (wof : S -> World) (exempt : event -> exn -> bool)
    (m : M S A) : Prop :=
  forall s, exists evs,
    log (wof (snd (m s))) = (log (wof s) ++ evs)%list /\
    faults (wof (snd (m s))) = faults (wof s) /\
    forall evs1 ev evs2 e,
      evs = (evs1 ++ ev :: evs2)%list ->
      fault_of ev (faults (wof s)) = Some e ->
      exempt ev e = false ->
      evs2 = [] /\ fst (m s) = Raise e.




(** [ancestor] leads to [p]: they have the same root, and the parts of
    [ancestor] are the first parts of [p]. *)
Definition leads_to (ancestor : string) (p : PurePath.t) : Prop :=
  PurePath.root p = PurePath.root (PurePath.parse ancestor) /\
  exists rest,
    PurePath.parts p = (PurePath.parts (PurePath.parse ancestor) ++ rest)%list.

(** The calls that delete: [remove] and [rmdir]. *)
Definition deletes (ev : event) : bool :=
  match ev with
  | EvRemove _ | EvRmdir _ => true
  | _ => false
  end.

(** A transfer that writes the local file, as large as the remote one
    and stamped with the current time. *)
Definition plain_transfer (remotepath localpath : string) : M World unit :=
  fun w =>
    match assoc (norm remotepath) (remote w) with
    | Some a =>
        (Ok tt, set_local (assoc_set (norm localpath)
                   (mkAttr (PurePath.name (PurePath.parse localpath)) (S_IFREG + 420)
                           (st_size a) (inject_Z (now w)) (inject_Z (now w)))
                   (local w)) w)
    | None => (Raise FileNotFoundError, w)
    end.

(** * Properties *)

Section MonadFacts.

Context {S A B : Type}.

Lemma bind_ok (m : M S A) (k : A -> M S B) (s s' : S) (a : A) :
  m s = (Ok a, s') -> bind m k s = k a s'.
Proof. intros H. unfold bind. now rewrite H. Qed.

Lemma bind_raise (m : M S A) (k : A -> M S B) (s s' : S) (e : exn) :
  m s = (Raise e, s') -> bind m k s = (Raise e, s').
Proof. intros H. unfold bind. now rewrite H. Qed.

End MonadFacts.

(** ** The views of a snapshot *)

Lemma unknown_of_handle (o : pyobj) (w : World) :
  is_handle o = true -> TreeList.unknown o w = (Ok false, w).
Proof. destruct o; simpl; intros H; try discriminate; reflexivity. Qed.

Lemma list_filter_unknown (l : list pyobj) (w : World) :
  forallb is_handle l = true -> list_filter TreeList.unknown l w = (Ok [], w).
Proof.
  induction l as [|o l IH]; simpl; intros H; [reflexivity|].
  apply andb_prop in H as [Ho Hl].
  rewrite (bind_ok _ _ _ _ _ (unknown_of_handle o w Ho)).
  rewrite (bind_ok _ _ _ _ _ (IH Hl)). reflexivity.
Qed.

Lemma unknowns_filter_empty (t : TreeList.t) (w : World) :
  forallb is_handle (TreeList.paths t) = true ->
  py_list (TreeList.unknowns t) w = (Ok [], w).
Proof. intros H. simpl. now apply list_filter_unknown. Qed.

(** C10: the [unknowns] view of a snapshot of path handles is empty,
    whatever the handles are: the lambda tests the bound method [p.is_dir],
    which is always true, so nothing passes the filter; this holds as well
    when a handle is neither a directory nor a regular file. *)
Theorem unknowns_is_empty (t : TreeList.t) (w : World) :
  forallb is_handle (TreeList.paths t) = true ->
  py_list (TreeList.unknowns t) w = (Ok [], w).
Proof. apply unknowns_filter_empty. Qed.

Lemma unknowns_is_empty_witness :
  forallb is_handle [symlink_handle] = true /\
  fst (obj_is_dir symlink_handle empty_world) = Ok false /\
  fst (obj_is_file symlink_handle empty_world) = Ok false /\
  py_list (TreeList.unknowns (TreeList.mk "." [symlink_handle])) empty_world
  = (Ok [], empty_world).
Proof.
  split; [reflexivity|]. split; [reflexivity|]. split; [reflexivity|].
  apply (unknowns_is_empty (TreeList.mk "." [symlink_handle]) empty_world).
  reflexivity.
Defined.

Lemma flat_map_M_spec {S A B} (f : A -> M S (list B)) (Q : B -> Prop) (l : list A) :
  (forall a s bs s', f a s = (Ok bs, s') -> Forall Q bs) ->
  forall s l' s', flat_map_M f l s = (Ok l', s') -> Forall Q l'.
Proof.
  intros Hf. induction l as [|a l IH]; simpl; intros s l' s' H.
  - injection H as <- _. constructor.
  - unfold bind in H. destruct (f a s) as [[bs|e] s1] eqn:Ha; [|discriminate].
    destruct (flat_map_M f l s1) as [[rest|e] s2] eqn:Hl; [|discriminate].
    injection H as <- _. apply Forall_app. split; eauto.
Qed.

Lemma walk_yields_handles globals self depth :
  forall path recurse w l w',
    SFTPHandler._walk globals self depth path recurse w = (Ok l, w') ->
    Forall (fun o => is_handle o = true) l.
Proof.
  induction depth as [|d IH]; intros path recurse w l w' H; [discriminate|].
  cbn [SFTPHandler._walk] in H. unfold bind at 1 in H.
  destruct (Sftp.listdir_attr path w) as [[attrs|e] w1]; [|discriminate].
  eapply flat_map_M_spec; [|exact H].
  intros a s bs s' Hb. cbv beta in Hb. unfold bind in Hb.
  destruct (lift (WebPath.from_attr globals path (Some self) a) s) as [[node|e] s1];
    [|discriminate].
  destruct ((if recurse then on_object node WebPath.is_dir else ret false) s1)
    as [[descend|e] s2]; [|discriminate].
  destruct descend.
  - destruct (SFTPHandler._walk globals self d (WebPath.as_posix node) recurse s2)
      as [[below|e] s3] eqn:Hw; [|discriminate].
    injection Hb as <- _. constructor; [reflexivity | eauto].
  - injection Hb as <- _. constructor; [reflexivity | constructor].
Qed.

(** The snapshots the engine captures hold path handles only, so their
    [unknowns] view is empty. *)
Lemma captured_unknowns_empty globals self depth path (w w' w'' : World) (t : TreeList.t) :
  SFTPHandler._remote_tree globals self depth path w = (Ok t, w') \/
  SFTPHandler._local_tree path w = (Ok t, w') ->
  py_list (TreeList.unknowns t) w'' = (Ok [], w'').
Proof.
  intros H. apply unknowns_filter_empty.
  destruct H as [H|H].
  - unfold SFTPHandler._remote_tree, TreeList.from_walk, bind in H.
    destruct (SFTPHandler._walk globals self depth path true w) as [[l|e] w1] eqn:Hw;
      [|discriminate].
    injection H as <- _. simpl.
    apply forallb_forall. intros o Ho.
    pose proof (walk_yields_handles _ _ _ _ _ _ _ _ Hw) as Hall.
    rewrite Forall_forall in Hall. apply Hall. now apply list_elem_of_In.
  - unfold SFTPHandler._local_tree, TreeList.from_walk, bind in H.
    destruct (Os.rglob path w) as [[l|e] w1]; [|discriminate].
    injection H as <- _. simpl.
    apply forallb_forall. intros o Ho. apply in_map_iff in Ho as (p & <- & _). reflexivity.
Qed.

(** ** Path handles and their cache *)










(** ** Classification and failures *)




(** The engine's [isdir] catches [IOError] where the handle's [is_dir]
    catches [FileNotFoundError]: a permission failure of [stat] under
    [isdir] does not reach the caller. *)
Lemma isdir_hides_permission_error :
  ~ (forall (w : World) (remotepath : string) (e : exn),
       fst (Sftp.stat (norm remotepath) w) = Raise e ->
       is_FileNotFoundError e = false ->
       fst (SFTPHandler.isdir handler remotepath w) = Raise e).
Proof.
  intros H.
  specialize (H denied_world "secret" PermissionError eq_refl eq_refl).
  vm_compute in H. discriminate.
Qed.

(** The same failure inside an upload: [put_r] goes on and returns. *)
Example put_r_goes_on_after_permission_error :
  let out := SFTPHandler.put_r handler "src" "." None denied_world in
  fst out = Ok tt /\
  log (snd out) = [EvRglob "src"; EvOsStat "src/secret"; EvStat "secret";
                   EvMkdir "secret"; EvOsStat "src/secret"].
Proof. repeat split; vm_compute; reflexivity. Qed.

(** A node that is not there: the classification answers false, [stat]
    raises. *)
Example missing_node_is_neither :
  let h := SFTPHandler.Path handler "ghost" in
  fst (WebPath.is_dir (h, empty_world)) = Ok false /\
  fst (WebPath.is_file (h, empty_world)) = Ok false /\
  fst (WebPath.stat (h, empty_world)) = Raise FileNotFoundError /\
  fst (SFTPHandler.isdir handler "ghost" empty_world) = Ok false.
Proof. repeat split. Qed.

(** ** The stream adapter *)

Example write_text_read_bytes_example :
  (* "hé€" followed by U+1F600 *)
  fst (write_text_read_bytes no_codecs "note.txt" "utf-8" [104; 233; 8364; 128512]%N
         empty_world)
  = Ok (PyBytes [Byte.x68; Byte.xc3; Byte.xa9; Byte.xe2; Byte.x82; Byte.xac;
                 Byte.xf0; Byte.x9f; Byte.x98; Byte.x80]).
Proof. vm_compute. reflexivity. Qed.

Example decode_back :
  Utf8.decode [Byte.x68; Byte.xc3; Byte.xa9; Byte.xe2; Byte.x82; Byte.xac;
               Byte.xf0; Byte.x9f; Byte.x98; Byte.x80]
  = Ok [104; 233; 8364; 128512]%N /\
  Utf8.decode [Byte.xc0; Byte.x80] = Raise UnicodeDecodeError /\
  Utf8.decode [Byte.xed; Byte.xa0; Byte.x80] = Raise UnicodeDecodeError.
Proof. repeat split; vm_compute; reflexivity. Qed.

Example write_lone_surrogate :
  fst (write_text_read_bytes no_codecs "note.txt" "utf-8" [55296]%N empty_world)
  = Raise UnicodeEncodeError.
Proof. vm_compute. reflexivity. Qed.

Lemma assoc_set_same {A} (k : string) (v : A) (l : list (string * A)) :
  assoc k (assoc_set k v l) = Some v.
Proof.
  induction l as [|[k' v'] l IH]; simpl.
  - now rewrite String.eqb_refl.
  - destruct (String.eqb k k') eqn:E; simpl; [now rewrite String.eqb_refl | now rewrite E].
Qed.

Lemma assoc_app_new {A} (k : string) (v : A) (l : list (string * A)) :
  assoc k l = None -> assoc k (l ++ [(k, v)]) = Some v.
Proof.
  induction l as [|[k' v'] l IH]; simpl; intros H.
  - now rewrite String.eqb_refl.
  - destruct (String.eqb k k'); [discriminate | auto].
Qed.

Lemma prim_no_fault {A} (ev : event) (body : M World A) (w : World) :
  faults w = [] -> prim ev body w = body (add_log ev w).
Proof. intros H. unfold prim. now rewrite H. Qed.

(** The stream is binary exactly when its mode has a [b]. *)
Lemma is_binary_of_mode (mode : string) :
  FileHandler.truthy (Z.land (SFTPFile.flags_of_mode mode) SFTPFile.FLAG_BINARY)
  = SFTPFile.mode_has "b" mode.
Proof.
  unfold SFTPFile.flags_of_mode.
  destruct (SFTPFile.mode_has "r" mode), (SFTPFile.mode_has "+" mode),
    (SFTPFile.mode_has "w" mode), (SFTPFile.mode_has "a" mode),
    (SFTPFile.mode_has "b" mode); reflexivity.
Qed.

Lemma open_for_writing (fname : string) (w w1 : World) (f : SFTPFile.t) :
  faults w = [] ->
  SFTPClient_open fname "w" w = (Ok f, w1) ->
  f = SFTPFile.mk (norm fname) SFTPFile.FLAG_WRITE 0 false /\
  faults w1 = [] /\
  assoc (norm fname) (remote_data w1) = Some [] /\
  regular_at (norm fname) w1.
Proof.
  intros Hf H. unfold SFTPClient_open in H. rewrite (prim_no_fault _ _ _ Hf) in H.
  cbn [add_log remote remote_data] in H.
  change (SFTPFile.mode_has "x" "w") with false in H.
  change (SFTPFile.mode_has "w" "w") with true in H.
  change (SFTPFile.mode_has "a" "w") with false in H.
  change (SFTPFile.flags_of_mode "w") with SFTPFile.FLAG_WRITE in H.
  cbn [orb andb] in H.
  destruct (assoc (norm fname) (remote w)) as [a|] eqn:Ha.
  - destruct (S_ISDIR (st_mode a)) eqn:Hd; [discriminate|].
    injection H as <- <-. unfold regular_at. cbn. rewrite !assoc_set_same.
    repeat split; auto. eexists. split; [reflexivity | exact Hd].
  - destruct (is_dir_node (remote w) (parent_of (norm fname)) &&
              negb (String.eqb (norm fname) ".")); [|discriminate].
    injection H as <- <-. unfold regular_at. cbn.
    rewrite assoc_set_same, (assoc_app_new _ _ _ Ha).
    repeat split; auto. eexists. split; [reflexivity | reflexivity].
Qed.

Lemma write_equation (registry : string -> option codec) (text : pydata)
    (fh : FileHandler.t) (w : World) :
  FileHandler.write registry text (fh, w) =
  if FileHandler.truthy (FileHandler._is_binary fh)
  then FileHandler.zoom (SFTPFile.write text) (fh, w)
  else match py_encode registry text (FileHandler.encoding fh) with
       | Ok bytes => FileHandler.zoom (SFTPFile.write bytes) (fh, w)
       | Raise e => (Raise e, (fh, w))
       end.
Proof.
  unfold FileHandler.write, bind, get_self, lift, ret.
  cbv beta iota. change (fst (fh, w)) with fh.
  destruct (FileHandler.truthy (FileHandler._is_binary fh)); cbv beta iota zeta.
  - reflexivity.
  - change (negb false) with true. cbv iota.
    destruct (py_encode registry text (FileHandler.encoding fh)); reflexivity.
Qed.

Lemma read_equation (registry : string -> option codec) (size : option nat)
    (fh : FileHandler.t) (w : World) :
  FileHandler.read registry size (fh, w) =
  match FileHandler.zoom (SFTPFile.read size) (fh, w) with
  | (Ok raw, s) =>
      if FileHandler.truthy (FileHandler._is_binary (fst s))
      then (Ok (PyBytes raw), s)
      else (py_decode registry (PyBytes raw) (FileHandler.encoding (fst s)), s)
  | (Raise e, s) => (Raise e, s)
  end.
Proof.
  unfold FileHandler.read, bind, get_self, lift, ret.
  destruct (FileHandler.zoom (SFTPFile.read size) (fh, w)) as [[raw|e] s]; [|reflexivity].
  cbv beta iota.
  destruct (FileHandler.truthy (FileHandler._is_binary (fst s))); reflexivity.
Qed.

Ltac eval_flags :=
  repeat match goal with
         | |- context [Z.land ?a ?b =? 0] =>
             let v := eval vm_compute in (Z.land a b =? 0) in
             change (Z.land a b =? 0) with v
         end.

Lemma raw_write_at_start (p : string) (b : list Byte.byte) (w : World) :
  faults w = [] ->
  SFTPFile.write (PyBytes b) (SFTPFile.mk p SFTPFile.FLAG_WRITE 0 false, w)
  = (Ok tt, (SFTPFile.mk p SFTPFile.FLAG_WRITE (List.length b) false,
             SFTPFile.store (SFTPFile.mk p SFTPFile.FLAG_WRITE 0 false) b
               (add_log (EvWrite p) w))).
Proof.
  intros Hf. unfold SFTPFile.write, bind, get_self, set_self, lift, liftW.
  unfold SFTPFile.has_flag, SFTPFile.FLAG_WRITE, SFTPFile.FLAG_APPEND. cbn.
  eval_flags. cbn. rewrite (prim_no_fault _ _ _ Hf). reflexivity.
Qed.

Lemma raw_close_open (f : SFTPFile.t) (w : World) :
  faults w = [] -> SFTPFile.closed f = false ->
  SFTPFile.close (f, w)
  = (Ok tt, (SFTPFile.mk (SFTPFile.path f) (SFTPFile._flags f) (SFTPFile.pos f) true,
             add_log (EvClose (SFTPFile.path f)) w)).
Proof.
  intros Hf Hc. unfold SFTPFile.close, bind, get_self, set_self, liftW. cbn.
  rewrite Hc. cbn. rewrite (prim_no_fault _ _ _ Hf). reflexivity.
Qed.

Lemma raw_read_from_start (p : string) (w : World) :
  faults w = [] ->
  let d := match assoc p (remote_data w) with Some d => d | None => [] end in
  SFTPFile.read None (SFTPFile.mk p (SFTPFile.flags_of_mode "rb") 0 false, w)
  = (Ok d, (SFTPFile.mk p (SFTPFile.flags_of_mode "rb") (List.length d) false,
            add_log (EvRead p) w)).
Proof.
  intros Hf d. unfold SFTPFile.read, bind, get_self, set_self, liftW.
  unfold SFTPFile.has_flag, SFTPFile.FLAG_READ.
  change (SFTPFile.flags_of_mode "rb") with 17. cbn.
  eval_flags. cbn. rewrite (prim_no_fault _ _ _ Hf). reflexivity.
Qed.

Lemma open_for_reading (fname : string) (w : World) :
  faults w = [] -> regular_at (norm fname) w ->
  exists w', SFTPClient_open fname "rb" w
             = (Ok (SFTPFile.mk (norm fname) (SFTPFile.flags_of_mode "rb") 0 false), w') /\
             faults w' = [] /\
             assoc (norm fname) (remote_data w') =
             Some (match assoc (norm fname) (remote_data w) with
                   | Some d => d | None => [] end).
Proof.
  intros Hf [a [Ha Hd]]. unfold SFTPClient_open. rewrite (prim_no_fault _ _ _ Hf).
  cbn [add_log remote remote_data].
  change (SFTPFile.mode_has "x" "rb") with false.
  change (SFTPFile.mode_has "w" "rb") with false.
  change (SFTPFile.mode_has "a" "rb") with false.
  rewrite Ha, Hd. cbv iota.
  eexists. split; [reflexivity|]. cbn. rewrite assoc_set_same. auto.
Qed.

Lemma faults_store (f : SFTPFile.t) (b : list Byte.byte) (w : World) :
  faults (SFTPFile.store f b w) = faults w.
Proof. unfold SFTPFile.store. destruct (assoc (SFTPFile.path f) (remote w)); reflexivity. Qed.

Lemma py_encode_str (registry : string -> option codec) (s : list N)
    (encoding : option string) :
  (exists b, py_encode registry (PyStr s) encoding = Ok (PyBytes b)) \/
  (exists e, py_encode registry (PyStr s) encoding = Raise e).
Proof.
  simpl. destruct (lookup_codec registry encoding) as [c|e]; simpl; [|eauto].
  destruct (codec_encode c s) as [b|e]; simpl; eauto.
Qed.

(** Writing through a text stream stores the encoded string; reading back
    through a binary stream returns those bytes. *)
Lemma text_write_binary_read_any (registry : string -> option codec)
    (fname encoding : string) (s : list N) (w : World) :
  faults w = [] ->
  (exists f w1, SFTPClient_open fname "w" w = (Ok f, w1)) ->
  fst (write_text_read_bytes registry fname encoding s w)
  = py_encode registry (PyStr s) (Some encoding).
Proof.
  intros Hf (f & w1 & Hopen).
  destruct (open_for_writing fname w w1 f Hf Hopen) as (-> & Hf1 & Hd1 & a & Ha & Hreg).
  unfold write_text_read_bytes, SFTPHandler_open.
  change (default "rb" (Some "w")) with "w". change (default "rb" (Some "rb")) with "rb".
  unfold bind at 1. unfold bind at 1. rewrite Hopen. unfold ret at 1. cbv beta iota.
  unfold bind at 1. unfold with_handler at 1. rewrite write_equation.
  unfold FileHandler._is_binary, FileHandler.truthy, SFTPFile.FLAG_BINARY, SFTPFile.FLAG_WRITE.
  cbn [FileHandler.file_handler SFTPFile._flags FileHandler.encoding].
  eval_flags. cbv iota. change (negb true) with false. cbv iota.
  destruct (py_encode_str registry s (Some encoding)) as [[b Hb]|[e He]].
  - rewrite Hb. unfold FileHandler.zoom at 1.
    cbn [fst snd FileHandler.file_handler FileHandler.encoding FileHandler.errors
         FileHandler.newline].
    pose proof (raw_write_at_start (norm fname) b w1 Hf1) as Hw.
    unfold SFTPFile.FLAG_WRITE in Hw. rewrite Hw. cbv beta iota.
    unfold FileHandler.close, FileHandler.zoom.
    cbn [fst snd FileHandler.file_handler FileHandler.encoding FileHandler.errors
         FileHandler.newline].
    rewrite raw_close_open; [|rewrite faults_store; exact Hf1|reflexivity]. cbv beta iota.
    cbn [fst snd SFTPFile.path].
    set (w3 := add_log _ (SFTPFile.store _ b _)).
    assert (Hf3 : faults w3 = []).
    { subst w3. cbn [add_log faults]. rewrite faults_store. exact Hf1. }
    assert (Hd3 : assoc (norm fname) (remote_data w3) = Some b).
    { subst w3. unfold SFTPFile.store, SFTPFile.data_of, SFTPFile.has_flag,
        SFTPFile.FLAG_APPEND.
      cbn.
      eval_flags.
      cbn.
      rewrite Hd1.
      cbn.
      rewrite assoc_set_same.
      rewrite skipn_nil, app_nil_r. reflexivity. }
    assert (Hr3 : regular_at (norm fname) w3).
    { subst w3. unfold regular_at, SFTPFile.store. cbn. rewrite Ha. cbn.
      rewrite assoc_set_same. eexists. split; [reflexivity | exact Hreg]. }
    destruct (open_for_reading fname w3 Hf3 Hr3) as (w4 & Ho4 & Hf4 & Hd4).
    unfold bind at 1. unfold bind at 1. rewrite Ho4. unfold ret at 1. cbv beta iota.
    unfold with_handler. rewrite read_equation. unfold FileHandler.zoom at 1.
    cbn [fst snd FileHandler.file_handler FileHandler.encoding FileHandler.errors
         FileHandler.newline].
    rewrite (raw_read_from_start (norm fname) w4 Hf4). cbv beta iota zeta.
    rewrite Hd4, Hd3. cbn [fst].
    unfold FileHandler._is_binary, FileHandler.truthy, SFTPFile.FLAG_BINARY.
    cbn [FileHandler.file_handler SFTPFile._flags].
    change (SFTPFile.flags_of_mode "rb") with 17. eval_flags. cbv iota.
    change (negb false) with true. cbv iota.
    unfold FileHandler.close, FileHandler.zoom.
    cbn [fst snd FileHandler.file_handler FileHandler.encoding FileHandler.errors
         FileHandler.newline].
    rewrite raw_close_open; [|cbn; exact Hf4|reflexivity]. reflexivity.
  - rewrite He. unfold FileHandler.close, FileHandler.zoom.
    cbn [fst snd FileHandler.file_handler FileHandler.encoding FileHandler.errors
         FileHandler.newline].
    rewrite raw_close_open; [|exact Hf1|reflexivity]. reflexivity.
Qed.

Lemma SFTPClient_open_flags (fname mode : string) (w w' : World) (f : SFTPFile.t) :
  SFTPClient_open fname mode w = (Ok f, w') ->
  SFTPFile._flags f = SFTPFile.flags_of_mode mode.
Proof.
  unfold SFTPClient_open, prim.
  destruct (fault_of _ (faults w)); [discriminate|].
  cbv zeta.
  destruct (assoc (norm fname) (remote (add_log (EvOpen fname mode) w))) as [a|].
  - destruct (S_ISDIR (st_mode a)); [discriminate|].
    destruct (SFTPFile.mode_has "x" mode); [discriminate|].
    destruct (SFTPFile.mode_has "w" mode); intros H; injection H as <- _; reflexivity.
  - match goal with |- context [if ?c then _ else _] => destruct c end;
      [|discriminate].
    intros H; injection H as <- _; reflexivity.
Qed.

(** C9: a string written through a stream opened in text mode with
    encoding utf-8 and read back through a stream opened in binary mode is
    exactly its UTF-8 encoding (and a string UTF-8 cannot encode makes the
    write raise).  In general a binary stream hands bytes through
    unchanged in both directions, a text stream decodes what it reads and
    encodes what it writes with the stream's encoding; a stream is binary
    exactly when its mode has a [b]. *)
Theorem stream_text_and_binary
    (registry : string -> option codec) (fname : string) (s : list N) (w : World)
    (fh : FileHandler.t) (text : pydata) (size : option nat)
    (mode encoding errors newline : option string) :
  (faults w = [] ->
   (exists f w1, SFTPClient_open fname "w" w = (Ok f, w1)) ->
   fst (write_text_read_bytes registry fname "utf-8" s w)
   = rbind (Utf8.encode s) (fun b => Ok (PyBytes b))) /\
  FileHandler.write registry text (fh, w)
  = (if FileHandler.truthy (FileHandler._is_binary fh)
     then FileHandler.zoom (SFTPFile.write text) (fh, w)
     else match py_encode registry text (FileHandler.encoding fh) with
          | Ok bytes => FileHandler.zoom (SFTPFile.write bytes) (fh, w)
          | Raise e => (Raise e, (fh, w))
          end) /\
  FileHandler.read registry size (fh, w)
  = (match FileHandler.zoom (SFTPFile.read size) (fh, w) with
     | (Ok raw, st) =>
         if FileHandler.truthy (FileHandler._is_binary (fst st))
         then (Ok (PyBytes raw), st)
         else (py_decode registry (PyBytes raw) (FileHandler.encoding (fst st)), st)
     | (Raise e, st) => (Raise e, st)
     end) /\
  match fst (SFTPHandler_open fname mode encoding errors newline w) with
  | Ok opened =>
      FileHandler.truthy (FileHandler._is_binary opened)
      = SFTPFile.mode_has "b" (default "rb" mode) /\
      FileHandler.encoding opened = encoding
  | Raise _ => True
  end.
Proof.
  split; [|split; [|split]].
  - intros Hf Hopen.
    now rewrite (text_write_binary_read_any registry fname "utf-8" s w Hf Hopen).
  - apply write_equation.
  - apply read_equation.
  - unfold SFTPHandler_open, bind, ret.
    destruct (SFTPClient_open fname (default "rb" mode) w) as [[f|e] w1] eqn:Ho;
      cbn [fst]; [|exact I].
    split; [|reflexivity].
    unfold FileHandler._is_binary. cbn [FileHandler.file_handler].
    rewrite (SFTPClient_open_flags _ _ _ _ _ Ho). apply is_binary_of_mode.
Qed.

Lemma stream_text_and_binary_witness :
  faults empty_world = [] /\
  (exists f w1, SFTPClient_open "note.txt" "w" empty_world = (Ok f, w1)) /\
  fst (write_text_read_bytes no_codecs "note.txt" "utf-8" [104; 233; 8364; 128512]%N
         empty_world)
  = rbind (Utf8.encode [104; 233; 8364; 128512]%N) (fun b => Ok (PyBytes b)).
Proof.
  assert (Hopen : exists f w1, SFTPClient_open "note.txt" "w" empty_world = (Ok f, w1))
    by (eexists; eexists; reflexivity).
  split; [reflexivity|]. split; [exact Hopen|].
  exact (proj1 (stream_text_and_binary no_codecs "note.txt" [104; 233; 8364; 128512]%N
                  empty_world
                  (FileHandler.mk (SFTPFile.mk "note.txt" 0 0 false) None None None)
                  (PyBytes []) None None None None None)
               eq_refl Hopen).
Defined.

(** ** Comparing snapshots *)

Example local_snapshot_captured :
  fst (SFTPHandler._local_tree "loc" two_trees) = Ok local_snapshot.
Proof. reflexivity. Qed.

Example remote_snapshot_captured :
  fst (SFTPHandler._remote_tree globals_with_Path handler 10 "." two_trees)
  = Ok remote_snapshot.
Proof. reflexivity. Qed.

Lemma map_r_spec {A B} (f : A -> result B) (P : B -> Prop) (l : list A) (l' : list B) :
  (forall a b, f a = Ok b -> P b) ->
  map_r f l = Ok l' -> List.length l' = List.length l /\ Forall P l'.
Proof.
  intros Hf. revert l'. induction l as [|a l IH]; simpl; intros l' H.
  - injection H as <-. split; [reflexivity | constructor].
  - destruct (f a) as [b|e] eqn:Ha; simpl in H; [|discriminate].
    destruct (map_r f l) as [rest|e] eqn:Hl; simpl in H; [|discriminate].
    injection H as <-. destruct (IH rest eq_refl) as [Hlen Hall].
    split; [simpl; now rewrite Hlen | constructor; eauto].
Qed.

(** What [diff] builds, whenever it returns: one boolean for each entry
    of [self], under the same root. *)
Lemma diff_flags (self other t : TreeList.t) :
  TreeList.diff self other = Ok t ->
  TreeList.root t = TreeList.root self /\
  List.length (TreeList.paths t) = List.length (TreeList.paths self) /\
  Forall (fun o => is_flag o = true) (TreeList.paths t).
Proof.
  unfold TreeList.diff. intros H.
  destruct (map_r (TreeList._rel other) (TreeList.paths other)) as [keys|e];
    simpl in H; [|discriminate].
  match type of H with
  | rbind (map_r ?f ?l) _ = _ => destruct (map_r f l) as [fl|e] eqn:Hm
  end; simpl in H; [|discriminate].
  injection H as <-. simpl. split; [reflexivity|].
  eapply map_r_spec; [|exact Hm].
  intros a b Hb. simpl in Hb.
  destruct (TreeList._rel self a); simpl in Hb; [|discriminate].
  injection Hb as <-. reflexivity.
Qed.

(** C1, as the code runs: [diff] maps the membership test over the
    entries instead of filtering with it.  A snapshot compared with itself
    gives one [False] per entry, not an empty snapshot; and comparing with
    a snapshot of remote handles raises, because [WebPath.relative_to]
    reads an attribute [_system] that no handle has. *)
Theorem diff_maps_instead_of_filtering :
  TreeList.diff local_snapshot local_snapshot
  = Ok (TreeList.mk "loc" [PBool false; PBool false; PBool false]) /\
  TreeList.diff local_snapshot remote_snapshot = Raise (AttributeError "_system") /\
  TreeList.diff remote_snapshot local_snapshot = Raise (AttributeError "_system").
Proof. repeat split; vm_compute; reflexivity. Qed.

Lemma map_M_spec {S A B} (f : A -> M S B) (Q : B -> Prop) (l : list A) :
  (forall a s b s', f a s = (Ok b, s') -> Q b) ->
  forall s l' s', map_M f l s = (Ok l', s') -> Forall Q l'.
Proof.
  intros Hf. induction l as [|a l IH]; simpl; intros s l' s' H.
  - injection H as <- _. constructor.
  - unfold bind in H. destruct (f a s) as [[b|e] s1] eqn:Ha; [|discriminate].
    destruct (map_M f l s1) as [[rest|e] s2] eqn:Hl; [|discriminate].
    injection H as <- _. constructor; eauto.
Qed.

(** What [mod] builds, whenever it returns: booleans. *)
Lemma mod_flags (self other t : TreeList.t) (w w' : World) :
  TreeList.mod_ self other w = (Ok t, w') ->
  Forall (fun o => is_flag o = true) (TreeList.paths t).
Proof.
  unfold TreeList.mod_, bind. intros H.
  destruct (map_M (TreeList._key other) (TreeList.paths other) w) as [[keys|e] w1];
    [|discriminate].
  match type of H with
  | context [map_M ?f ?l ?s] => destruct (map_M f l s) as [[fl|e] w2] eqn:Hm
  end; [|discriminate].
  injection H as <- _. simpl.
  eapply map_M_spec; [|exact Hm].
  intros a s b s' Hb. cbv beta in Hb. unfold bind in Hb.
  destruct (TreeList._key self a s) as [[k|e] s1]; [|discriminate].
  injection Hb as <- _. reflexivity.
Qed.

(** C2, as the code runs: [mod] has the same shape as [diff] and the same
    defect; a snapshot compared with itself gives one [False] per entry. *)
Theorem mod_maps_instead_of_filtering :
  fst (TreeList.mod_ local_snapshot local_snapshot two_trees)
  = Ok (TreeList.mk "loc" [PBool false; PBool false; PBool false]) /\
  fst (TreeList.mod_ local_snapshot remote_snapshot two_trees)
  = Raise (AttributeError "_system").
Proof. repeat split; vm_compute; reflexivity. Qed.

(** ** What an operation can have called *)

Section LogsOnly.

Context {S : Type} (wof : S -> World) (P : event -> bool).

Lemma logs_only_ret {A} (a : A) : logs_only wof P (ret a).
Proof. intros s. exists []. simpl. now rewrite app_nil_r. Qed.

Lemma logs_only_raise {A} (e : exn) : logs_only wof P (@raise S A e).
Proof. intros s. exists []. simpl. now rewrite app_nil_r. Qed.

Lemma logs_only_lift {A} (r : result A) : logs_only wof P (@lift S A r).
Proof. intros s. exists []. simpl. now rewrite app_nil_r. Qed.

Lemma logs_only_bind {A B} (m : M S A) (k : A -> M S B) :
  logs_only wof P m -> (forall a, logs_only wof P (k a)) -> logs_only wof P (bind m k).
Proof.
  intros Hm Hk s. unfold bind.
  destruct (Hm s) as (evs & Hl & Hp). destruct (m s) as [[a|e] s1]; simpl in *.
  - destruct (Hk a s1) as (evs' & Hl' & Hp').
    exists (evs ++ evs')%list. rewrite Hl', Hl, <- app_assoc, forallb_app, Hp, Hp'. auto.
  - exists evs. auto.
Qed.

(** What comes after a step that always raises does not run. *)
Lemma logs_only_bind_raises {A B} (m : M S A) (k : A -> M S B) :
  always_raises m -> logs_only wof P m -> logs_only wof P (bind m k).
Proof.
  intros Hr Hm s. unfold bind.
  destruct (Hm s) as (evs & Hl & Hp). destruct (Hr s) as [e He].
  destruct (m s) as [[a|e'] s1]; simpl in *; [discriminate|].
  exists evs. auto.
Qed.

Lemma always_raises_bind {A B} (m : M S A) (k : A -> M S B) :
  (forall a, always_raises (k a)) -> always_raises (bind m k).
Proof.
  intros Hk s. unfold bind. destruct (m s) as [[a|e] s1]; simpl; [apply Hk | eauto].
Qed.

Lemma logs_only_try_except {A} (m h : M S A) (handled : exn -> bool) :
  logs_only wof P m -> logs_only wof P h -> logs_only wof P (try_except m handled h).
Proof.
  intros Hm Hh s. unfold try_except.
  destruct (Hm s) as (evs & Hl & Hp). destruct (m s) as [[a|e] s1]; simpl in *.
  - exists evs. auto.
  - destruct (handled e); simpl; [|exists evs; auto].
    destruct (Hh s1) as (evs' & Hl' & Hp').
    exists (evs ++ evs')%list. rewrite Hl', Hl, <- app_assoc, forallb_app, Hp, Hp'. auto.
Qed.

Lemma logs_only_if {A} (c : bool) (m1 m2 : M S A) :
  logs_only wof P m1 -> logs_only wof P m2 -> logs_only wof P (if c then m1 else m2).
Proof. destruct c; auto. Qed.

End LogsOnly.

Section LogsOnlyWorld.

Context (P : event -> bool).

(** A primitive logs its own event and nothing else. *)
Lemma logs_only_prim {A} (ev : event) (body : M World A) :
  P ev = true -> (forall w, log (snd (body w)) = log w) ->
  logs_only the_world P (prim ev body).
Proof.
  intros Hev Hb w. exists [ev]. unfold prim, the_world.
  destruct (fault_of ev (faults w)); simpl; [|rewrite Hb; simpl];
    rewrite Hev; auto.
Qed.

Lemma logs_only_liftW {H A} (m : M World A) :
  logs_only the_world P m -> logs_only (fun s : H * World => snd s) P (liftW m).
Proof.
  intros Hm [h w]. destruct (Hm w) as (evs & Hl & Hp). exists evs.
  unfold liftW, the_world in *. simpl. destruct (m w) as [r w1]. simpl in *. auto.
Qed.

Lemma logs_only_on_object {H A} (h : H) (m : M (H * World) A) :
  logs_only (fun s : H * World => snd s) P m -> logs_only the_world P (on_object h m).
Proof.
  intros Hm w. destruct (Hm (h, w)) as (evs & Hl & Hp). exists evs.
  unfold on_object, the_world in *. destruct (m (h, w)) as [r s1]. simpl in *. auto.
Qed.

Lemma logs_only_get_self {H} : logs_only (fun s : H * World => snd s) P get_self.
Proof. intros s. exists []. simpl. now rewrite app_nil_r. Qed.

Lemma logs_only_set_self {H} (h : H) :
  logs_only (fun s : H * World => snd s) P (set_self h).
Proof. intros s. exists []. simpl. now rewrite app_nil_r. Qed.

Lemma logs_only_for_filter (pred : pyobj -> M World bool) (body : pyobj -> M World unit)
    (l : list pyobj) :
  (forall o, logs_only the_world P (pred o)) ->
  (forall o, logs_only the_world P (body o)) ->
  logs_only the_world P (for_filter pred l body).
Proof.
  intros Hp Hb. induction l as [|o l IH]; simpl.
  - apply logs_only_ret.
  - apply logs_only_bind; [apply Hp|]. intros keep.
    apply logs_only_bind; [|intros _; exact IH].
    apply logs_only_if; [apply Hb | apply logs_only_ret].
Qed.

Lemma logs_only_flat_map_M {A B} (f : A -> M World (list B)) (l : list A) :
  (forall a, logs_only the_world P (f a)) -> logs_only the_world P (flat_map_M f l).
Proof.
  intros Hf. induction l as [|a l IH]; simpl.
  - apply logs_only_ret.
  - apply logs_only_bind; [apply Hf|]. intros bs.
    apply logs_only_bind; [exact IH|]. intros rest. apply logs_only_ret.
Qed.

Lemma logs_only_map_M {A B} (f : A -> M World B) (l : list A) :
  (forall a, logs_only the_world P (f a)) -> logs_only the_world P (map_M f l).
Proof.
  intros Hf. induction l as [|a l IH]; simpl.
  - apply logs_only_ret.
  - apply logs_only_bind; [apply Hf|]. intros b.
    apply logs_only_bind; [exact IH|]. intros rest. apply logs_only_ret.
Qed.

End LogsOnlyWorld.

Ltac body_keeps_log :=
  intros ?; cbv beta zeta;
  repeat match goal with
         | |- context [match ?x with _ => _ end] => destruct x
         end; reflexivity.

Section Primitives.

Context (P : event -> bool).

Lemma logs_only_stat path :
  P (EvStat path) = true -> logs_only the_world P (Sftp.stat path).
Proof. intros H. apply logs_only_prim; [exact H | body_keeps_log]. Qed.

Lemma logs_only_listdir_attr path :
  P (EvListdirAttr path) = true -> logs_only the_world P (Sftp.listdir_attr path).
Proof. intros H. apply logs_only_prim; [exact H | body_keeps_log]. Qed.

Lemma logs_only_mkdir path :
  P (EvMkdir path) = true -> logs_only the_world P (Sftp.mkdir path).
Proof. intros H. apply logs_only_prim; [exact H | body_keeps_log]. Qed.

Lemma logs_only_remove path :
  P (EvRemove path) = true -> logs_only the_world P (Sftp.remove path).
Proof. intros H. apply logs_only_prim; [exact H | body_keeps_log]. Qed.

Lemma logs_only_put localpath remotepath :
  P (EvPut localpath remotepath) = true ->
  logs_only the_world P (Sftp.put localpath remotepath).
Proof. intros H. apply logs_only_prim; [exact H | body_keeps_log]. Qed.

Lemma logs_only_os_stat path :
  P (EvOsStat path) = true -> logs_only the_world P (Os.stat path).
Proof. intros H. apply logs_only_prim; [exact H | body_keeps_log]. Qed.

Lemma logs_only_rglob path :
  P (EvRglob path) = true -> logs_only the_world P (Os.rglob path).
Proof. intros H. apply logs_only_prim; [exact H | body_keeps_log]. Qed.

Lemma logs_only_handle_stat :
  (forall p, P (EvStat p) = true) ->
  logs_only (fun s : WebPath.t * World => snd s) P WebPath.stat.
Proof.
  intros H. unfold WebPath.stat.
  apply logs_only_bind; [apply logs_only_get_self|]. intros self.
  destruct (WebPath._stat self); [apply logs_only_ret|].
  apply logs_only_bind.
  - unfold WebPath.via_accessor.
    apply logs_only_bind; [apply logs_only_get_self|]. intros self'.
    destruct (WebPath._accessor self'); [|apply logs_only_raise].
    apply logs_only_liftW, logs_only_stat, H.
  - intros a. apply logs_only_bind; [apply logs_only_set_self|].
    intros _. apply logs_only_ret.
Qed.

Lemma logs_only_obj_is_dir (o : pyobj) :
  (forall p, P (EvStat p) = true) -> (forall p, P (EvOsStat p) = true) ->
  logs_only the_world P (obj_is_dir o).
Proof.
  intros H1 H2. destruct o as [p|h|b]; simpl.
  - unfold Os.is_dir. apply logs_only_try_except; [|apply logs_only_ret].
    apply logs_only_bind; [apply logs_only_os_stat, H2|]. intros a. apply logs_only_ret.
  - apply logs_only_on_object. unfold WebPath.is_dir, WebPath._mode.
    apply logs_only_try_except; [|apply logs_only_ret].
    apply logs_only_bind; [|intros m; apply logs_only_ret].
    apply logs_only_bind; [apply logs_only_handle_stat, H1|].
    intros a. apply logs_only_ret.
  - apply logs_only_raise.
Qed.

Lemma logs_only_obj_is_file (o : pyobj) :
  (forall p, P (EvStat p) = true) -> (forall p, P (EvOsStat p) = true) ->
  logs_only the_world P (obj_is_file o).
Proof.
  intros H1 H2. destruct o as [p|h|b]; simpl.
  - unfold Os.is_file. apply logs_only_try_except; [|apply logs_only_ret].
    apply logs_only_bind; [apply logs_only_os_stat, H2|]. intros a. apply logs_only_ret.
  - apply logs_only_on_object. unfold WebPath.is_file, WebPath._mode.
    apply logs_only_try_except; [|apply logs_only_ret].
    apply logs_only_bind; [|intros m; apply logs_only_ret].
    apply logs_only_bind; [apply logs_only_handle_stat, H1|].
    intros a. apply logs_only_ret.
  - apply logs_only_raise.
Qed.

Lemma logs_only_walk globals self depth path recurse :
  (forall p, P (EvStat p) = true) -> (forall p, P (EvListdirAttr p) = true) ->
  logs_only the_world P (SFTPHandler._walk globals self depth path recurse).
Proof.
  intros H1 H2. revert path. induction depth as [|d IH]; intros path; simpl.
  - apply logs_only_raise.
  - apply logs_only_bind; [apply logs_only_listdir_attr, H2|]. intros attrs.
    apply logs_only_flat_map_M. intros attr.
    apply logs_only_bind; [apply logs_only_lift|]. intros node.
    apply logs_only_bind.
    + apply logs_only_if; [|apply logs_only_ret].
      apply logs_only_on_object. unfold WebPath.is_dir, WebPath._mode.
      apply logs_only_try_except; [|apply logs_only_ret].
      apply logs_only_bind; [|intros m; apply logs_only_ret].
      apply logs_only_bind; [apply logs_only_handle_stat, H1|].
      intros a. apply logs_only_ret.
    + intros descend. apply logs_only_bind; [|intros below; apply logs_only_ret].
      apply logs_only_if; [apply IH | apply logs_only_ret].
Qed.

End Primitives.

Lemma logs_only_bind_post {S A B} (wof : S -> World) (P : event -> bool)
    (Q : A -> Prop) (m : M S A) (k : A -> M S B) :
  logs_only wof P m ->
  (forall s a s', m s = (Ok a, s') -> Q a) ->
  (forall a, Q a -> logs_only wof P (k a)) ->
  logs_only wof P (bind m k).
Proof.
  intros Hm HQ Hk s. unfold bind.
  destruct (Hm s) as (evs & Hl & Hp). destruct (m s) as [[a|e] s1] eqn:Hms; simpl in *.
  - destruct (Hk a (HQ _ _ _ Hms) s1) as (evs' & Hl' & Hp').
    exists (evs ++ evs')%list. rewrite Hl', Hl, <- app_assoc, forallb_app, Hp, Hp'. auto.
  - exists evs. auto.
Qed.

(** ** Recursive delete *)

(** [_rm_tree] never returns: the first file it comes to is handed to
    [remove] as it is and refused; when there is no file, [reversed] is
    handed the filter object [tree.directories] and raises. *)
Lemma rm_tree_raises (tree : TreeList.t) (w : World) :
  exists e, fst (SFTPHandler._rm_tree tree w) = Raise e.
Proof.
  unfold SFTPHandler._rm_tree, bind.
  destruct (for_each (TreeList.files tree) _ w) as [[u|e] w']; simpl; eauto.
Qed.

Lemma rm_r_raises globals self depth remotepath remove_root (w : World) :
  exists e, fst (SFTPHandler.rm_r globals self depth remotepath remove_root w) = Raise e.
Proof.
  unfold SFTPHandler.rm_r, bind.
  destruct (SFTPHandler._remote_tree globals self depth remotepath w) as [[tree|e] w1];
    simpl; eauto.
  destruct (rm_tree_raises tree w1) as [e He].
  destruct (SFTPHandler._rm_tree tree w1) as [[u|e'] w2]; simpl in *; [discriminate|eauto].
Qed.

Lemma sftp_path_raises {S} (o : pyobj) : always_raises (@lift S string (obj_sftp_path o)).
Proof. intros s. destruct o; simpl; eauto. Qed.

(** Whatever the tree, [_rm_tree] gets to no [remove] and no [rmdir]. *)
Lemma rm_tree_only_looks (tree : TreeList.t) :
  logs_only the_world only_looks (SFTPHandler._rm_tree tree).
Proof.
  unfold SFTPHandler._rm_tree. apply logs_only_bind.
  - apply logs_only_for_filter.
    + intros o. apply logs_only_obj_is_file; reflexivity.
    + intros o. apply logs_only_bind_raises; [apply sftp_path_raises | apply logs_only_lift].
  - intros _. apply logs_only_bind_raises; [|apply logs_only_lift].
    intros w. simpl. eauto.
Qed.

(** Whatever the remote tree, [rm_r] removes nothing: the calls it makes
    are listings and stats. *)
Lemma rm_r_only_looks globals self depth remotepath remove_root :
  logs_only the_world only_looks
    (SFTPHandler.rm_r globals self depth remotepath remove_root).
Proof.
  unfold SFTPHandler.rm_r, SFTPHandler._remote_tree, TreeList.from_walk.
  apply logs_only_bind.
  - apply logs_only_bind; [apply logs_only_walk; reflexivity|].
    intros l. apply logs_only_ret.
  - intros tree. apply logs_only_bind_raises.
    + intros w. apply rm_tree_raises.
    + apply rm_tree_only_looks.
Qed.

(** C3, as the code runs: whatever the tree, [rm_r] never returns and
    removes nothing, neither a file nor a directory nor the root: the calls
    it makes are listings and stats.  On [{d/, d/e/, d/e/f.txt}] the
    snapshot is not even captured: [WebPath.from_attr] calls [Path], a name
    [webpath.py] does not import.  With that name bound, [remove] is handed
    the handle of [f.txt] itself, which paramiko refuses before it sends
    anything, so [f.txt], [d/e] and [d] all stay.  On a tree without files,
    [{d/, d/e/}], the loop over the files passes and [reversed] is handed
    the filter object [tree.directories], which it refuses. *)
Theorem rm_r_removes_no_directory :
  (forall globals self depth remotepath remove_root,
     always_raises (SFTPHandler.rm_r globals self depth remotepath remove_root) /\
     logs_only the_world only_looks
       (SFTPHandler.rm_r globals self depth remotepath remove_root)) /\
  (let out := SFTPHandler.rm_r WebPath.module_globals handler 10 "." (Some true) remote_d_e_f in
   fst out = Raise (NameError "Path") /\
   log (snd out) = [EvListdirAttr "."] /\
   List.map fst (remote (snd out)) = ["d"; "d/e"; "d/e/f.txt"]) /\
  (let out := SFTPHandler.rm_r globals_with_Path handler 10 "." (Some true) remote_d_e_f in
   fst out = Raise (TypeError "Expected unicode or bytes") /\
   log (snd out) = [EvListdirAttr "."; EvListdirAttr "d"; EvListdirAttr "d/e"] /\
   List.map fst (remote (snd out)) = ["d"; "d/e"; "d/e/f.txt"]) /\
  (let out := SFTPHandler.rm_r globals_with_Path handler 10 "." (Some true) remote_d_e in
   fst out = Raise (TypeError "'filter' object is not reversible") /\
   log (snd out) = [EvListdirAttr "."; EvListdirAttr "d"; EvListdirAttr "d/e"] /\
   List.map fst (remote (snd out)) = ["d"; "d/e"]).
Proof.
  split.
  - intros globals self depth remotepath remove_root. split.
    + intros w. apply rm_r_raises.
    + apply rm_r_only_looks.
  - repeat split; vm_compute; reflexivity.
Qed.

(** ** Upload *)

(** The file half of the claim: [put] with preservation transfers, copies
    the local times onto the remote node, then asks for the node's stat
    again and returns that. *)
Lemma put_preserving (localpath remotepath : string) (w : World) :
  SFTPHandler.put localpath remotepath (Some true) w
  = bind (Sftp.put localpath remotepath) (fun _ =>
    bind (Os.stat localpath) (fun stat =>
    bind (Sftp.utime remotepath (st_atime stat) (st_mtime stat)) (fun _ =>
    Sftp.stat remotepath))) w.
Proof.
  unfold SFTPHandler.put, SFTPHandler._copy_local_time, bind. simpl.
  destruct (Sftp.put localpath remotepath w) as [[a|e] w1]; [|reflexivity].
  destruct (Os.stat localpath w1) as [[st|e] w2]; reflexivity.
Qed.

(** C4, as the code runs: with preservation on, the directory loop of
    [_put_tree] calls [_copy_remote_time], so the local directory [src/sub]
    (stamped 1000) receives the remote directory's times (5) and the remote
    one is never touched; the file does get the local times, in whole
    seconds. *)
Theorem put_r_copies_directory_times_backwards :
  let out := SFTPHandler.put_r handler "src" "." (Some true) upload_world in
  fst out = Ok tt /\
  mtimes (local (snd out)) = [("src/sub", inject_Z 5); ("src/sub/a.txt", 2001 # 2)] /\
  mtimes (remote (snd out)) = [("sub", inject_Z 5); ("sub/a.txt", inject_Z 1000)] /\
  log (snd out) =
    [EvRglob "src"; EvOsStat "src/sub"; EvStat "sub"; EvStat "sub";
     EvOsUtime "src/sub" (inject_Z 5) (inject_Z 5); EvOsStat "src/sub/a.txt";
     EvOsStat "src/sub"; EvOsStat "src/sub/a.txt";
     EvPut "src/sub/a.txt" "sub/a.txt"; EvOsStat "src/sub/a.txt";
     EvUtime "sub/a.txt" (2001 # 2) (2001 # 2); EvStat "sub/a.txt"].
Proof. repeat split; vm_compute; reflexivity. Qed.

Lemma logs_only_isdir (P : event -> bool) self remotepath :
  (forall p, P (EvStat p) = true) ->
  logs_only the_world P (SFTPHandler.isdir self remotepath).
Proof.
  intros H. unfold SFTPHandler.isdir.
  apply logs_only_try_except; [|apply logs_only_ret].
  apply logs_only_on_object. unfold WebPath.is_dir, WebPath._mode.
  apply logs_only_try_except; [|apply logs_only_ret].
  apply logs_only_bind; [|intros m; apply logs_only_ret].
  apply logs_only_bind; [apply logs_only_handle_stat, H|].
  intros a. apply logs_only_ret.
Qed.

(** Without preservation the upload sets no time stamp, on either side. *)
Lemma put_tree_without_preserve self tree remotepath :
  logs_only the_world (fun ev => negb (sets_times ev))
    (SFTPHandler._put_tree self tree remotepath (Some false)).
Proof.
  unfold SFTPHandler._put_tree. apply logs_only_bind.
  - apply logs_only_for_filter.
    + intros o. apply logs_only_obj_is_dir; reflexivity.
    + intros ld. apply logs_only_bind; [apply logs_only_lift|]. intros rd.
      apply logs_only_if; [apply logs_only_ret|].
      apply logs_only_bind; [apply logs_only_isdir; reflexivity|]. intros present.
      apply logs_only_bind; [|intros _; apply logs_only_ret].
      apply logs_only_if; [apply logs_only_mkdir; reflexivity | apply logs_only_ret].
  - intros _. apply logs_only_for_filter.
    + intros o. apply logs_only_obj_is_file; reflexivity.
    + intros lf. apply logs_only_bind; [apply logs_only_lift|]. intros rf.
      apply logs_only_bind; [apply logs_only_lift|]. intros l.
      apply logs_only_bind; [|intros _; apply logs_only_ret].
      unfold SFTPHandler.put.
      apply logs_only_bind; [apply logs_only_put; reflexivity|].
      intros a. apply logs_only_ret.
Qed.

Lemma put_r_default_sets_no_times self localpath remotepath :
  logs_only the_world (fun ev => negb (sets_times ev))
    (SFTPHandler.put_r self localpath remotepath None).
Proof.
  unfold SFTPHandler.put_r, SFTPHandler._local_tree, TreeList.from_walk.
  apply logs_only_bind; [|intros tree; apply put_tree_without_preserve].
  apply logs_only_bind; [|intros l; apply logs_only_ret].
  apply logs_only_bind; [apply logs_only_rglob; reflexivity|].
  intros l. apply logs_only_ret.
Qed.

(** A snapshot of booleans stops the upload before its first call. *)
Lemma put_tree_of_flags (P : event -> bool) self tree remotepath preserve_mtime :
  Forall (fun o => is_flag o = true) (TreeList.paths tree) ->
  logs_only the_world P (SFTPHandler._put_tree self tree remotepath preserve_mtime).
Proof.
  intros Hall w. exists []. rewrite app_nil_r. split; [|reflexivity].
  unfold SFTPHandler._put_tree, TreeList.directories, TreeList.files, for_each.
  destruct (TreeList.paths tree) as [|o l]; [reflexivity|].
  inversion Hall as [|? ? Ho _]; subst.
  destruct o; try discriminate. reflexivity.
Qed.

(** [put_diff] never gets to upload: it lists, stats, and then either
    raises or finds nothing to do. *)
Lemma put_diff_only_looks globals self depth localpath remotepath preserve_mtime :
  logs_only the_world only_looks
    (SFTPHandler.put_diff globals self depth localpath remotepath preserve_mtime).
Proof.
  unfold SFTPHandler.put_diff, SFTPHandler._remote_tree, SFTPHandler._local_tree,
    TreeList.from_walk.
  apply logs_only_bind.
  { apply logs_only_bind; [apply logs_only_walk; reflexivity|].
    intros l. apply logs_only_ret. }
  intros rem_tree. apply logs_only_bind.
  { apply logs_only_bind; [|intros l; apply logs_only_ret].
    apply logs_only_bind; [apply logs_only_rglob; reflexivity|].
    intros l. apply logs_only_ret. }
  intros loc_tree.
  apply (logs_only_bind_post _ _
           (fun t => Forall (fun o => is_flag o = true) (TreeList.paths t))).
  - unfold TreeList.mod_.
    assert (Hkey : forall t o, logs_only the_world only_looks (TreeList._key t o)).
    { intros t o. unfold TreeList._key. apply logs_only_bind.
      - destruct o as [p|h|b]; simpl.
        + apply logs_only_os_stat. reflexivity.
        + apply logs_only_on_object, logs_only_handle_stat. reflexivity.
        + apply logs_only_raise.
      - intros st. apply logs_only_bind; [apply logs_only_lift|].
        intros rel. apply logs_only_ret. }
    apply logs_only_bind; [apply logs_only_map_M; intros o; apply Hkey|].
    intros keys. apply logs_only_bind; [|intros l; apply logs_only_ret].
    apply logs_only_map_M. intros o.
    apply logs_only_bind; [apply Hkey|]. intros k. apply logs_only_ret.
  - intros w t w'. apply mod_flags.
  - intros t Ht. now apply put_tree_of_flags.
Qed.

Example put_r_default_on_example :
  let out := SFTPHandler.put_r handler "src" "." None upload_world in
  fst out = Ok tt /\
  mtimes (remote (snd out)) = [("sub", inject_Z 5); ("sub/a.txt", inject_Z 100)] /\
  mtimes (local (snd out)) = [("src/sub", inject_Z 1000); ("src/sub/a.txt", 2001 # 2)].
Proof. repeat split; vm_compute; reflexivity. Qed.

(** C8, as the code runs: [put_diff] is declared with [preserve_mtime]
    true, but whatever the trees and whatever the flag it never gets to a
    transfer, a [mkdir] or a [utime]: [mod] raises or hands [_put_tree] a
    snapshot of booleans.  On an empty remote directory and a local
    [src/sub/a.txt] it stats the two local entries and raises
    [AttributeError] on the first boolean.  [put_r] on the same input
    creates [sub], then transfers [sub/a.txt]; left to its default it sets
    no time stamp (on any input), and asked to preserve it stamps the file
    with the local time in whole seconds. *)
Theorem put_diff_preserves_no_time :
  (forall globals self depth localpath remotepath preserve_mtime,
     logs_only the_world only_looks
       (SFTPHandler.put_diff globals self depth localpath remotepath preserve_mtime)) /\
  (forall self localpath remotepath,
     logs_only the_world (fun ev => negb (sets_times ev))
       (SFTPHandler.put_r self localpath remotepath None)) /\
  (let out := SFTPHandler.put_diff WebPath.module_globals handler 10 "src" "." None
                fresh_upload in
   fst out = Raise (AttributeError "is_dir") /\
   log (snd out) = [EvListdirAttr "."; EvRglob "src"; EvOsStat "src/sub";
                    EvOsStat "src/sub/a.txt"] /\
   remote (snd out) = []) /\
  (let out := SFTPHandler.put_r handler "src" "." None fresh_upload in
   fst out = Ok tt /\
   log (snd out) = [EvRglob "src"; EvOsStat "src/sub"; EvStat "sub"; EvMkdir "sub";
                    EvOsStat "src/sub/a.txt"; EvOsStat "src/sub"; EvOsStat "src/sub/a.txt";
                    EvPut "src/sub/a.txt" "sub/a.txt"] /\
   mtimes (remote (snd out)) = [("sub", inject_Z 100); ("sub/a.txt", inject_Z 100)]) /\
  (let out := SFTPHandler.put_r handler "src" "." (Some true) fresh_upload in
   fst out = Ok tt /\
   log (snd out) = [EvRglob "src"; EvOsStat "src/sub"; EvStat "sub"; EvMkdir "sub";
                    EvStat "sub"; EvOsUtime "src/sub" (inject_Z 100) (inject_Z 100);
                    EvOsStat "src/sub/a.txt"; EvOsStat "src/sub"; EvOsStat "src/sub/a.txt";
                    EvPut "src/sub/a.txt" "sub/a.txt"; EvOsStat "src/sub/a.txt";
                    EvUtime "sub/a.txt" (2001 # 2) (2001 # 2); EvStat "sub/a.txt"] /\
   mtimes (remote (snd out)) = [("sub", inject_Z 100); ("sub/a.txt", inject_Z 1000)]).
Proof.
  split; [intros; apply put_diff_only_looks|].
  split; [intros; apply put_r_default_sets_no_times|].
  repeat split; vm_compute; reflexivity.
Qed.

(** ** The remote walk *)

(** With the names [webpath.py] binds, the walk stops at the first entry
    of the first listing. *)
Lemma walk_raises_on_first_entry (self : WebPath.accessor) (depth : nat)
    (path : string) (recurse : bool) (w w' : World) (a : SFTPAttributes)
    (l : list SFTPAttributes) :
  Sftp.listdir_attr path w = (Ok (a :: l), w') ->
  SFTPHandler._walk WebPath.module_globals self (S depth) path recurse w
  = (Raise (NameError "Path"), w').
Proof.
  intros H. simpl. rewrite (bind_ok _ _ _ _ _ H). reflexivity.
Qed.

(** C5, as the code runs: on a directory with an entry the walk raises
    [NameError] before it yields anything, because [from_attr] calls
    [Path] and [webpath.py] does not import it.  With the name bound, the
    walk of [{d/, d/e/, d/e/f.txt}] is [d], [d/e], [d/e/f.txt], one listing
    per directory. *)
Theorem walk_stops_at_unbound_Path :
  SFTPHandler._walk WebPath.module_globals handler 10 "." true remote_d_e_f
  = (Raise (NameError "Path"), add_log (EvListdirAttr ".") remote_d_e_f) /\
  (let out := SFTPHandler._walk globals_with_Path handler 10 "." true remote_d_e_f in
   fst out = Ok [remote_handle "d" (dir_attr "d" 5);
                 remote_handle "d/e" (dir_attr "e" 5);
                 remote_handle "d/e/f.txt" (file_attr "f.txt" 7)] /\
   log (snd out) = [EvListdirAttr "."; EvListdirAttr "d"; EvListdirAttr "d/e"]).
Proof. repeat split; vm_compute; reflexivity. Qed.

Lemma extend_log_nil (w : World) : extend_log [] w = w.
Proof. destruct w. unfold extend_log. simpl. now rewrite app_nil_r. Qed.

Lemma extend_log_twice (a b : list event) (w : World) :
  extend_log b (extend_log a w) = extend_log (a ++ b) w.
Proof. unfold extend_log. simpl. now rewrite app_assoc. Qed.

Lemma listdir_attr_answer (path : string) (w : World) :
  Sftp.listdir_attr path w
  = (listing_of (remote w) (faults w) path, extend_log [EvListdirAttr path] w).
Proof.
  unfold listing_of, Sftp.listdir_attr, prim. simpl.
  destruct (fault_of (EvListdirAttr path) (faults w)); [reflexivity|].
  destruct (is_dir_node (remote w) (norm path)); reflexivity.
Qed.

Lemma forest_height_cons (k : rnode) (kids : list rnode) :
  forest_height (k :: kids) = Nat.max (height k) (forest_height kids).
Proof. reflexivity. Qed.

Lemma height_node (a : SFTPAttributes) (kids : list rnode) :
  height (RNode a kids) = S (forest_height kids).
Proof. reflexivity. Qed.

Section WalkOfTree.

Context (self : WebPath.accessor) (r : list (string * SFTPAttributes))
        (f : list (event * exn)).

(** One round of the loop in [_walk], given what the recursive call does
    on smaller trees. *)
Lemma walk_entries (d : nat) (path : string) :
  (forall kids path' w,
     remote w = r -> faults w = f -> (forest_height kids < d)%nat ->
     listing_of r f path' = Ok (List.map attr_of kids) ->
     fold_right (fun k acc => listed self r f path' k /\ acc) True kids ->
     SFTPHandler._walk globals_with_Path self d path' true w
     = (Ok (flat_map (preorder self path') kids),
        extend_log (EvListdirAttr path' :: flat_map (listings self path') kids) w)) ->
  forall kids w,
    remote w = r -> faults w = f -> (forest_height kids <= d)%nat ->
    fold_right (fun k acc => listed self r f path k /\ acc) True kids ->
    flat_map_M (fun attr =>
        bind (lift (WebPath.from_attr globals_with_Path path (Some self) attr)) (fun node =>
        bind (on_object node WebPath.is_dir) (fun descend =>
        bind (if descend
              then SFTPHandler._walk globals_with_Path self d (WebPath.as_posix node) true
              else ret []) (fun below =>
        ret (PWeb node :: below)))))
      (List.map attr_of kids) w
    = (Ok (flat_map (preorder self path) kids),
       extend_log (flat_map (listings self path) kids) w).
Proof.
  intros IHd. induction kids as [|[a ks] kids IH]; intros w Hr Hf Hh Hl.
  - simpl. now rewrite extend_log_nil.
  - rewrite forest_height_cons, height_node in Hh.
    destruct Hl as [Hk Hl].
    cbn [List.map attr_of flat_map_M flat_map preorder listings].
    unfold bind at 1. unfold bind at 1.
    change (lift (WebPath.from_attr globals_with_Path path (Some self) a) w)
      with (Ok (handle_under self path a), w).
    cbv beta iota. unfold bind at 1.
    change (on_object (handle_under self path a) WebPath.is_dir w)
      with (Ok (S_ISDIR (st_mode a)), w).
    cbv beta iota. cbn [listed] in Hk.
    destruct (S_ISDIR (st_mode a)) eqn:Hdir.
    + destruct Hk as [Hlist Hks].
      unfold bind at 1.
      rewrite (IHd ks _ w Hr Hf ltac:(lia) Hlist Hks). cbv beta iota.
      unfold ret at 1. cbv beta iota. unfold bind at 1.
      rewrite IH; [|exact Hr|exact Hf|lia|exact Hl].
      unfold ret. rewrite extend_log_twice. reflexivity.
    + unfold bind at 1. unfold ret at 1. cbv beta iota.
      unfold ret at 1. cbv beta iota. unfold bind at 1.
      rewrite (IH w Hr Hf ltac:(lia) Hl). reflexivity.
Qed.

Lemma walk_forest (depth : nat) :
  forall kids path w,
    remote w = r -> faults w = f -> (forest_height kids < depth)%nat ->
    listing_of r f path = Ok (List.map attr_of kids) ->
    fold_right (fun k acc => listed self r f path k /\ acc) True kids ->
    SFTPHandler._walk globals_with_Path self depth path true w
    = (Ok (flat_map (preorder self path) kids),
       extend_log (EvListdirAttr path :: flat_map (listings self path) kids) w).
Proof.
  induction depth as [|d IHd]; intros kids path w Hr Hf Hh Hlist Hl; [lia|].
  cbn [SFTPHandler._walk]. unfold bind at 1.
  rewrite listdir_attr_answer, Hr, Hf, Hlist. cbv beta iota.
  rewrite (walk_entries d path IHd kids); [|exact Hr|exact Hf|lia|exact Hl].
  rewrite extend_log_twice. reflexivity.
Qed.

End WalkOfTree.

(** With [Path] bound in [webpath.py], a deep enough walk of a directory
    whose listings are those of a tree yields the tree in pre-order, every
    node before what it holds and every subtree before the next sibling,
    with one listing per directory, in that same order. *)
Lemma walk_is_preorder_when_Path_is_bound (self : WebPath.accessor) (depth : nat)
    (kids : list rnode) (path : string) (w : World) :
  forest_listed self w path kids ->
  (forest_height kids < depth)%nat ->
  SFTPHandler._walk globals_with_Path self depth path true w
  = (Ok (flat_map (preorder self path) kids),
     extend_log (EvListdirAttr path :: flat_map (listings self path) kids) w).
Proof.
  intros [Hlist Hl] Hh.
  now apply (walk_forest self (remote w) (faults w)).
Qed.

Example walk_of_sample_forest :
  forest_listed handler sample_world "." sample_forest /\
  (forest_height sample_forest < 10)%nat /\
  fst (SFTPHandler._walk globals_with_Path handler 10 "." true sample_world)
  = Ok [remote_handle "d" (dir_attr "d" 5);
        remote_handle "d/e" (dir_attr "e" 5);
        remote_handle "d/e/f.txt" (file_attr "f.txt" 7);
        remote_handle "d/g.txt" (file_attr "g.txt" 8);
        remote_handle "h.txt" (file_attr "h.txt" 9)] /\
  log (snd (SFTPHandler._walk globals_with_Path handler 10 "." true sample_world))
  = [EvListdirAttr "."; EvListdirAttr "d"; EvListdirAttr "d/e"].
Proof.
  assert (Hl : forest_listed handler sample_world "." sample_forest)
    by (vm_compute; repeat split).
  assert (Hh : (forest_height sample_forest < 10)%nat) by (vm_compute; lia).
  split; [exact Hl|]. split; [exact Hh|].
  rewrite (walk_is_preorder_when_Path_is_bound handler 10 sample_forest "." sample_world Hl Hh).
  split; reflexivity.
Qed.

(** Too shallow a walk runs out of frames. *)
Example walk_out_of_depth :
  fst (SFTPHandler._walk globals_with_Path handler 2 "." true sample_world)
  = Raise RecursionError.
Proof. reflexivity. Qed.

(** ** Failures reach the caller *)


Section Aborts.

Context {S : Type} (wof : S -> World) (exempt : event -> exn -> bool).









End Aborts.

Section AbortsWorld.

Context (exempt : event -> exn -> bool).





















End AbortsWorld.




















(** The promise has teeth, and the stats have to be left out of it: with
    nothing left out it fails for [put_r], which goes on after the refused
    stat of [secret]. *)
Example put_r_absorbs_a_refused_stat :
  ~ aborts_on_failure the_world (fun _ _ => false)
      (SFTPHandler.put_r handler "src" "." None).
Proof.
  intros H. destruct (H denied_world) as (evs & Hl & _ & Hp).
  vm_compute in Hl. subst evs.
  destruct (Hp [EvRglob "src"; EvOsStat "src/secret"] (EvStat "secret")
              [EvMkdir "secret"; EvOsStat "src/secret"] PermissionError
              eq_refl eq_refl eq_refl) as [Hlast _].
  discriminate Hlast.
Qed.

(** One failing call inside an upload: the server refuses the transfer of
    [sub/a.txt], and [put_r] stops there with that refusal. *)
Example put_r_stops_at_refused_transfer :
  let out := SFTPHandler.put_r handler "src" "." None transfer_refused in
  fst out = Raise PermissionError /\
  log (snd out) = [EvRglob "src"; EvOsStat "src/sub"; EvStat "sub"; EvMkdir "sub";
                   EvOsStat "src/sub/a.txt"; EvOsStat "src/sub"; EvOsStat "src/sub/a.txt";
                   EvPut "src/sub/a.txt" "sub/a.txt"].
Proof. repeat split; vm_compute; reflexivity. Qed.

(** * Further properties *)

(** ** Handles: paths, cache and classification *)

Lemma relative_to_raises (self : WebPath.t) (ancestor : string) :
  WebPath.relative_to self ancestor = Raise ValueError \/
  WebPath.relative_to self ancestor = Raise (AttributeError "_system").
Proof.
  unfold WebPath.relative_to, PurePath.relative_to.
  destruct (String.eqb _ _); [|now left].
  destruct (PurePath.strip_prefix _ _); [now right | now left].
Qed.

Lemma strip_prefix_some (pre l rest : list string) :
  PurePath.strip_prefix pre l = Some rest <-> l = (pre ++ rest)%list.
Proof.
  revert l. induction pre as [|x pre IH]; intros l; simpl.
  - split; [intros H; now injection H | intros ->; reflexivity].
  - destruct l as [|y l]; [split; discriminate|].
    destruct (String.eqb x y) eqn:E.
    + apply String.eqb_eq in E. subst y. rewrite IH.
      split; [intros ->; reflexivity | intros H; now injection H].
    + split; [discriminate|]. intros H. injection H as Hxy _.
      subst y. now rewrite String.eqb_refl in E.
Qed.

(** X1: [relative_to] on a handle never returns.  When the argument leads
    to the handle's path (same root, its parts the first parts of the
    path), the constructor call reads [self._system] and [AttributeError]
    comes out; when it does not, [ValueError] comes out of the path's own
    [relative_to]. *)
Theorem relative_to_never_returns (self : WebPath.t) (ancestor : string) :
  (leads_to ancestor (WebPath._path self) ->
   WebPath.relative_to self ancestor = Raise (AttributeError "_system")) /\
  (~ leads_to ancestor (WebPath._path self) ->
   WebPath.relative_to self ancestor = Raise ValueError).
Proof.
  unfold leads_to, WebPath.relative_to, PurePath.relative_to. split.
  - intros [Hroot [rest Hrest]]. rewrite Hroot, String.eqb_refl.
    apply strip_prefix_some in Hrest. rewrite Hrest. reflexivity.
  - intros Hno. destruct (String.eqb _ _) eqn:E; [|reflexivity].
    destruct (PurePath.strip_prefix _ _) as [rest|] eqn:Hs; [|reflexivity].
    exfalso. apply Hno. split; [now apply String.eqb_eq|].
    exists rest. now apply strip_prefix_some.
Qed.

Lemma relative_to_never_returns_witness :
  WebPath.relative_to (SFTPHandler.Path handler "a/x.txt") "a"
  = Raise (AttributeError "_system") /\
  WebPath.relative_to (SFTPHandler.Path handler "a/x.txt") "b" = Raise ValueError.
Proof.
  split.
  - apply (proj1 (relative_to_never_returns (SFTPHandler.Path handler "a/x.txt") "a")).
    split; [reflexivity|]. exists ["x.txt"]. reflexivity.
  - apply (proj2 (relative_to_never_returns (SFTPHandler.Path handler "a/x.txt") "b")).
    intros [_ [rest H]]. discriminate H.
Defined.

Lemma stat_caches_answer (h h' : WebPath.t) (w w' : World) (a : SFTPAttributes) :
  WebPath.stat (h, w) = (Ok a, (h', w')) -> WebPath._stat h' = Some a.
Proof.
  destruct h as [p acc cached].
  unfold WebPath.stat, WebPath.via_accessor, bind, get_self, set_self, liftW, ret, raise.
  destruct cached as [a0|]; simpl.
  - intros H. injection H as <- <- _. reflexivity.
  - destruct acc as [acc|]; simpl.
    + destruct (Sftp.stat (PurePath.__fspath__ p) w) as [[a1|e] w1]; simpl.
      * intros H. injection H as <- <- _. reflexivity.
      * intros H. discriminate H.
    + intros H. discriminate H.
Qed.

Lemma stat_of_cached (h : WebPath.t) (w : World) (a : SFTPAttributes) :
  WebPath._stat h = Some a -> WebPath.stat (h, w) = (Ok a, (h, w)).
Proof.
  intros Hs. unfold WebPath.stat, bind, get_self, ret. cbn [fst]. now rewrite Hs.
Qed.

Lemma stat_answers_from_cache_aux (h h' : WebPath.t) (w w' : World) (a : SFTPAttributes) :
  WebPath.stat (h, w) = (Ok a, (h', w')) ->
  forall w2, WebPath.stat (h', w2) = (Ok a, (h', w2)).
Proof.
  intros H w2. apply stat_of_cached. exact (stat_caches_answer _ _ _ _ _ H).
Qed.

(** X2: Once [stat] has answered, the handle keeps the answer: the next
    [stat] returns it without a call, whatever has become of the node. *)
Theorem stat_answers_from_cache (h h' : WebPath.t) (w w' : World) (a : SFTPAttributes) :
  WebPath.stat (h, w) = (Ok a, (h', w')) ->
  forall w2, WebPath.stat (h', w2) = (Ok a, (h', w2)).
Proof.
  intros H w2. apply stat_of_cached. exact (stat_caches_answer _ _ _ _ _ H).
Qed.

Lemma stat_answers_from_cache_witness :
  exists h',
    WebPath.stat (SFTPHandler.Path handler "d", remote_d_e_f)
    = (Ok (dir_attr "d" 5), (h', add_log (EvStat "d") remote_d_e_f)) /\
    WebPath.stat (h', empty_world) = (Ok (dir_attr "d" 5), (h', empty_world)).
Proof.
  eexists. split; [reflexivity|].
  apply (stat_answers_from_cache (SFTPHandler.Path handler "d") _ remote_d_e_f
           (add_log (EvStat "d") remote_d_e_f) (dir_attr "d" 5)).
  reflexivity.
Defined.

Lemma is_dir_answer (s : WebPath.t * World) :
  WebPath.is_dir s =
  match WebPath.stat s with
  | (Ok a, s') => (Ok (S_ISDIR (st_mode a)), s')
  | (Raise e, s') => if is_FileNotFoundError e then (Ok false, s') else (Raise e, s')
  end.
Proof.
  unfold WebPath.is_dir, WebPath._mode, try_except, bind, ret.
  destruct (WebPath.stat s) as [[a|e] s']; reflexivity.
Qed.

Lemma is_file_answer (s : WebPath.t * World) :
  WebPath.is_file s =
  match WebPath.stat s with
  | (Ok a, s') => (Ok (S_ISREG (st_mode a)), s')
  | (Raise e, s') => if is_FileNotFoundError e then (Ok false, s') else (Raise e, s')
  end.
Proof.
  unfold WebPath.is_file, WebPath._mode, try_except, bind, ret.
  destruct (WebPath.stat s) as [[a|e] s']; reflexivity.
Qed.

Lemma directory_is_no_file (mode : Z) : S_ISDIR mode = true -> S_ISREG mode = false.
Proof.
  unfold S_ISDIR, S_ISREG. intros H. apply Z.eqb_eq in H. rewrite H. reflexivity.
Qed.

(** X3: A handle that has answered "directory" answers "not a file" next, from
    its cache. *)
Theorem directory_then_not_file (h : WebPath.t) (w : World) (s : WebPath.t * World) :
  WebPath.is_dir (h, w) = (Ok true, s) -> WebPath.is_file s = (Ok false, s).
Proof.
  rewrite is_dir_answer. destruct (WebPath.stat (h, w)) as [[a|e] [h' w']] eqn:Hst.
  - intros H. injection H as Hd <-.
    rewrite is_file_answer, (stat_answers_from_cache_aux h h' w w' a Hst w').
    now rewrite (directory_is_no_file _ Hd).
  - destruct (is_FileNotFoundError e); intros H; discriminate H.
Qed.

Lemma directory_then_not_file_witness :
  exists s,
    WebPath.is_dir (SFTPHandler.Path handler "d", remote_d_e_f) = (Ok true, s) /\
    WebPath.is_file s = (Ok false, s).
Proof.
  eexists. split; [reflexivity|].
  apply (directory_then_not_file (SFTPHandler.Path handler "d") remote_d_e_f).
  reflexivity.
Defined.

Lemma append_cons (c : ascii) (s t : string) :
  (String c s ++ t)%string = String c (s ++ t)%string.
Proof. reflexivity. Qed.

Lemma append_one_more (cur : string) (a : ascii) (n : string) :
  ((cur ++ String a EmptyString) ++ n)%string = (cur ++ String a n)%string.
Proof.
  induction cur as [|c cur IH]; [reflexivity|].
  rewrite !append_cons. f_equal. exact IH.
Qed.

Lemma append_empty (cur : string) : (cur ++ "")%string = cur.
Proof.
  induction cur as [|c cur IH]; [reflexivity|].
  rewrite append_cons. f_equal. exact IH.
Qed.

Lemma split_aux_plain (n cur : string) :
  SFTPFile.mode_has "/" n = false -> PurePath.split_aux n cur = [(cur ++ n)%string].
Proof.
  revert cur. induction n as [|a n IH]; intros cur H.
  - cbn [PurePath.split_aux]. now rewrite append_empty.
  - unfold SFTPFile.mode_has in H. cbn [list_ascii_of_string existsb] in H.
    apply orb_false_iff in H as [Ha Hn].
    cbn [PurePath.split_aux]. rewrite Ascii.eqb_sym, Ha.
    rewrite (IH _ Hn). f_equal. apply append_one_more.
Qed.

Lemma root_of_plain (a : ascii) (n : string) :
  Ascii.eqb "/" a = false -> PurePath.root_of (String a n) = "".
Proof.
  destruct a as [[] [] [] [] [] [] [] []]; intros H; try reflexivity; discriminate H.
Qed.

Lemma parse_plain_name (n : string) :
  plain_name n = true -> PurePath.parse n = PurePath.mk "" [n].
Proof.
  unfold plain_name. intros H.
  apply andb_prop in H as [H Hslash]. apply andb_prop in H as [Hne Hdot].
  apply negb_true_iff in Hslash, Hne, Hdot.
  unfold PurePath.parse, PurePath.split. rewrite (split_aux_plain n "" Hslash).
  change (("" ++ n)%string) with n.
  cbn [List.filter]. unfold PurePath.keep_part. rewrite Hne, Hdot.
  cbn [orb negb]. f_equal. destruct n as [|a n]; [reflexivity|].
  apply root_of_plain. unfold SFTPFile.mode_has in Hslash. simpl in Hslash.
  now apply orb_false_iff in Hslash as [Ha _].
Qed.

(** X4: Joining a plain name onto a handle and asking for [name] and [parent]
    gives the name and the handle's own path back. *)
Theorem join_then_name_and_parent (h : WebPath.t) (n : string) :
  plain_name n = true ->
  WebPath.name (WebPath.__truediv__ h n) = n /\
  WebPath.parent (WebPath.__truediv__ h n) = WebPath._path h.
Proof.
  intros H. unfold WebPath.name, WebPath.parent, WebPath.__truediv__, PurePath.joinpath.
  cbn [WebPath._path]. rewrite (parse_plain_name n H). cbn.
  unfold PurePath.name, PurePath.parent. cbn [PurePath.parts PurePath.root].
  rewrite last_last, removelast_last. destruct (WebPath._path h). split; reflexivity.
Qed.

Lemma join_then_name_and_parent_witness :
  plain_name "f.txt" = true /\
  WebPath.name (WebPath.__truediv__ (SFTPHandler.Path handler "d/e") "f.txt") = "f.txt" /\
  WebPath.parent (WebPath.__truediv__ (SFTPHandler.Path handler "d/e") "f.txt")
  = PurePath.parse "d/e".
Proof.
  split; [reflexivity|].
  exact (join_then_name_and_parent (SFTPHandler.Path handler "d/e") "f.txt" eq_refl).
Defined.

(** ** Creating and removing through a handle *)

Lemma assoc_del_same {A} (k : string) (l : list (string * A)) :
  assoc k (assoc_del k l) = None.
Proof.
  unfold assoc_del. induction l as [|[k' v] l IH]; simpl; [reflexivity|].
  destruct (String.eqb k k') eqn:E; simpl; [exact IH | now rewrite E].
Qed.

Lemma stat_found (path : string) (w : World) (a : SFTPAttributes) :
  fault_of (EvStat path) (faults w) = None ->
  assoc (norm path) (remote w) = Some a ->
  Sftp.stat path w = (Ok a, add_log (EvStat path) w).
Proof. intros Hf Ha. unfold Sftp.stat, prim. rewrite Hf. cbn. now rewrite Ha. Qed.

Lemma stat_missing (path : string) (w : World) :
  fault_of (EvStat path) (faults w) = None ->
  assoc (norm path) (remote w) = None ->
  Sftp.stat path w = (Raise FileNotFoundError, add_log (EvStat path) w).
Proof. intros Hf Ha. unfold Sftp.stat, prim. rewrite Hf. cbn. now rewrite Ha. Qed.

Lemma mkdir_made (path : string) (w w1 : World) :
  Sftp.mkdir path w = (Ok tt, w1) ->
  faults w1 = faults w /\
  exists a, assoc (norm path) (remote w1) = Some a /\ S_ISDIR (st_mode a) = true.
Proof.
  unfold Sftp.mkdir, prim. destruct (fault_of _ (faults w)); [discriminate|].
  cbv zeta. cbn [add_log remote].
  destruct (assoc (norm path) (remote w)) eqn:Ha; [discriminate|].
  destruct (is_dir_node (remote w) (parent_of (norm path))); [|discriminate].
  intros H. injection H as <-. cbn. split; [reflexivity|].
  rewrite (assoc_app_new _ _ _ Ha). eexists. split; reflexivity.
Qed.

Lemma remove_gone (path : string) (w w1 : World) :
  Sftp.remove path w = (Ok tt, w1) \/ Sftp.rmdir path w = (Ok tt, w1) ->
  faults w1 = faults w /\ assoc (norm path) (remote w1) = None.
Proof.
  unfold Sftp.remove, Sftp.rmdir, prim. intros [H|H]; revert H;
    (destruct (fault_of _ (faults w)); [discriminate|]);
    cbv zeta; cbn [add_log remote];
    (destruct (assoc (norm path) (remote w)) eqn:Ha; [|discriminate]);
    match goal with |- context [if ?c then _ else _] => destruct c end;
    try discriminate; intros H; injection H as <-; cbn;
    (split; [reflexivity | apply assoc_del_same]).
Qed.

(** X5: After a [mkdir] through the handle, [is_dir] answers true, whatever the
    handle had cached before. *)
Theorem mkdir_then_is_dir (h : WebPath.t) (w : World) (s : WebPath.t * World) :
  WebPath.mkdir false (h, w) = (Ok tt, s) ->
  fault_of (EvStat (WebPath.__fspath__ h)) (faults w) = None ->
  fst (WebPath.is_dir s) = Ok true.
Proof.
  destruct h as [p acc cached].
  unfold WebPath.mkdir, WebPath._reset_stat, WebPath.via_accessor,
    bind, get_self, set_self, liftW, ret, raise. simpl.
  destruct acc as [acc|]; simpl; [|discriminate].
  change (WebPath.__fspath__ _) with (PurePath.as_posix p).
  destruct (Sftp.mkdir (PurePath.as_posix p) w) as [[[]|e] w1] eqn:Hm; simpl;
    [|discriminate].
  intros H Hf. injection H as <-.
  destruct (mkdir_made _ _ _ Hm) as (Hfw & a & Ha & Hd).
  rewrite is_dir_answer.
  unfold WebPath.stat, WebPath.via_accessor, bind, get_self, set_self, liftW, ret. simpl.
  change (PurePath.__fspath__ p) with (PurePath.as_posix p).
  rewrite (stat_found _ _ a); [|now rewrite Hfw|exact Ha]. simpl. now rewrite Hd.
Qed.

Lemma mkdir_then_is_dir_witness :
  exists s,
    WebPath.mkdir false (stale_handle, empty_world) = (Ok tt, s) /\
    fst (WebPath.is_dir s) = Ok true.
Proof.
  eexists. split; [reflexivity|].
  apply (mkdir_then_is_dir stale_handle empty_world); reflexivity.
Defined.

(** X6: After an [unlink] or an [rmdir] through the handle, [is_file] and
    [is_dir] answer false. *)
Theorem removed_then_neither (h : WebPath.t) (w : World) (s : WebPath.t * World) :
  WebPath.unlink (h, w) = (Ok tt, s) \/ WebPath.rmdir (h, w) = (Ok tt, s) ->
  fault_of (EvStat (WebPath.__fspath__ h)) (faults w) = None ->
  fst (WebPath.is_file s) = Ok false /\ fst (WebPath.is_dir s) = Ok false.
Proof.
  destruct h as [p acc cached].
  intros H Hf.
  assert (Hs : exists w1, s = (WebPath.mk p acc None, w1) /\ acc <> None /\
                 faults w1 = faults w /\
                 assoc (norm (PurePath.as_posix p)) (remote w1) = None).
  { destruct H as [H|H]; revert H;
      unfold WebPath.unlink, WebPath.rmdir, WebPath._reset_stat, WebPath.via_accessor,
        bind, get_self, set_self, liftW, ret, raise; simpl;
      (destruct acc as [acc|]; simpl; [|discriminate]);
      change (WebPath.__fspath__ _) with (PurePath.as_posix p).
    - destruct (Sftp.remove (PurePath.as_posix p) w) as [[[]|e] w1] eqn:Hm; simpl;
        [|discriminate].
      intros H. injection H as <-. exists w1.
      destruct (remove_gone _ _ _ (or_introl Hm)) as [H1 H2]. auto.
    - destruct (Sftp.rmdir (PurePath.as_posix p) w) as [[[]|e] w1] eqn:Hm; simpl;
        [|discriminate].
      intros H. injection H as <-. exists w1.
      destruct (remove_gone _ _ _ (or_intror Hm)) as [H1 H2]. auto. }
  destruct Hs as (w1 & -> & Hacc & Hfw & Ha).
  destruct acc as [acc|]; [|congruence].
  rewrite is_file_answer, is_dir_answer.
  unfold WebPath.stat, WebPath.via_accessor, bind, get_self, set_self, liftW, ret. simpl.
  change (PurePath.__fspath__ p) with (PurePath.as_posix p).
  change (WebPath.__fspath__ _) with (PurePath.as_posix p) in Hf.
  rewrite (stat_missing _ _); [|now rewrite Hfw|exact Ha]. simpl. split; reflexivity.
Qed.

Lemma removed_then_neither_witness :
  exists s,
    WebPath.unlink (SFTPHandler.Path handler "d/e/f.txt", remote_d_e_f) = (Ok tt, s) /\
    fst (WebPath.is_file s) = Ok false /\ fst (WebPath.is_dir s) = Ok false.
Proof.
  eexists. split; [reflexivity|].
  apply (removed_then_neither (SFTPHandler.Path handler "d/e/f.txt") remote_d_e_f);
    [left; reflexivity | reflexivity].
Defined.

Lemma touch_answer (globals : list string) (exist_ok : option bool)
    (p : PurePath.t) (acc : WebPath.accessor) (cached : option SFTPAttributes) (w : World) :
  WebPath.touch globals exist_ok (WebPath.mk p (Some acc) cached, w) =
  let h0 := WebPath.mk p (Some acc) None in
  match request_open (PurePath.as_posix p) (touch_flags exist_ok) w with
  | (Ok reply, w1) =>
      if negb (fst reply =? CMD_HANDLE)
      then (Raise (SFTPError "Expected handle"), (h0, w1))
      else match request_close (snd reply) w1 with
           | (Ok _, w2) => (Ok tt, (h0, w2))
           | (Raise e, w2) =>
               match WebPath.resolve globals "Excpetion" with
               | Ok _ => (Ok tt, (h0, w2))
               | Raise ne => (Raise ne, (h0, w2))
               end
           end
  | (Raise e, w1) => (Raise e, (h0, w1))
  end.
Proof.
  unfold WebPath.touch, WebPath._reset_stat, WebPath.via_accessor,
    bind, get_self, set_self, liftW, ret, raise, touch_flags. simpl.
  change (WebPath.__fspath__ _) with (PurePath.as_posix p).
  destruct (negb (default true exist_ok));
    (destruct (request_open (PurePath.as_posix p) _ w) as [[reply|e] w1]; simpl;
     [|reflexivity]);
    (destruct (negb (fst reply =? CMD_HANDLE)); simpl; [reflexivity|]);
    (destruct (request_close (snd reply) w1) as [[u|e] w2]; simpl; [reflexivity|]);
    destruct (WebPath.resolve globals "Excpetion"); reflexivity.
Qed.

Lemma request_open_reply (path : string) (flags : Z) (w w1 : World) (reply : Z * string) :
  request_open path flags w = (Ok reply, w1) ->
  reply = (CMD_HANDLE, norm path) /\ faults w1 = faults w.
Proof.
  unfold request_open, prim. destruct (fault_of _ (faults w)); [discriminate|].
  cbv zeta. cbn [add_log remote].
  destruct (assoc (norm path) (remote w)) as [a|].
  - destruct (S_ISDIR (st_mode a) || negb (Z.land flags SFTP_FLAG_EXCL =? 0));
      [discriminate|].
    intros H. injection H as <- <-. split; reflexivity.
  - match goal with |- context [if ?c then _ else _] => destruct c end; [|discriminate].
    intros H. injection H as <- <-. split; reflexivity.
Qed.

(** X7: When the server fails the close that ends [touch], the handler
    [except Excpetion] cannot even be entered: the misspelt name is looked
    up and [touch] raises [NameError] instead of passing over the failure. *)
Theorem touch_close_failure_is_NameError
    (exist_ok : option bool) (h : WebPath.t) (acc : WebPath.accessor)
    (w : World) (reply : Z * string) (e : exn) :
  WebPath._accessor h = Some acc ->
  fst (request_open (WebPath.__fspath__ h) (touch_flags exist_ok) w) = Ok reply ->
  fault_of (EvRequestClose (snd reply)) (faults w) = Some e ->
  fst (WebPath.touch WebPath.module_globals exist_ok (h, w))
  = Raise (NameError "Excpetion").
Proof.
  destruct h as [p a cached]. cbn [WebPath._accessor]. intros -> Ho Hc.
  rewrite touch_answer. cbv zeta.
  change (WebPath.__fspath__ _) with (PurePath.as_posix p) in Ho.
  destruct (request_open (PurePath.as_posix p) (touch_flags exist_ok) w)
    as [[r|e'] w1] eqn:Hopen; cbn [fst] in Ho; [|discriminate].
  injection Ho as ->.
  destruct (request_open_reply _ _ _ _ _ Hopen) as [-> Hf].
  cbn [fst snd] in *. change (negb (CMD_HANDLE =? CMD_HANDLE)) with false. cbv iota.
  unfold request_close, prim. rewrite Hf, Hc. reflexivity.
Qed.

Lemma touch_close_failure_is_NameError_witness :
  fst (request_open "note.txt" (touch_flags None) close_fails) = Ok (CMD_HANDLE, "note.txt") /\
  fst (WebPath.touch WebPath.module_globals None
         (SFTPHandler.Path handler "note.txt", close_fails))
  = Raise (NameError "Excpetion").
Proof.
  split; [reflexivity|].
  apply (touch_close_failure_is_NameError None (SFTPHandler.Path handler "note.txt")
           handler close_fails (CMD_HANDLE, "note.txt") OSError); reflexivity.
Defined.

(** X8: [touch] on a node that is not there, in a directory that is, makes an
    empty regular file, with or without [exist_ok]. *)
Theorem touch_creates_empty_file
    (globals : list string) (exist_ok : option bool) (h : WebPath.t)
    (acc : WebPath.accessor) (w : World) :
  WebPath._accessor h = Some acc ->
  faults w = [] ->
  assoc (norm (WebPath.__fspath__ h)) (remote w) = None ->
  is_dir_node (remote w) (parent_of (norm (WebPath.__fspath__ h))) = true ->
  norm (WebPath.__fspath__ h) <> "." ->
  fst (WebPath.touch globals exist_ok (h, w)) = Ok tt /\
  fst (WebPath.is_file (snd (WebPath.touch globals exist_ok (h, w)))) = Ok true /\
  exists a,
    assoc (norm (WebPath.__fspath__ h))
          (remote (snd (snd (WebPath.touch globals exist_ok (h, w))))) = Some a /\
    st_size a = 0.
Proof.
  destruct h as [p a0 cached]. cbn [WebPath._accessor]. intros -> Hf Hnone Hpar Hdot.
  change (WebPath.__fspath__ _) with (PurePath.as_posix p) in *.
  apply String.eqb_neq in Hdot.
  rewrite touch_answer. cbv zeta.
  assert (Hopen : request_open (PurePath.as_posix p) (touch_flags exist_ok) w
                  = (Ok (CMD_HANDLE, norm (PurePath.as_posix p)),
                     set_remote (remote w ++
                       [(norm (PurePath.as_posix p),
                         mkAttr (PurePath.name (PurePath.parse (norm (PurePath.as_posix p))))
                                (S_IFREG + 420) 0 (inject_Z (now w)) (inject_Z (now w)))])
                       (add_log (EvRequestOpen (PurePath.as_posix p) (touch_flags exist_ok)) w))).
  { unfold request_open, prim. rewrite Hf. cbv zeta. cbn [fault_of add_log remote now].
    rewrite Hnone, Hpar, Hdot.
    unfold touch_flags. destruct (negb (default true exist_ok)); reflexivity. }
  rewrite Hopen.
  change (negb (fst (CMD_HANDLE, norm (PurePath.as_posix p)) =? CMD_HANDLE)) with false.
  cbv iota. unfold request_close, prim. cbn [faults set_remote add_log snd].
  rewrite Hf. cbn [fault_of fst snd].
  split; [reflexivity|]. split.
  - rewrite is_file_answer.
    unfold WebPath.stat, WebPath.via_accessor, bind, get_self, set_self, liftW, ret. simpl.
    change (PurePath.__fspath__ p) with (PurePath.as_posix p).
    rewrite (stat_found _ _
               (mkAttr (PurePath.name (PurePath.parse (norm (PurePath.as_posix p))))
                       (S_IFREG + 420) 0 (inject_Z (now w)) (inject_Z (now w))));
      [reflexivity | cbn; now rewrite Hf |].
    cbn. apply assoc_app_new. exact Hnone.
  - eexists. split; [cbn; apply assoc_app_new; exact Hnone | reflexivity].
Qed.

Lemma touch_creates_empty_file_witness :
  fst (WebPath.touch WebPath.module_globals None
         (SFTPHandler.Path handler "note.txt", empty_world)) = Ok tt /\
  fst (WebPath.is_file (snd (WebPath.touch WebPath.module_globals None
         (SFTPHandler.Path handler "note.txt", empty_world)))) = Ok true.
Proof.
  destruct (touch_creates_empty_file WebPath.module_globals None
              (SFTPHandler.Path handler "note.txt") handler empty_world
              eq_refl eq_refl eq_refl eq_refl) as (H1 & H2 & _).
  - discriminate.
  - split; [exact H1 | exact H2].
Defined.

(** X9: [touch] on a regular file that is there: with [exist_ok] left alone or
    true it passes and changes nothing; with [exist_ok] false the server's
    refusal comes out, and nothing is changed either. *)
Theorem touch_existing_file
    (globals : list string) (exist_ok : option bool) (h : WebPath.t)
    (acc : WebPath.accessor) (w : World) :
  WebPath._accessor h = Some acc ->
  faults w = [] ->
  regular_at (norm (WebPath.__fspath__ h)) w ->
  fst (WebPath.touch globals exist_ok (h, w))
  = (if default true exist_ok then Ok tt else Raise OSError) /\
  remote (snd (snd (WebPath.touch globals exist_ok (h, w)))) = remote w.
Proof.
  destruct h as [p a0 cached]. cbn [WebPath._accessor]. intros -> Hf (a & Ha & Hd).
  change (WebPath.__fspath__ _) with (PurePath.as_posix p) in *.
  rewrite touch_answer. cbv zeta.
  unfold request_open, prim. rewrite Hf. cbv zeta. cbn [fault_of add_log remote].
  rewrite Ha, Hd. unfold touch_flags.
  destruct (default true exist_ok); cbn [negb orb].
  - change (Z.land (Z.lor SFTP_FLAG_CREATE SFTP_FLAG_WRITE) SFTP_FLAG_EXCL =? 0) with true.
    cbn [negb]. cbv iota.
    change (negb (fst (CMD_HANDLE, norm (PurePath.as_posix p)) =? CMD_HANDLE)) with false.
    cbv iota. unfold request_close, prim. cbn [faults add_log snd]. rewrite Hf.
    split; reflexivity.
  - change (Z.land (Z.lor (Z.lor SFTP_FLAG_CREATE SFTP_FLAG_WRITE) SFTP_FLAG_EXCL)
                   SFTP_FLAG_EXCL =? 0) with false.
    cbn [negb]. split; reflexivity.
Qed.

Lemma touch_existing_file_witness :
  regular_at "note.txt" note_world /\
  fst (WebPath.touch WebPath.module_globals None
         (SFTPHandler.Path handler "note.txt", note_world)) = Ok tt /\
  fst (WebPath.touch WebPath.module_globals (Some false)
         (SFTPHandler.Path handler "note.txt", note_world)) = Raise OSError.
Proof.
  assert (Hreg : regular_at "note.txt" note_world)
    by (eexists; split; reflexivity).
  split; [exact Hreg|]. split.
  - exact (proj1 (touch_existing_file WebPath.module_globals None
                    (SFTPHandler.Path handler "note.txt") handler note_world
                    eq_refl eq_refl Hreg)).
  - exact (proj1 (touch_existing_file WebPath.module_globals (Some false)
                    (SFTPHandler.Path handler "note.txt") handler note_world
                    eq_refl eq_refl Hreg)).
Defined.

(** ** Streams and the handle's read and write methods *)

Lemma raw_read_keeps_flags (size : option nat) (f f' : SFTPFile.t) (w w' : World)
    (r : result (list Byte.byte)) :
  SFTPFile.read size (f, w) = (r, (f', w')) -> SFTPFile._flags f' = SFTPFile._flags f.
Proof.
  destruct f as [p flags ps cl].
  unfold SFTPFile.read, bind, get_self, set_self, liftW, ret, raise. simpl.
  destruct cl; simpl; [intros H; now injection H as _ <- _|].
  destruct (negb _); simpl; [intros H; now injection H as _ <- _|].
  match goal with
  | |- context [prim ?ev ?b ?x] => destruct (prim ev b x) as [[got|e] w1]
  end; simpl; intros H; now injection H as _ <- _.
Qed.

Lemma zoom_read_keeps (size : option nat) (fh fh' : FileHandler.t) (w w' : World)
    (r : result (list Byte.byte)) :
  FileHandler.zoom (SFTPFile.read size) (fh, w) = (r, (fh', w')) ->
  FileHandler._is_binary fh' = FileHandler._is_binary fh /\
  FileHandler.encoding fh' = FileHandler.encoding fh.
Proof.
  unfold FileHandler.zoom. cbn [fst snd].
  destruct (SFTPFile.read size (FileHandler.file_handler fh, w)) as [r0 [f' w1]] eqn:Hr.
  intros H. injection H as _ <- _.
  unfold FileHandler._is_binary. cbn.
  now rewrite (raw_read_keeps_flags _ _ _ _ _ _ Hr).
Qed.

(** X10: A text stream needs an encoding: opened without one (the default of
    [open]) it cannot write a string, and nothing reaches the file. *)
Theorem text_stream_needs_encoding
    (registry : string -> option codec) (fh : FileHandler.t) (w : World) (s : list N) :
  FileHandler.truthy (FileHandler._is_binary fh) = false ->
  FileHandler.encoding fh = None ->
  FileHandler.write registry (PyStr s) (fh, w)
  = (Raise (TypeError "argument 'encoding' must be str, not None"), (fh, w)) /\
  forall size, exists e, fst (FileHandler.read registry size (fh, w)) = Raise e.
Proof.
  intros Hb He. split.
  - rewrite write_equation, Hb, He. reflexivity.
  - intros size. rewrite read_equation.
    destruct (FileHandler.zoom (SFTPFile.read size) (fh, w)) as [[raw|e] [fh' w']] eqn:Hz;
      [|eauto].
    pose proof (zoom_read_keeps _ _ _ _ _ _ Hz) as Hsame.
    destruct Hsame as [H1 H2]. cbn [fst]. unfold FileHandler.truthy in *.
    rewrite H1, Hb, H2, He. cbn. eauto.
Qed.

Lemma text_stream_needs_encoding_witness :
  exists fh w1,
    SFTPHandler_open "note.txt" (Some "r+") None None None note_world = (Ok fh, w1) /\
    fst (FileHandler.write no_codecs (PyStr [104]%N) (fh, w1))
    = Raise (TypeError "argument 'encoding' must be str, not None").
Proof.
  eexists. eexists. split; [reflexivity|].
  match goal with
  | |- fst (FileHandler.write _ _ (?fh, ?w)) = _ =>
      rewrite (proj1 (text_stream_needs_encoding no_codecs fh w [104]%N eq_refl eq_refl))
  end.
  reflexivity.
Defined.

(** X11: A text stream takes strings only: [bytes] have no [encode], the write
    raises and nothing reaches the file. *)
Theorem text_stream_rejects_bytes
    (registry : string -> option codec) (fh : FileHandler.t) (w : World)
    (b : list Byte.byte) :
  FileHandler.truthy (FileHandler._is_binary fh) = false ->
  FileHandler.write registry (PyBytes b) (fh, w)
  = (Raise (AttributeError "encode"), (fh, w)).
Proof. intros Hb. rewrite write_equation, Hb. reflexivity. Qed.

Lemma text_stream_rejects_bytes_witness :
  exists fh w1,
    SFTPHandler_open "note.txt" (Some "w") (Some "utf-8") None None note_world
    = (Ok fh, w1) /\
    FileHandler.write no_codecs (PyBytes [Byte.x68]) (fh, w1)
    = (Raise (AttributeError "encode"), (fh, w1)).
Proof.
  eexists. eexists. split; [reflexivity|].
  apply text_stream_rejects_bytes. reflexivity.
Defined.

(** *** UTF-8 there and back *)

Ltac dlia := zify; Z.to_euclidean_division_equations; lia.

Lemma to_N_byte_of (n : N) : (n < 256)%N -> Byte.to_N (byte_of n) = n.
Proof.
  intros H. unfold byte_of. destruct (Byte.of_N n) as [b|] eqn:E.
  - now apply Byte.to_of_N.
  - apply Byte.of_N_None_iff in E. lia.
Qed.

Lemma land_63 (x : N) : N.land x 63 = (x mod 64)%N.
Proof. change 63%N with (N.ones 6). now rewrite N.land_ones. Qed.

Lemma to_N_cont (x : N) : Byte.to_N (Utf8.cont x) = (128 + x mod 64)%N.
Proof.
  unfold Utf8.cont. rewrite land_63. apply to_N_byte_of. dlia.
Qed.

Lemma low6_cont (x : N) : Utf8.low6 (Utf8.cont x) = (x mod 64)%N.
Proof. unfold Utf8.low6. rewrite to_N_cont, land_63. dlia. Qed.

Ltac bool_arith :=
  repeat match goal with
         | |- context [(?a <? ?b)%N] =>
             destruct (N.ltb_spec a b); try (exfalso; dlia)
         | |- context [(?a <=? ?b)%N] =>
             destruct (N.leb_spec a b); try (exfalso; dlia)
         | |- context [(?a =? ?b)%N] =>
             destruct (N.eqb_spec a b); try (exfalso; dlia)
         end;
  reflexivity.

Ltac take_then :=
  match goal with
  | |- (if ?c then _ else _) = _ => replace c with true by (symmetry; bool_arith)
  end; cbv iota.

Ltac take_else :=
  match goal with
  | |- (if ?c then _ else _) = _ => replace c with false by (symmetry; bool_arith)
  end; cbv iota.

Lemma decode_encode_char (c : N) (bs rest : list Byte.byte) :
  Utf8.encode_char c = Ok bs ->
  Utf8.decode (bs ++ rest) = rbind (Utf8.decode rest) (fun s => Ok (c :: s)).
Proof.
  unfold Utf8.encode_char.
  destruct (N.ltb_spec c 128).
  { intros Henc; injection Henc as <-. cbn [app Utf8.decode].
    rewrite to_N_byte_of by lia. take_then. reflexivity. }
  destruct (N.ltb_spec c 2048).
  { intros Henc; injection Henc as <-. cbn [app Utf8.decode].
    unfold Utf8.in_range. rewrite !N.shiftr_div_pow2.
    rewrite ?to_N_cont, ?low6_cont, ?to_N_byte_of by dlia.
    take_else. take_then. take_then.
    replace ((192 + c / 2 ^ 6 - 192) * 64 + c mod 64)%N with c by dlia.
    reflexivity. }
  destruct ((55296 <=? c)%N && (c <=? 57343)%N) eqn:Hs; [discriminate|].
  apply andb_false_iff in Hs.
  assert (Hns : (c < 55296 \/ 57343 < c)%N)
    by (destruct Hs as [Hs|Hs]; apply N.leb_gt in Hs; lia).
  clear Hs.
  destruct (N.ltb_spec c 65536).
  { intros Henc; injection Henc as <-. cbn [app Utf8.decode].
    unfold Utf8.in_range. rewrite !N.shiftr_div_pow2.
    rewrite ?to_N_cont, ?low6_cont, ?to_N_byte_of by dlia.
    take_else. take_else. take_then. take_then.
    replace ((224 + c / 2 ^ 12 - 224) * 4096 + (c / 2 ^ 6) mod 64 * 64 + c mod 64)%N
      with c by dlia.
    reflexivity. }
  destruct (N.ltb_spec c 1114112); [|discriminate].
  intros Henc; injection Henc as <-. cbn [app Utf8.decode].
  unfold Utf8.in_range. rewrite !N.shiftr_div_pow2.
  rewrite ?to_N_cont, ?low6_cont, ?to_N_byte_of by dlia.
  take_else. take_else. take_else. take_then. take_then.
  replace ((240 + c / 2 ^ 18 - 240) * 262144 + (c / 2 ^ 12) mod 64 * 4096
           + (c / 2 ^ 6) mod 64 * 64 + c mod 64)%N with c by dlia.
  reflexivity.
Qed.

(** Decoding what [encode] produced gives the string back. *)
Lemma decode_encode (s : list N) (bs : list Byte.byte) :
  Utf8.encode s = Ok bs -> Utf8.decode bs = Ok s.
Proof.
  revert bs. induction s as [|c s IH]; simpl; intros bs H.
  - now injection H as <-.
  - destruct (Utf8.encode_char c) as [cb|] eqn:Hc; simpl in H; [|discriminate].
    destruct (Utf8.encode s) as [rest|] eqn:Hs; simpl in H; [|discriminate].
    injection H as <-. rewrite (decode_encode_char c cb rest Hc), (IH rest eq_refl).
    reflexivity.
Qed.

(** *** Writing a file, then reading it *)

Lemma open_truncating (fname mode : string) (w w1 : World) (f : SFTPFile.t) :
  faults w = [] ->
  SFTPFile.mode_has "w" mode = true ->
  SFTPFile.mode_has "x" mode = false ->
  SFTPFile.mode_has "a" mode = false ->
  SFTPClient_open fname mode w = (Ok f, w1) ->
  f = SFTPFile.mk (norm fname) (SFTPFile.flags_of_mode mode) 0 false /\
  faults w1 = [] /\
  assoc (norm fname) (remote_data w1) = Some [] /\
  regular_at (norm fname) w1.
Proof.
  intros Hf Hw Hx Ha H. unfold SFTPClient_open in H.
  rewrite (prim_no_fault _ _ _ Hf) in H.
  cbn [add_log remote remote_data] in H. rewrite Hw, Hx, Ha in H. cbn [orb andb] in H.
  destruct (assoc (norm fname) (remote w)) as [a|] eqn:Has.
  - destruct (S_ISDIR (st_mode a)) eqn:Hd; [discriminate|].
    injection H as <- <-. unfold regular_at. cbn. rewrite !assoc_set_same.
    repeat split; auto. eexists. split; [reflexivity | exact Hd].
  - destruct (is_dir_node (remote w) (parent_of (norm fname)) &&
              negb (String.eqb (norm fname) ".")); [|discriminate].
    injection H as <- <-. unfold regular_at. cbn.
    rewrite assoc_set_same, (assoc_app_new _ _ _ Has).
    repeat split; auto. eexists. split; reflexivity.
Qed.

Lemma raw_write_fresh (p : string) (flags : Z) (b : list Byte.byte) (w : World) :
  faults w = [] ->
  (Z.land flags SFTPFile.FLAG_WRITE =? 0) = false ->
  (Z.land flags SFTPFile.FLAG_APPEND =? 0) = true ->
  assoc p (remote_data w) = Some [] ->
  regular_at p w ->
  exists w2,
    SFTPFile.write (PyBytes b) (SFTPFile.mk p flags 0 false, w)
    = (Ok tt, (SFTPFile.mk p flags (List.length b) false, w2)) /\
    faults w2 = [] /\ assoc p (remote_data w2) = Some b /\ regular_at p w2.
Proof.
  intros Hf Hw Ha Hd (a & Has & Hreg).
  unfold SFTPFile.write, bind, get_self, set_self, lift, liftW, SFTPFile.has_flag.
  cbn [fst snd SFTPFile._flags SFTPFile.closed SFTPFile.path SFTPFile.pos].
  rewrite Hw, Ha. cbn [negb]. rewrite (prim_no_fault _ _ _ Hf).
  cbn [fst snd]. eexists. split; [reflexivity|].
  unfold SFTPFile.store, SFTPFile.data_of, SFTPFile.has_flag, regular_at.
  cbn [SFTPFile._flags SFTPFile.path SFTPFile.pos add_log remote remote_data].
  rewrite Ha, Hd, Has. cbn. rewrite !assoc_set_same, skipn_nil, app_nil_r.
  repeat split; auto. eexists. split; [reflexivity | exact Hreg].
Qed.

Lemma raw_read_whole (p : string) (flags : Z) (w : World) :
  faults w = [] ->
  (Z.land flags SFTPFile.FLAG_READ =? 0) = false ->
  SFTPFile.read None (SFTPFile.mk p flags 0 false, w)
  = (Ok (match assoc p (remote_data w) with Some d => d | None => [] end),
     (SFTPFile.mk p flags
        (List.length (match assoc p (remote_data w) with Some d => d | None => [] end))
        false,
      add_log (EvRead p) w)).
Proof.
  intros Hf Hr. unfold SFTPFile.read, bind, get_self, set_self, liftW, SFTPFile.has_flag.
  cbn [fst snd SFTPFile._flags SFTPFile.closed SFTPFile.path SFTPFile.pos].
  rewrite Hr. cbn [negb]. rewrite (prim_no_fault _ _ _ Hf). reflexivity.
Qed.

Lemma open_reading (fname mode : string) (w : World) :
  faults w = [] -> regular_at (norm fname) w ->
  SFTPFile.mode_has "w" mode = false ->
  SFTPFile.mode_has "x" mode = false ->
  SFTPFile.mode_has "a" mode = false ->
  exists w',
    SFTPClient_open fname mode w
    = (Ok (SFTPFile.mk (norm fname) (SFTPFile.flags_of_mode mode) 0 false), w') /\
    faults w' = [] /\
    assoc (norm fname) (remote_data w') =
    Some (match assoc (norm fname) (remote_data w) with Some d => d | None => [] end).
Proof.
  intros Hf (a & Has & Hd) Hw Hx Ha. unfold SFTPClient_open.
  rewrite (prim_no_fault _ _ _ Hf). cbn [add_log remote remote_data].
  rewrite Has, Hd, Hw, Hx, Ha. cbv iota.
  eexists. split; [reflexivity|]. cbn. rewrite assoc_set_same. auto.
Qed.

Lemma with_handler_closes {A} (fh : FileHandler.t) (body : M (FileHandler.t * World) A)
    (w w1 : World) (r : result A) (fh1 : FileHandler.t) :
  body (fh, w) = (r, (fh1, w1)) ->
  faults w1 = [] ->
  SFTPFile.closed (FileHandler.file_handler fh1) = false ->
  with_handler fh body w
  = (r, add_log (EvClose (SFTPFile.path (FileHandler.file_handler fh1))) w1).
Proof.
  intros Hb Hf Hc. unfold with_handler. rewrite Hb.
  unfold FileHandler.close, FileHandler.zoom. cbn [fst snd].
  rewrite (raw_close_open _ _ Hf Hc). reflexivity.
Qed.

(** Opening for writing (truncating), writing [bytes] and leaving the
    [with] block stores exactly [bytes]. *)
Lemma store_session (registry : string -> option codec) (fname mode : string)
    (encoding errors newline : option string) (data : pydata) (bytes : list Byte.byte)
    (w : World) :
  faults w = [] ->
  SFTPFile.mode_has "w" mode = true ->
  SFTPFile.mode_has "x" mode = false ->
  SFTPFile.mode_has "a" mode = false ->
  (Z.land (SFTPFile.flags_of_mode mode) SFTPFile.FLAG_WRITE =? 0) = false ->
  (Z.land (SFTPFile.flags_of_mode mode) SFTPFile.FLAG_APPEND =? 0) = true ->
  (exists f w1, SFTPClient_open fname mode w = (Ok f, w1)) ->
  (if SFTPFile.mode_has "b" mode then data = PyBytes bytes
   else py_encode registry data encoding = Ok (PyBytes bytes)) ->
  exists w2,
    bind (SFTPHandler_open fname (Some mode) encoding errors newline)
         (fun f => with_handler f (FileHandler.write registry data)) w = (Ok tt, w2) /\
    faults w2 = [] /\ assoc (norm fname) (remote_data w2) = Some bytes /\
    regular_at (norm fname) w2.
Proof.
  intros Hf Hw Hx Ha Hfw Hfa (f & w1 & Hopen) Hdata.
  destruct (open_truncating _ _ _ _ _ Hf Hw Hx Ha Hopen) as (-> & Hf1 & Hd1 & Hr1).
  destruct (raw_write_fresh (norm fname) (SFTPFile.flags_of_mode mode) bytes w1
              Hf1 Hfw Hfa Hd1 Hr1) as (w2 & Hwr & Hf2 & Hd2 & Hr2).
  exists (add_log (EvClose (norm fname)) w2).
  split; [|split; [exact Hf2 | split; [exact Hd2|]]].
  - unfold SFTPHandler_open, bind at 1. unfold bind at 1.
    change (default "rb" (Some mode)) with mode. rewrite Hopen.
    unfold ret at 1. cbv beta iota.
    assert (Hbody :
      FileHandler.write registry data
        (FileHandler.mk (SFTPFile.mk (norm fname) (SFTPFile.flags_of_mode mode) 0 false)
                        encoding errors newline, w1)
      = (Ok tt,
         (FileHandler.mk
            (SFTPFile.mk (norm fname) (SFTPFile.flags_of_mode mode) (List.length bytes) false)
            encoding errors newline, w2))).
    { rewrite write_equation. unfold FileHandler._is_binary.
      cbn [FileHandler.file_handler SFTPFile._flags FileHandler.encoding].
      rewrite is_binary_of_mode.
      destruct (SFTPFile.mode_has "b" mode).
      + subst data. unfold FileHandler.zoom. cbn [fst snd FileHandler.file_handler].
        rewrite Hwr. reflexivity.
      + rewrite Hdata. unfold FileHandler.zoom. cbn [fst snd FileHandler.file_handler].
        rewrite Hwr. reflexivity. }
    rewrite (with_handler_closes _ _ _ _ _ _ Hbody Hf2 eq_refl). reflexivity.
  - destruct Hr2 as (a & Ha2 & Hreg). exists a. split; [exact Ha2 | exact Hreg].
Qed.

(** Opening for reading and reading to the end returns the stored bytes,
    decoded when the stream is a text stream. *)
Lemma load_session (registry : string -> option codec) (fname mode : string)
    (encoding errors newline : option string) (w : World) (bytes : list Byte.byte) :
  faults w = [] ->
  regular_at (norm fname) w ->
  assoc (norm fname) (remote_data w) = Some bytes ->
  SFTPFile.mode_has "w" mode = false ->
  SFTPFile.mode_has "x" mode = false ->
  SFTPFile.mode_has "a" mode = false ->
  (Z.land (SFTPFile.flags_of_mode mode) SFTPFile.FLAG_READ =? 0) = false ->
  fst (bind (SFTPHandler_open fname (Some mode) encoding errors newline)
            (fun f => with_handler f (FileHandler.read registry None)) w)
  = (if SFTPFile.mode_has "b" mode then Ok (PyBytes bytes)
     else py_decode registry (PyBytes bytes) encoding).
Proof.
  intros Hf Hr Hd Hw Hx Ha Hfr.
  destruct (open_reading fname mode w Hf Hr Hw Hx Ha) as (w1 & Hopen & Hf1 & Hd1).
  rewrite Hd in Hd1.
  unfold SFTPHandler_open, bind at 1. unfold bind at 1.
  change (default "rb" (Some mode)) with mode. rewrite Hopen.
  unfold ret at 1. cbv beta iota.
  assert (Hbody :
    FileHandler.read registry None
      (FileHandler.mk (SFTPFile.mk (norm fname) (SFTPFile.flags_of_mode mode) 0 false)
                      encoding errors newline, w1)
    = (if SFTPFile.mode_has "b" mode then Ok (PyBytes bytes)
       else py_decode registry (PyBytes bytes) encoding,
       (FileHandler.mk
          (SFTPFile.mk (norm fname) (SFTPFile.flags_of_mode mode) (List.length bytes) false)
          encoding errors newline, add_log (EvRead (norm fname)) w1))).
  { rewrite read_equation. unfold FileHandler.zoom.
    cbn [fst snd FileHandler.file_handler].
    rewrite (raw_read_whole _ _ _ Hf1 Hfr), Hd1.
    cbn [fst snd FileHandler.file_handler FileHandler.encoding FileHandler.errors
         FileHandler.newline].
    unfold FileHandler._is_binary. cbn [FileHandler.file_handler SFTPFile._flags].
    rewrite is_binary_of_mode.
    destruct (SFTPFile.mode_has "b" mode); reflexivity. }
  rewrite (with_handler_closes _ _ _ _ _ _ Hbody); [reflexivity|exact Hf1|reflexivity].
Qed.

Lemma handle_session {A} (p : PurePath.t) (acc : WebPath.accessor)
    (cached : option SFTPAttributes) (mode : string)
    (encoding errors newline : option string)
    (body : FileHandler.t -> M World A) (w : World) :
  bind (WebPath.open (Some mode) encoding errors newline) (fun f => liftW (body f))
       (WebPath.mk p (Some acc) cached, w)
  = (fst (bind (SFTPHandler_open (PurePath.as_posix p) (Some mode) encoding errors newline)
               body w),
     (WebPath.mk p (Some acc) None,
      snd (bind (SFTPHandler_open (PurePath.as_posix p) (Some mode) encoding errors newline)
                body w))).
Proof.
  unfold WebPath.open, WebPath._reset_stat, WebPath.via_accessor,
    bind, get_self, set_self, liftW, ret, raise. simpl.
  change (WebPath.__fspath__ _) with (PurePath.as_posix p).
  destruct (SFTPHandler_open (PurePath.as_posix p) (Some mode) encoding errors newline w)
    as [[f|e] w1]; simpl; [|reflexivity].
  destruct (body f w1) as [r w2]; reflexivity.
Qed.

(** X12: What [write_bytes] wrote is what [read_bytes] then reads through the
    same handle. *)
Theorem write_bytes_then_read_bytes
    (registry : string -> option codec) (h : WebPath.t) (acc : WebPath.accessor)
    (w : World) (b : list Byte.byte) :
  WebPath._accessor h = Some acc ->
  faults w = [] ->
  (exists f w1, SFTPClient_open (WebPath.__fspath__ h) "wb" w = (Ok f, w1)) ->
  fst (WebPath.write_bytes registry (PyBytes b) (h, w)) = Ok tt /\
  fst (WebPath.read_bytes registry (snd (WebPath.write_bytes registry (PyBytes b) (h, w))))
  = Ok (PyBytes b).
Proof.
  destruct h as [p a0 cached]. cbn [WebPath._accessor]. intros -> Hf Hopen.
  change (WebPath.__fspath__ _) with (PurePath.as_posix p) in Hopen.
  destruct (store_session registry (PurePath.as_posix p) "wb" None None None
              (PyBytes b) b w Hf eq_refl eq_refl eq_refl eq_refl eq_refl Hopen eq_refl)
    as (w2 & Hrun & Hf2 & Hd2 & Hr2).
  unfold WebPath.write_bytes, WebPath.read_bytes.
  rewrite handle_session, Hrun. cbn [fst snd]. split; [reflexivity|].
  rewrite handle_session. cbn [fst].
  now rewrite (load_session registry (PurePath.as_posix p) "rb" None None None w2 b
                 Hf2 Hr2 Hd2 eq_refl eq_refl eq_refl eq_refl).
Qed.

Lemma write_bytes_then_read_bytes_witness :
  fst (WebPath.read_bytes no_codecs
         (snd (WebPath.write_bytes no_codecs (PyBytes [Byte.x00; Byte.xff; Byte.x0a])
                 (SFTPHandler.Path handler "blob", empty_world))))
  = Ok (PyBytes [Byte.x00; Byte.xff; Byte.x0a]).
Proof.
  apply (write_bytes_then_read_bytes no_codecs (SFTPHandler.Path handler "blob") handler
           empty_world [Byte.x00; Byte.xff; Byte.x0a] eq_refl eq_refl).
  eexists. eexists. reflexivity.
Defined.

(** X13: A string that UTF-8 can encode, written by [write_text] with encoding
    utf-8, is the string [read_text] with encoding utf-8 then returns. *)
Theorem write_text_then_read_text
    (registry : string -> option codec) (text_encoding : option string -> string)
    (h : WebPath.t) (acc : WebPath.accessor) (w : World) (s : list N)
    (bytes : list Byte.byte) :
  text_encoding (Some "utf-8") = "utf-8" ->
  WebPath._accessor h = Some acc ->
  faults w = [] ->
  (exists f w1, SFTPClient_open (WebPath.__fspath__ h) "w" w = (Ok f, w1)) ->
  Utf8.encode s = Ok bytes ->
  fst (WebPath.write_text registry text_encoding (PyStr s) (Some "utf-8") None None (h, w))
  = Ok tt /\
  fst (WebPath.read_text registry text_encoding (Some "utf-8") None
         (snd (WebPath.write_text registry text_encoding (PyStr s) (Some "utf-8")
                 None None (h, w))))
  = Ok (PyStr s).
Proof.
  destruct h as [p a0 cached]. cbn [WebPath._accessor]. intros Hte -> Hf Hopen Henc.
  change (WebPath.__fspath__ _) with (PurePath.as_posix p) in Hopen.
  assert (Hpay : py_encode registry (PyStr s) (Some "utf-8") = Ok (PyBytes bytes)).
  { cbn. now rewrite Henc. }
  destruct (store_session registry (PurePath.as_posix p) "w" (Some "utf-8") None None
              (PyStr s) bytes w Hf eq_refl eq_refl eq_refl eq_refl eq_refl Hopen Hpay)
    as (w2 & Hrun & Hf2 & Hd2 & Hr2).
  unfold WebPath.write_text, WebPath.read_text. cbv zeta. rewrite Hte.
  rewrite handle_session, Hrun. cbn [fst snd]. split; [reflexivity|].
  rewrite handle_session. cbn [fst].
  rewrite (load_session registry (PurePath.as_posix p) "rt" (Some "utf-8") None None w2
             bytes Hf2 Hr2 Hd2 eq_refl eq_refl eq_refl eq_refl).
  cbn. now rewrite (decode_encode s bytes Henc).
Qed.

Lemma write_text_then_read_text_witness :
  fst (WebPath.read_text no_codecs (fun e => default "locale" e) (Some "utf-8") None
         (snd (WebPath.write_text no_codecs (fun e => default "locale" e)
                 (PyStr [104; 233; 8364; 128512]%N) (Some "utf-8") None None
                 (SFTPHandler.Path handler "note.txt", empty_world))))
  = Ok (PyStr [104; 233; 8364; 128512]%N).
Proof.
  refine (proj2 (write_text_then_read_text no_codecs (fun e => default "locale" e)
                   (SFTPHandler.Path handler "note.txt") handler empty_world
                   [104; 233; 8364; 128512]%N _ eq_refl eq_refl eq_refl _ eq_refl)).
  eexists. eexists. reflexivity.
Defined.

(** X14: The [errors] and [newline] a stream was opened with play no part in
    what [read] and [write] answer. *)
Theorem errors_and_newline_are_ignored
    (registry : string -> option codec) (f : SFTPFile.t) (encoding : option string)
    (e1 n1 e2 n2 : option string) (w : World) (size : option nat) (text : pydata) :
  fst (FileHandler.read registry size (FileHandler.mk f encoding e1 n1, w))
  = fst (FileHandler.read registry size (FileHandler.mk f encoding e2 n2, w)) /\
  snd (snd (FileHandler.read registry size (FileHandler.mk f encoding e1 n1, w)))
  = snd (snd (FileHandler.read registry size (FileHandler.mk f encoding e2 n2, w))) /\
  fst (FileHandler.write registry text (FileHandler.mk f encoding e1 n1, w))
  = fst (FileHandler.write registry text (FileHandler.mk f encoding e2 n2, w)) /\
  snd (snd (FileHandler.write registry text (FileHandler.mk f encoding e1 n1, w)))
  = snd (snd (FileHandler.write registry text (FileHandler.mk f encoding e2 n2, w))).
Proof.
  rewrite !read_equation, !write_equation. unfold FileHandler.zoom, FileHandler._is_binary.
  cbn [fst snd FileHandler.file_handler FileHandler.encoding FileHandler.errors
       FileHandler.newline].
  destruct (SFTPFile.read size (f, w)) as [[raw|e] [f' w']];
    cbn [fst snd FileHandler.file_handler FileHandler.encoding].
  - destruct (FileHandler.truthy (Z.land (SFTPFile._flags f') SFTPFile.FLAG_BINARY));
      (split; [reflexivity|]); (split; [reflexivity|]);
      destruct (FileHandler.truthy (Z.land (SFTPFile._flags f) SFTPFile.FLAG_BINARY));
      try (destruct (py_encode registry text encoding) as [bytes|e']);
      try (destruct (SFTPFile.write _ (f, w)) as [r [f2 w2]]); split; reflexivity.
  - (split; [reflexivity|]); (split; [reflexivity|]);
      destruct (FileHandler.truthy (Z.land (SFTPFile._flags f) SFTPFile.FLAG_BINARY));
      try (destruct (py_encode registry text encoding) as [bytes|e']);
      try (destruct (SFTPFile.write _ (f, w)) as [r [f2 w2]]); split; reflexivity.
Qed.

(** Bytes that are not UTF-8 make a text read raise, also on a stream
    opened with [errors="ignore"]. *)
Example errors_ignore_still_raises :
  fst (bind (SFTPHandler_open "bad.txt" (Some "r") (Some "utf-8") (Some "ignore") None)
            (fun f => with_handler f (FileHandler.read no_codecs None))
            (mkWorld [("bad.txt", file_attr "bad.txt" 7)] [] [("bad.txt", [Byte.xff])]
                     [] 100 []))
  = Raise UnicodeDecodeError.
Proof. vm_compute. reflexivity. Qed.

Lemma open_reading_log (fname mode : string) (w : World) :
  faults w = [] -> regular_at (norm fname) w ->
  SFTPFile.mode_has "w" mode = false ->
  SFTPFile.mode_has "x" mode = false ->
  SFTPFile.mode_has "a" mode = false ->
  log (snd (SFTPClient_open fname mode w)) = (log w ++ [EvOpen fname mode])%list.
Proof.
  intros Hf (a & Has & Hd) Hw Hx Ha. unfold SFTPClient_open.
  rewrite (prim_no_fault _ _ _ Hf). cbn [add_log remote remote_data].
  rewrite Has, Hd, Hw, Hx, Ha. reflexivity.
Qed.

(** Opening for reading, reading to the end and leaving the [with] block:
    the answer and the calls made. *)
Lemma load_session_calls (registry : string -> option codec) (fname mode : string)
    (encoding errors newline : option string) (w : World) (bytes : list Byte.byte) :
  faults w = [] ->
  regular_at (norm fname) w ->
  assoc (norm fname) (remote_data w) = Some bytes ->
  SFTPFile.mode_has "w" mode = false ->
  SFTPFile.mode_has "x" mode = false ->
  SFTPFile.mode_has "a" mode = false ->
  (Z.land (SFTPFile.flags_of_mode mode) SFTPFile.FLAG_READ =? 0) = false ->
  log (snd (bind (SFTPHandler_open fname (Some mode) encoding errors newline)
                 (fun f => with_handler f (FileHandler.read registry None)) w))
  = (log w ++ [EvOpen fname mode; EvRead (norm fname); EvClose (norm fname)])%list.
Proof.
  intros Hf Hr Hd Hw Hx Ha Hfr.
  pose proof (open_reading_log fname mode w Hf Hr Hw Hx Ha) as Hlog.
  destruct (open_reading fname mode w Hf Hr Hw Hx Ha) as (w1 & Hopen & Hf1 & Hd1).
  rewrite Hopen in Hlog. cbn [snd] in Hlog.
  rewrite Hd in Hd1.
  unfold SFTPHandler_open, bind at 1. unfold bind at 1.
  change (default "rb" (Some mode)) with mode. rewrite Hopen.
  unfold ret at 1. cbv beta iota.
  assert (Hbody :
    FileHandler.read registry None
      (FileHandler.mk (SFTPFile.mk (norm fname) (SFTPFile.flags_of_mode mode) 0 false)
                      encoding errors newline, w1)
    = (if SFTPFile.mode_has "b" mode then Ok (PyBytes bytes)
       else py_decode registry (PyBytes bytes) encoding,
       (FileHandler.mk
          (SFTPFile.mk (norm fname) (SFTPFile.flags_of_mode mode) (List.length bytes) false)
          encoding errors newline, add_log (EvRead (norm fname)) w1))).
  { rewrite read_equation. unfold FileHandler.zoom.
    cbn [fst snd FileHandler.file_handler].
    rewrite (raw_read_whole _ _ _ Hf1 Hfr), Hd1.
    cbn [fst snd FileHandler.file_handler FileHandler.encoding FileHandler.errors
         FileHandler.newline].
    unfold FileHandler._is_binary. cbn [FileHandler.file_handler SFTPFile._flags].
    rewrite is_binary_of_mode.
    destruct (SFTPFile.mode_has "b" mode); reflexivity. }
  rewrite (with_handler_closes _ _ _ _ _ _ Hbody); [|exact Hf1|reflexivity].
  cbn [snd add_log log FileHandler.file_handler SFTPFile.path]. rewrite Hlog.
  rewrite <- !app_assoc. reflexivity.
Qed.

(** X15: [read_text] on a file that is there, with no failure of the server:
    it answers what decoding the stored bytes answers, a string or the
    decoder's exception, and in both cases the calls made are one open, one
    read and one close.  The stream is closed also when decoding raises. *)
Theorem read_text_closes_the_stream
    (registry : string -> option codec) (text_encoding : option string -> string)
    (h : WebPath.t) (acc : WebPath.accessor) (w : World) (bytes : list Byte.byte)
    (encoding errors : option string) :
  WebPath._accessor h = Some acc ->
  faults w = [] ->
  regular_at (norm (WebPath.__fspath__ h)) w ->
  assoc (norm (WebPath.__fspath__ h)) (remote_data w) = Some bytes ->
  fst (WebPath.read_text registry text_encoding encoding errors (h, w))
  = py_decode registry (PyBytes bytes) (Some (text_encoding encoding)) /\
  log (snd (snd (WebPath.read_text registry text_encoding encoding errors (h, w))))
  = (log w ++ [EvOpen (WebPath.__fspath__ h) "rt";
               EvRead (norm (WebPath.__fspath__ h));
               EvClose (norm (WebPath.__fspath__ h))])%list.
Proof.
  destruct h as [p a0 cached]. cbn [WebPath._accessor]. intros -> Hf Hr Hd.
  change (WebPath.__fspath__ _) with (PurePath.as_posix p) in *.
  unfold WebPath.read_text. cbv zeta. rewrite handle_session. cbn [fst snd]. split.
  - now rewrite (load_session registry (PurePath.as_posix p) "rt"
                   (Some (text_encoding encoding)) errors None w bytes
                   Hf Hr Hd eq_refl eq_refl eq_refl eq_refl).
  - now rewrite (load_session_calls registry (PurePath.as_posix p) "rt"
                   (Some (text_encoding encoding)) errors None w bytes
                   Hf Hr Hd eq_refl eq_refl eq_refl eq_refl).
Qed.

Lemma read_text_closes_the_stream_witness :
  fst (WebPath.read_text no_codecs utf8_by_default None (Some "ignore")
         (SFTPHandler.Path handler "bad.txt", bad_text_world))
  = Raise UnicodeDecodeError /\
  log (snd (snd (WebPath.read_text no_codecs utf8_by_default None (Some "ignore")
                   (SFTPHandler.Path handler "bad.txt", bad_text_world))))
  = [EvOpen "bad.txt" "rt"; EvRead "bad.txt"; EvClose "bad.txt"].
Proof.
  apply (read_text_closes_the_stream no_codecs utf8_by_default
           (SFTPHandler.Path handler "bad.txt") handler bad_text_world [Byte.xff]
           None (Some "ignore") eq_refl eq_refl).
  - exists (file_attr "bad.txt" 7). split; reflexivity.
  - reflexivity.
Defined.

(** ** Snapshots: membership and comparison *)

Lemma os_stat_answer (path : string) (w : World) :
  Os.stat path w =
  (match fault_of (EvOsStat path) (faults w) with
   | Some e => Raise e
   | None => match assoc (norm path) (local w) with
             | Some a => Ok a
             | None => Raise FileNotFoundError
             end
   end, add_log (EvOsStat path) w).
Proof.
  unfold Os.stat, prim. destruct (fault_of _ (faults w)); [reflexivity|].
  cbn [add_log local]. destruct (assoc (norm path) (local w)); reflexivity.
Qed.

Lemma sftp_stat_answer (path : string) (w : World) :
  Sftp.stat path w =
  (match fault_of (EvStat path) (faults w) with
   | Some e => Raise e
   | None => match assoc (norm path) (remote w) with
             | Some a => Ok a
             | None => Raise FileNotFoundError
             end
   end, add_log (EvStat path) w).
Proof.
  unfold Sftp.stat, prim. destruct (fault_of _ (faults w)); [reflexivity|].
  cbn [add_log remote]. destruct (assoc (norm path) (remote w)); reflexivity.
Qed.

Lemma local_is_file_true (p : PurePath.t) (w w1 : World) :
  Os.is_file p w = (Ok true, w1) ->
  local w1 = local w /\
  exists a, assoc (norm (PurePath.as_posix p)) (local w) = Some a /\
            S_ISREG (st_mode a) = true.
Proof.
  unfold Os.is_file, try_except, bind, ret. rewrite os_stat_answer.
  destruct (fault_of _ (faults w)) as [e|].
  - destruct (is_FileNotFoundError e); intros H; discriminate H.
  - destruct (assoc (norm (PurePath.as_posix p)) (local w)) as [a|]; cbn.
    + intros H. injection H as Hreg <-. split; [reflexivity|]. eauto.
    + intros H. discriminate H.
Qed.

Lemma obj_is_file_keeps_local (o : pyobj) (w w1 : World) (r : result bool) :
  obj_is_file o w = (r, w1) -> local w1 = local w.
Proof.
  destruct o as [p|[p acc cached]|b]; cbn [obj_is_file].
  - unfold Os.is_file, try_except, bind, ret. rewrite os_stat_answer.
    destruct (fault_of _ (faults w)) as [e|].
    + destruct (is_FileNotFoundError e); intros H; now injection H as _ <-.
    + destruct (assoc _ (local w)); cbn; intros H; now injection H as _ <-.
  - unfold on_object. rewrite is_file_answer.
    unfold WebPath.stat, WebPath.via_accessor, bind, get_self, set_self, liftW, ret, raise.
    simpl. destruct cached as [a|]; simpl; [intros H; now injection H as _ <-|].
    destruct acc as [acc|]; simpl; [|intros H; now injection H as _ <-].
    rewrite sftp_stat_answer.
    destruct (fault_of _ (faults w)) as [e|]; simpl.
    + destruct (is_FileNotFoundError e); simpl; intros H; now injection H as _ <-.
    + destruct (assoc _ (remote w)); simpl; intros H; now injection H as _ <-.
  - unfold raise. intros H. now injection H as _ <-.
Qed.

Lemma any_equal_sound (path : PurePath.t) (l : list pyobj) :
  forall w w', TreeList.any_equal path l w = (Ok true, w') ->
    In (PPath path) l /\
    exists a, assoc (norm (PurePath.as_posix path)) (local w) = Some a /\
              S_ISREG (st_mode a) = true.
Proof.
  induction l as [|o l IH]; intros w w' H; [discriminate H|].
  cbn [TreeList.any_equal] in H. unfold bind in H.
  destruct (obj_is_file o w) as [[keep|e] w1] eqn:Hk; [|discriminate H].
  destruct (keep && TreeList.path_eq path o) eqn:Hm.
  - apply andb_prop in Hm as [-> Heq].
    destruct o as [p| |]; try discriminate Heq.
    cbn [TreeList.path_eq] in Heq. apply bool_decide_eq_true in Heq. subst p.
    split; [now left|]. cbn [obj_is_file] in Hk.
    exact (proj2 (local_is_file_true _ _ _ Hk)).
  - destruct (IH _ _ H) as [Hin (a & Ha & Hreg)].
    split; [now right|]. exists a.
    rewrite <- (obj_is_file_keeps_local _ _ _ _ Hk). auto.
Qed.

(** X16: [path in tree], for a local path: true only when the path is an entry
    of the snapshot and a regular file; a directory of the snapshot is not
    "in" it. *)
Theorem contains_means_listed_file (t : TreeList.t) (path : PurePath.t) (w w' : World) :
  TreeList.__contains__ t path w = (Ok true, w') ->
  In (PPath path) (TreeList.paths t) /\
  exists a, assoc (norm (PurePath.as_posix path)) (local w) = Some a /\
            S_ISREG (st_mode a) = true.
Proof. apply any_equal_sound. Qed.

Lemma contains_means_listed_file_witness :
  fst (TreeList.__contains__ local_snapshot (PurePath.parse "loc/b.txt") two_trees)
  = Ok true /\
  fst (TreeList.__contains__ local_snapshot (PurePath.parse "loc/a") two_trees)
  = Ok false /\
  In (PPath (PurePath.parse "loc/b.txt")) (TreeList.paths local_snapshot).
Proof.
  split; [reflexivity|]. split; [reflexivity|].
  apply (contains_means_listed_file local_snapshot (PurePath.parse "loc/b.txt") two_trees
           (snd (TreeList.__contains__ local_snapshot (PurePath.parse "loc/b.txt") two_trees))).
  reflexivity.
Defined.

Lemma map_r_raises {A B} (f : A -> result B) (l : list A) (a : A) :
  In a l -> (exists e, f a = Raise e) -> exists e, map_r f l = Raise e.
Proof.
  intros Hin [e He]. induction l as [|a0 l IH]; [destruct Hin|].
  simpl. destruct Hin as [->|Hin].
  - rewrite He. simpl. eauto.
  - destruct (f a0) as [b|e0]; simpl; [|eauto].
    destruct (IH Hin) as [e1 ->]. simpl. eauto.
Qed.

Lemma map_r_ok {A B} (f : A -> result B) (g : A -> B) (l : list A) :
  (forall a, In a l -> f a = Ok (g a)) -> map_r f l = Ok (List.map g l).
Proof.
  induction l as [|a l IH]; intros H; [reflexivity|].
  simpl. rewrite (H a (or_introl eq_refl)). simpl.
  rewrite IH; [reflexivity|]. intros b Hb. apply H. now right.
Qed.

Lemma map_M_raises {S A B} (f : A -> M S B) (l : list A) (a : A) :
  In a l -> always_raises (f a) -> always_raises (map_M f l).
Proof.
  intros Hin Hr. induction l as [|a0 l IH]; [destruct Hin|].
  intros s. simpl. unfold bind. destruct Hin as [->|Hin].
  - destruct (Hr s) as [e He]. destruct (f a s) as [[b|e0] s1]; simpl in *; [discriminate|eauto].
  - destruct (f a0 s) as [[b|e0] s1]; simpl; [|eauto].
    destruct (IH Hin s1) as [e He].
    destruct (map_M f l s1) as [[rest|e1] s2]; simpl in *; [discriminate|eauto].
Qed.

Lemma rel_of_remote_raises (t : TreeList.t) (h : WebPath.t) :
  exists e, TreeList._rel t (PWeb h) = Raise e.
Proof.
  unfold TreeList._rel. simpl.
  destruct (relative_to_raises h (TreeList.root t)) as [-> | ->]; simpl; eauto.
Qed.

Lemma key_of_remote_raises (t : TreeList.t) (h : WebPath.t) :
  always_raises (TreeList._key t (PWeb h)).
Proof.
  unfold TreeList._key. apply always_raises_bind. intros st.
  destruct (rel_of_remote_raises t h) as [e He]. unfold TreeList._rel in He.
  rewrite He. intros w. simpl. eauto.
Qed.

(** X17: Comparing snapshots needs every entry's path relative to its root, on
    both sides.  A remote handle has none ([WebPath.relative_to] never
    returns), so [diff] and [mod] raise as soon as either snapshot holds
    one. *)
Theorem comparison_raises_on_remote_entry (self other : TreeList.t) (h : WebPath.t) :
  In (PWeb h) (TreeList.paths self) \/ In (PWeb h) (TreeList.paths other) ->
  (exists e, TreeList.diff self other = Raise e) /\
  always_raises (TreeList.mod_ self other).
Proof.
  intros Hin. split.
  - unfold TreeList.diff.
    destruct (map_r (TreeList._rel other) (TreeList.paths other)) as [keys|e] eqn:Hk;
      simpl; [|eauto].
    destruct Hin as [Hin|Hin].
    + match goal with
      | |- context [map_r ?f ?l] =>
          destruct (map_r_raises f l (PWeb h) Hin) as [e ->]
      end; [|simpl; eauto].
      destruct (rel_of_remote_raises self h) as [e ->]. simpl. eauto.
    + destruct (map_r_raises _ _ _ Hin (rel_of_remote_raises other h)) as [e He].
      congruence.
  - unfold TreeList.mod_. destruct Hin as [Hin|Hin].
    + apply always_raises_bind. intros keys.
      intros s. unfold bind.
      match goal with
      | |- context [map_M ?f ?l s] =>
          destruct (map_M_raises f l (PWeb h) Hin) with (s := s) as [e He]
      end.
      * intros s'. unfold bind. destruct (key_of_remote_raises self h s') as [e He].
        destruct (TreeList._key self (PWeb h) s') as [[k|e'] s2]; simpl in *;
          [discriminate|eauto].
      * match goal with
        | |- context [map_M ?f ?l s] => destruct (map_M f l s) as [[r|e'] s1]
        end; simpl in *; [discriminate|eauto].
    + intros s. unfold bind.
      destruct (map_M_raises _ _ _ Hin (key_of_remote_raises other h) s) as [e He].
      destruct (map_M (TreeList._key other) (TreeList.paths other) s) as [[r|e'] s1];
        simpl in *; [discriminate|eauto].
Qed.

Lemma comparison_raises_on_remote_entry_witness :
  (exists e, TreeList.diff remote_snapshot local_snapshot = Raise e) /\
  always_raises (TreeList.mod_ remote_snapshot local_snapshot).
Proof.
  apply (comparison_raises_on_remote_entry remote_snapshot local_snapshot
           (WebPath.mk (PurePath.parse "a") (Some handler) (Some (dir_attr "a" 1000)))).
  left. simpl. left. reflexivity.
Defined.

Lemma rel_of_entry_below (path k : string) (l : list pyobj) :
  Os.is_below (PurePath.parse path) k = true ->
  exists r, TreeList._rel (TreeList.mk path l) (PPath (PurePath.parse k)) = Ok r.
Proof.
  unfold Os.is_below, TreeList._rel, obj_relative_to, PurePath.relative_to.
  cbn [TreeList.root].
  intros H. apply andb_prop in H as [Hroot Hparts].
  rewrite Hroot.
  destruct (PurePath.strip_prefix _ _) as [rest|]; [|discriminate]. simpl. eauto.
Qed.

Lemma diff_with_itself (t : TreeList.t) :
  (forall o, In o (TreeList.paths t) -> exists r, TreeList._rel t o = Ok r) ->
  TreeList.diff t t
  = Ok (TreeList.mk (TreeList.root t)
          (repeat (PBool false) (List.length (TreeList.paths t)))).
Proof.
  intros Hrel. unfold TreeList.diff.
  set (key := fun o => match TreeList._rel t o with Ok r => r | Raise _ => ""%string end).
  rewrite (map_r_ok (TreeList._rel t) key).
  2:{ intros o Ho. unfold key. destruct (Hrel o Ho) as [r ->]. reflexivity. }
  simpl. rewrite (map_r_ok _ (fun _ => PBool false)).
  2:{ intros o Ho. destruct (Hrel o Ho) as [r Hr]. rewrite Hr. simpl.
      rewrite bool_decide_eq_true_2; [reflexivity|].
      apply elem_of_list_to_set, list_elem_of_In, in_map_iff.
      exists o. split; [|exact Ho]. unfold key. now rewrite Hr. }
  simpl. f_equal. f_equal.
  clear. induction (TreeList.paths t) as [|o l IH]; simpl; [reflexivity|].
  f_equal. exact IH.
Qed.

(** X18: A snapshot of a local directory compared with itself: [diff] returns,
    with one [False] for every entry the snapshot holds (every entry found
    by [rglob] has a path relative to the root). *)
Theorem local_tree_diff_with_itself (path : string) (w w' : World) (t : TreeList.t) :
  SFTPHandler._local_tree path w = (Ok t, w') ->
  TreeList.diff t t
  = Ok (TreeList.mk path (repeat (PBool false) (List.length (TreeList.paths t)))).
Proof.
  unfold SFTPHandler._local_tree, TreeList.from_walk, bind, Os.rglob, prim.
  destruct (fault_of _ (faults w)); [discriminate|]. simpl.
  intros H. injection H as <- _.
  rewrite diff_with_itself; [reflexivity|].
  simpl. intros o Ho.
  apply in_map_iff in Ho as (p & <- & Hp).
  apply in_map_iff in Hp as ([k a] & <- & Hk).
  apply filter_In in Hk as [_ Hk]. simpl in *.
  now apply rel_of_entry_below.
Qed.

Lemma local_tree_diff_with_itself_witness :
  TreeList.diff local_snapshot local_snapshot
  = Ok (TreeList.mk "loc" (repeat (PBool false) 3)).
Proof.
  apply (local_tree_diff_with_itself "loc" two_trees
           (snd (SFTPHandler._local_tree "loc" two_trees)) local_snapshot).
  reflexivity.
Defined.

(** ** The engine: what the differential and recursive operations do *)

(** A snapshot of booleans stops the removal before its first call. *)
Lemma rm_tree_of_flags (P : event -> bool) (tree : TreeList.t) :
  Forall (fun o => is_flag o = true) (TreeList.paths tree) ->
  logs_only the_world P (SFTPHandler._rm_tree tree).
Proof.
  intros Hall w. exists []. rewrite app_nil_r. split; [|reflexivity].
  unfold SFTPHandler._rm_tree, TreeList.directories, TreeList.files, for_each.
  destruct (TreeList.paths tree) as [|o l]; [reflexivity|].
  inversion Hall as [|? ? Ho _]; subst.
  destruct o; try discriminate. reflexivity.
Qed.

Lemma logs_only_local_tree (P : event -> bool) (path : string) :
  P (EvRglob path) = true -> logs_only the_world P (SFTPHandler._local_tree path).
Proof.
  intros H. unfold SFTPHandler._local_tree, TreeList.from_walk.
  apply logs_only_bind; [|intros l; apply logs_only_ret].
  apply logs_only_bind; [apply logs_only_rglob, H|].
  intros l. apply logs_only_ret.
Qed.

Lemma logs_only_remote_tree (P : event -> bool) globals self depth path :
  (forall p, P (EvStat p) = true) -> (forall p, P (EvListdirAttr p) = true) ->
  logs_only the_world P (SFTPHandler._remote_tree globals self depth path).
Proof.
  intros H1 H2. unfold SFTPHandler._remote_tree, TreeList.from_walk.
  apply logs_only_bind; [now apply logs_only_walk|].
  intros l. apply logs_only_ret.
Qed.

(** X19: [rm_diff] removes nothing, whatever the two trees: it lists and stats,
    then raises.  Either the comparison raises on the first remote handle,
    or (empty remote tree) [reversed] is handed a filter object. *)
Theorem rm_diff_removes_nothing globals self depth localpath remotepath :
  always_raises (SFTPHandler.rm_diff globals self depth localpath remotepath) /\
  logs_only the_world only_looks
    (SFTPHandler.rm_diff globals self depth localpath remotepath).
Proof.
  unfold SFTPHandler.rm_diff. split.
  - apply always_raises_bind. intros rem_tree.
    apply always_raises_bind. intros loc_tree.
    apply always_raises_bind. intros rm_tree w. apply rm_tree_raises.
  - apply logs_only_bind; [apply logs_only_remote_tree; reflexivity|].
    intros rem_tree.
    apply logs_only_bind; [apply logs_only_local_tree; reflexivity|].
    intros loc_tree.
    apply (logs_only_bind_post _ _
             (fun t => Forall (fun o => is_flag o = true) (TreeList.paths t))).
    + apply logs_only_lift.
    + intros w t w' H. unfold lift in H. injection H as H _.
      now apply diff_flags in H.
    + intros t Ht. now apply rm_tree_of_flags.
Qed.

(** X20: [put_diff] uploads nothing, whatever the two trees: it never gets
    further than listing and stat calls (no [put], [mkdir] or [utime]),
    because [mod] hands [_put_tree] a snapshot of booleans or raises. *)
Theorem put_diff_uploads_nothing globals self depth localpath remotepath preserve_mtime :
  logs_only the_world only_looks
    (SFTPHandler.put_diff globals self depth localpath remotepath preserve_mtime).
Proof. apply put_diff_only_looks. Qed.

Lemma walk_yields_remote_handles globals self depth :
  forall path recurse w l w',
    SFTPHandler._walk globals self depth path recurse w = (Ok l, w') ->
    Forall (fun o => is_web o = true) l.
Proof.
  induction depth as [|d IH]; intros path recurse w l w' H; [discriminate|].
  cbn [SFTPHandler._walk] in H. unfold bind at 1 in H.
  destruct (Sftp.listdir_attr path w) as [[attrs|e] w1]; [|discriminate].
  eapply flat_map_M_spec; [|exact H].
  intros a s bs s' Hb. cbv beta in Hb. unfold bind in Hb.
  destruct (lift (WebPath.from_attr globals path (Some self) a) s) as [[node|e] s1];
    [|discriminate].
  destruct ((if recurse then on_object node WebPath.is_dir else ret false) s1)
    as [[descend|e] s2]; [|discriminate].
  destruct descend.
  - destruct (SFTPHandler._walk globals self d (WebPath.as_posix node) recurse s2)
      as [[below|e] s3] eqn:Hw; [|discriminate].
    injection Hb as <- _. constructor; [reflexivity | eauto].
  - injection Hb as <- _. constructor; [reflexivity | constructor].
Qed.

Lemma for_filter_same (pred : pyobj -> M World bool) (body1 body2 : pyobj -> M World unit)
    (l : list pyobj) :
  (forall o w, In o l -> body1 o w = body2 o w) ->
  forall w, for_filter pred l body1 w = for_filter pred l body2 w.
Proof.
  induction l as [|o l IH]; intros H w; [reflexivity|].
  simpl. unfold bind. destruct (pred o w) as [[keep|e] w1]; [|reflexivity].
  assert (Hb : (if keep then body1 o else ret tt) w1 = (if keep then body2 o else ret tt) w1).
  { destruct keep; [|reflexivity]. apply H. now left. }
  rewrite Hb. destruct ((if keep then body2 o else ret tt) w1) as [[u|e] w2]; [|reflexivity].
  apply IH. intros o' w' Ho'. apply H. now right.
Qed.

Lemma local_name_of_remote_raises (localpath remotepath : string) (h : WebPath.t) :
  exists e, SFTPHandler.local_name localpath remotepath (PWeb h) = Raise e.
Proof.
  unfold SFTPHandler.local_name. simpl.
  destruct (relative_to_raises h remotepath) as [-> | ->]; simpl; eauto.
Qed.

Lemma logs_only_for_filter_on (P : event -> bool) (pred : pyobj -> M World bool)
    (body : pyobj -> M World unit) (l : list pyobj) :
  (forall o, logs_only the_world P (pred o)) ->
  (forall o, In o l -> logs_only the_world P (body o)) ->
  logs_only the_world P (for_filter pred l body).
Proof.
  intros Hp. induction l as [|o l IH]; intros Hb; simpl.
  - apply logs_only_ret.
  - apply logs_only_bind; [apply Hp|]. intros keep.
    apply logs_only_bind.
    + apply logs_only_if; [apply Hb; now left | apply logs_only_ret].
    + intros _. apply IH. intros o' Ho'. apply Hb. now right.
Qed.

Lemma bind_same_on {S A B} (m : M S A) (k1 k2 : A -> M S B) (s : S) :
  (forall a s', m s = (Ok a, s') -> k1 a s' = k2 a s') -> bind m k1 s = bind m k2 s.
Proof.
  intros H. unfold bind. destruct (m s) as [[a|e] s1]; [|reflexivity]. now apply H.
Qed.

Lemma bind_same_first {S A B} (m1 m2 : M S A) (k : A -> M S B) (s : S) :
  m1 s = m2 s -> bind m1 k s = bind m2 k s.
Proof. intros H. unfold bind. now rewrite H. Qed.

Lemma remote_tree_of_remote_handles globals self depth path w t w' :
  SFTPHandler._remote_tree globals self depth path w = (Ok t, w') ->
  Forall (fun o => is_web o = true) (TreeList.paths t).
Proof.
  intros Ht. unfold SFTPHandler._remote_tree, TreeList.from_walk, bind in Ht.
  destruct (SFTPHandler._walk globals self depth path true w)
    as [[l|e] w2] eqn:Hw; [|discriminate].
  injection Ht as <- _. simpl. eapply walk_yields_remote_handles, Hw.
Qed.

(** What [get_r] comes down to: the loops stop at the local name of the
    first entry they keep. *)
Lemma get_r_skeleton globals self
    (get1 : string -> string -> M World unit) (mkdir1 : string -> M World unit)
    depth remotepath localpath preserve_mtime (w : World) :
  SFTPHandler.get_r globals self get1 mkdir1 depth remotepath localpath preserve_mtime w
  = bind (SFTPHandler._remote_tree globals self depth (norm remotepath)) (fun tree =>
    let stop := fun o =>
      bind (lift (SFTPHandler.local_name (norm localpath) (norm remotepath) o))
           (fun _ => ret tt) in
    bind (for_filter obj_is_dir (TreeList.paths tree) stop) (fun _ =>
    for_filter obj_is_file (TreeList.paths tree) stop)) w.
Proof.
  assert (Hbody : forall (k : string -> M World unit) lp rp h w,
            bind (lift (SFTPHandler.local_name lp rp (PWeb h))) k w
            = bind (lift (SFTPHandler.local_name lp rp (PWeb h))) (fun _ => ret tt) w).
  { intros k lp rp h w0. unfold bind, lift.
    destruct (local_name_of_remote_raises lp rp h) as [e ->]. reflexivity. }
  unfold SFTPHandler.get_r. cbv zeta.
  apply bind_same_on. intros tree w1 Ht.
  apply remote_tree_of_remote_handles in Ht. rewrite Forall_forall in Ht.
  assert (Hweb : forall (k : string -> M World unit) o w',
            In o (TreeList.paths tree) ->
            bind (lift (SFTPHandler.local_name (norm localpath) (norm remotepath) o)) k w'
            = bind (lift (SFTPHandler.local_name (norm localpath) (norm remotepath) o))
                   (fun _ => ret tt) w').
  { intros k o w' Ho. apply list_elem_of_In, Ht in Ho.
    destruct o as [|h|]; try discriminate. apply Hbody. }
  unfold TreeList.directories, TreeList.files, for_each.
  etransitivity.
  - apply bind_same_first. apply for_filter_same. intros o w' Ho. now apply Hweb.
  - apply bind_same_on. intros _ w2 _. apply for_filter_same.
    intros o w' Ho. now apply Hweb.
Qed.

(** X21: [get_r] downloads nothing, whatever the remote tree: the transfer and
    the local [mkdir] are never reached (the outcome is the same whatever
    they would do), and the calls made are listings and stats.  Every
    entry's local name needs [WebPath.relative_to], which never returns. *)
Theorem get_r_downloads_nothing globals self
    (get1 get2 : string -> string -> M World unit) (mkdir1 mkdir2 : string -> M World unit)
    depth remotepath localpath preserve_mtime :
  (forall w,
     SFTPHandler.get_r globals self get1 mkdir1 depth remotepath localpath preserve_mtime w
     = SFTPHandler.get_r globals self get2 mkdir2 depth remotepath localpath preserve_mtime w) /\
  logs_only the_world only_looks
    (SFTPHandler.get_r globals self get1 mkdir1 depth remotepath localpath preserve_mtime).
Proof.
  split.
  - intros w. now rewrite !get_r_skeleton.
  - unfold SFTPHandler.get_r.
    apply (logs_only_bind_post _ _
             (fun t => Forall (fun o => is_web o = true) (TreeList.paths t))).
    + apply logs_only_remote_tree; reflexivity.
    + intros w t w' Ht. eapply remote_tree_of_remote_handles, Ht.
    + intros tree Hweb. rewrite Forall_forall in Hweb.
      assert (Hraise : forall (k : string -> M World unit) o,
                In o (TreeList.paths tree) ->
                logs_only the_world only_looks
                  (bind (lift (SFTPHandler.local_name (norm localpath) (norm remotepath) o)) k)).
      { intros k o Ho. apply list_elem_of_In, Hweb in Ho.
        destruct o as [|h|]; try discriminate.
        apply logs_only_bind_raises; [|apply logs_only_lift].
        intros w. destruct (local_name_of_remote_raises (norm localpath) (norm remotepath) h)
          as [e He]. exists e. unfold lift. simpl. now rewrite He. }
      apply logs_only_bind.
      * apply logs_only_for_filter_on.
        -- intros o. apply logs_only_obj_is_dir; reflexivity.
        -- intros o Ho. now apply Hraise.
      * intros _. apply logs_only_for_filter_on.
        -- intros o. apply logs_only_obj_is_file; reflexivity.
        -- intros o Ho. now apply Hraise.
Qed.

(** X22: [get] with [preserve_mtime]: when it returns, the local file carries
    the access and modification times of the remote node, and the remote
    side is as the transfer left it. *)
Theorem get_preserving_copies_remote_times
    (transfer : string -> string -> M World unit)
    (remotepath localpath : string) (w w1 w' : World) :
  transfer remotepath localpath w = (Ok tt, w1) ->
  SFTPHandler.get transfer remotepath localpath (Some true) w = (Ok tt, w') ->
  remote w' = remote w1 /\
  exists a b,
    assoc (norm remotepath) (remote w1) = Some a /\
    assoc (norm localpath) (local w') = Some b /\
    st_atime b = st_atime a /\ st_mtime b = st_mtime a.
Proof.
  intros Ht. unfold SFTPHandler.get, bind. rewrite Ht. simpl.
  unfold SFTPHandler._copy_remote_time, bind. rewrite sftp_stat_answer.
  destruct (fault_of _ (faults w1)); [discriminate|].
  destruct (assoc (norm remotepath) (remote w1)) as [a|] eqn:Ha; [|discriminate].
  unfold Os.utime, prim. destruct (fault_of _ _); [discriminate|].
  cbv zeta. cbn [add_log local].
  destruct (assoc (norm localpath) (local w1)) as [b0|]; [|discriminate].
  intros H. injection H as <-. cbn. split; [reflexivity|].
  eexists a, _. split; [reflexivity|]. split; [apply assoc_set_same|].
  split; reflexivity.
Qed.

Lemma get_preserving_copies_remote_times_witness :
  remote (snd (SFTPHandler.get plain_transfer "c.txt" "loc/c.txt" (Some true) two_trees))
  = remote (snd (plain_transfer "c.txt" "loc/c.txt" two_trees)) /\
  exists a b,
    assoc (norm "c.txt") (remote (snd (plain_transfer "c.txt" "loc/c.txt" two_trees)))
    = Some a /\
    assoc (norm "loc/c.txt")
      (local (snd (SFTPHandler.get plain_transfer "c.txt" "loc/c.txt" (Some true) two_trees)))
    = Some b /\
    st_atime b = st_atime a /\ st_mtime b = st_mtime a.
Proof.
  apply (get_preserving_copies_remote_times plain_transfer "c.txt" "loc/c.txt" two_trees);
    reflexivity.
Defined.

(** X23: [put] with [preserve_mtime]: when it returns, what it returns is the
    remote node's stat after the stamping: the local file's size, and the
    local file's times cut down to whole seconds.  The local side is
    unchanged. *)
Theorem put_preserving_stamps_whole_seconds
    (localpath remotepath : string) (w w' : World) (a : SFTPAttributes) :
  SFTPHandler.put localpath remotepath (Some true) w = (Ok a, w') ->
  local w' = local w /\
  assoc (norm remotepath) (remote w') = Some a /\
  exists la,
    assoc (norm localpath) (local w) = Some la /\
    st_size a = st_size la /\
    st_atime a = inject_Z (py_int (st_atime la)) /\
    st_mtime a = inject_Z (py_int (st_mtime la)).
Proof.
  rewrite put_preserving. unfold bind, Sftp.put, prim.
  destruct (fault_of _ (faults w)); [discriminate|].
  cbn [add_log local remote].
  destruct (assoc (norm localpath) (local w)) as [la|] eqn:Hla; [|discriminate].
  cbv zeta.
  match goal with |- context [if ?c then _ else _] => destruct c end; [|discriminate].
  rewrite os_stat_answer. cbn [set_remote add_log local faults].
  destruct (fault_of _ (faults w)); [discriminate|]. rewrite Hla.
  unfold Sftp.utime, prim. cbn [set_remote add_log local faults remote].
  destruct (fault_of _ (faults w)); [discriminate|].
  cbv zeta. rewrite assoc_set_same.
  rewrite sftp_stat_answer. cbn [set_remote add_log local faults remote].
  destruct (fault_of _ (faults w)); [discriminate|].
  rewrite assoc_set_same.
  intros H. injection H as <- <-. cbn.
  split; [reflexivity|]. split; [apply assoc_set_same|].
  exists la. split; [reflexivity|]. split; [reflexivity|]. split; reflexivity.
Qed.

Lemma put_preserving_stamps_whole_seconds_witness :
  exists la,
    assoc (norm "src/sub/a.txt") (local upload_world) = Some la /\
    st_mtime (mkAttr "a.txt" (S_IFREG + 420) 3 (inject_Z 1000) (inject_Z 1000))
    = inject_Z (py_int (st_mtime la)).
Proof.
  destruct (put_preserving_stamps_whole_seconds "src/sub/a.txt" "sub/a.txt" upload_world
              (snd (SFTPHandler.put "src/sub/a.txt" "sub/a.txt" (Some true) upload_world))
              (mkAttr "a.txt" (S_IFREG + 420) 3 (inject_Z 1000) (inject_Z 1000)) eq_refl)
    as (_ & _ & la & Hla & _ & _ & Hm).
  exists la. split; [exact Hla | exact Hm].
Defined.

Lemma logs_only_utime (P : event -> bool) path atime mtime :
  P (EvUtime path atime mtime) = true ->
  logs_only the_world P (Sftp.utime path atime mtime).
Proof. intros H. apply logs_only_prim; [exact H | body_keeps_log]. Qed.

Lemma logs_only_os_utime (P : event -> bool) path atime mtime :
  P (EvOsUtime path atime mtime) = true ->
  logs_only the_world P (Os.utime path atime mtime).
Proof. intros H. apply logs_only_prim; [exact H | body_keeps_log]. Qed.

(** X24: [put_r] deletes nothing, with or without [preserve_mtime]: it never
    calls [remove] or [rmdir]. *)
Theorem put_r_deletes_nothing self localpath remotepath preserve_mtime :
  logs_only the_world (fun ev => negb (deletes ev))
    (SFTPHandler.put_r self localpath remotepath preserve_mtime).
Proof.
  unfold SFTPHandler.put_r. cbv zeta.
  apply logs_only_bind; [apply logs_only_local_tree; reflexivity|].
  intros tree. unfold SFTPHandler._put_tree. apply logs_only_bind.
  - apply logs_only_for_filter.
    + intros o. apply logs_only_obj_is_dir; reflexivity.
    + intros ld. apply logs_only_bind; [apply logs_only_lift|]. intros rd.
      apply logs_only_if; [apply logs_only_ret|].
      apply logs_only_bind; [apply logs_only_isdir; reflexivity|]. intros present.
      apply logs_only_bind.
      * apply logs_only_if; [apply logs_only_mkdir; reflexivity | apply logs_only_ret].
      * intros _. apply logs_only_if; [|apply logs_only_ret].
        apply logs_only_bind; [apply logs_only_lift|]. intros l.
        unfold SFTPHandler._copy_remote_time.
        apply logs_only_bind; [apply logs_only_stat; reflexivity|].
        intros st. apply logs_only_os_utime. reflexivity.
  - intros _. apply logs_only_for_filter.
    + intros o. apply logs_only_obj_is_file; reflexivity.
    + intros lf. apply logs_only_bind; [apply logs_only_lift|]. intros rf.
      apply logs_only_bind; [apply logs_only_lift|]. intros l.
      apply logs_only_bind; [|intros _; apply logs_only_ret].
      unfold SFTPHandler.put.
      apply logs_only_bind; [apply logs_only_put; reflexivity|].
      intros a. apply logs_only_if; [|apply logs_only_ret].
      apply logs_only_bind; [|intros _; apply logs_only_stat; reflexivity].
      unfold SFTPHandler._copy_local_time.
      apply logs_only_bind; [apply logs_only_os_stat; reflexivity|].
      intros st. apply logs_only_utime. reflexivity.
Qed.

(** ** The remote walk, with and without the missing name *)

Lemma flat_map_M_same {S A B} (f g : A -> M S (list B)) (l : list A) :
  (forall a s, f a s = g a s) -> forall s, flat_map_M f l s = flat_map_M g l s.
Proof.
  intros H. induction l as [|a l IH]; intros s; [reflexivity|].
  simpl. unfold bind. rewrite H. destruct (g a s) as [[bs|e] s1]; [|reflexivity].
  now rewrite IH.
Qed.

Lemma from_attr_when_Path_is_bound (globals : list string) parent acc stat :
  WebPath.resolve globals "Path" = Ok tt ->
  WebPath.from_attr globals parent acc stat
  = WebPath.from_attr globals_with_Path parent acc stat.
Proof. intros H. unfold WebPath.from_attr. now rewrite H. Qed.

Lemma walk_when_Path_is_bound (globals : list string) self depth :
  WebPath.resolve globals "Path" = Ok tt ->
  forall path recurse w,
    SFTPHandler._walk globals self depth path recurse w
    = SFTPHandler._walk globals_with_Path self depth path recurse w.
Proof.
  intros H. induction depth as [|d IH]; intros path recurse w; [reflexivity|].
  cbn [SFTPHandler._walk]. apply bind_same_on. intros attrs w1 _.
  apply flat_map_M_same. intros a s.
  rewrite (from_attr_when_Path_is_bound globals _ _ _ H).
  apply bind_same_on. intros node s1 _.
  apply bind_same_on. intros descend s2 _.
  apply bind_same_first. destruct descend; [apply IH | reflexivity].
Qed.

(** X25: [webpath.py] does not bind [Path]; where the name is bound (an import
    added, or the module patched), a deep enough walk of a directory whose
    listings are those of a tree yields the tree in pre-order: every node
    before what it holds, every subtree before the next sibling, at the
    cost of one listing per directory and no other call. *)
Theorem walk_yields_tree_in_preorder (globals : list string) (self : WebPath.accessor)
    (depth : nat) (kids : list rnode) (path : string) (w : World) :
  WebPath.resolve globals "Path" = Ok tt ->
  forest_listed self w path kids ->
  (forest_height kids < depth)%nat ->
  SFTPHandler._walk globals self depth path true w
  = (Ok (flat_map (preorder self path) kids),
     extend_log (EvListdirAttr path :: flat_map (listings self path) kids) w).
Proof.
  intros Hp [Hlist Hl] Hh. rewrite (walk_when_Path_is_bound globals self depth Hp).
  now apply (walk_forest self (remote w) (faults w)).
Qed.

Lemma walk_yields_tree_in_preorder_witness :
  SFTPHandler._walk globals_with_Path handler 10 "." true sample_world
  = (Ok (flat_map (preorder handler ".") sample_forest),
     extend_log (EvListdirAttr "." :: flat_map (listings handler ".") sample_forest)
       sample_world).
Proof.
  apply (walk_yields_tree_in_preorder globals_with_Path handler 10 sample_forest "."
           sample_world).
  - reflexivity.
  - vm_compute. repeat split.
  - vm_compute. lia.
Defined.

(** X26: [listdir_r] as the module stands: it lists an empty directory (nothing)
    and raises [NameError] on any other, before it yields a single name. *)
Theorem listdir_r_lists_only_empty_directories (self : WebPath.accessor) (depth : nat)
    (path : option string) (w w' : World) (l : list SFTPAttributes) :
  Sftp.listdir_attr (default "." path) w = (Ok l, w') ->
  SFTPHandler.listdir_r WebPath.module_globals self (S depth) path w
  = (match l with
     | [] => Ok []
     | _ :: _ => Raise (NameError "Path")
     end, w').
Proof.
  intros H. unfold SFTPHandler.listdir_r. destruct l as [|a l].
  - cbn [SFTPHandler._walk]. unfold bind. rewrite H. reflexivity.
  - unfold bind at 1. now rewrite (walk_raises_on_first_entry _ _ _ _ _ _ _ _ H).
Qed.

Lemma listdir_r_lists_only_empty_directories_witness :
  fst (SFTPHandler.listdir_r WebPath.module_globals handler 10 None remote_d_e_f)
  = Raise (NameError "Path") /\
  fst (SFTPHandler.listdir_r WebPath.module_globals handler 10 (Some "d/e/f.txt") empty_world)
  = Raise FileNotFoundError /\
  fst (SFTPHandler.listdir_r WebPath.module_globals handler 10 None empty_world) = Ok [].
Proof.
  split; [|split; reflexivity].
  rewrite (listdir_r_lists_only_empty_directories handler 9 None remote_d_e_f
             (snd (Sftp.listdir_attr "." remote_d_e_f)) [dir_attr "d" 5] eq_refl).
  reflexivity.
Defined.
